(** * Personal accountant: the deterministic decision layer

    A shallow embedding of the rule-based core of the repository:

    - [src/agents/ai_agents.py]: [QueryAgent._resolve_time_reference] and
      [QueryAgent.intent_to_query];
    - [src/services/storage/google_sheets.py]:
      [GoogleSheetsBillStorage.list_bills] and [bill_exists];
    - [src/queries/executor.py]: [QueryExecutor];
    - [src/validation/validator.py]: [BillValidator].

    Conventions.  Python [str] values are Rocq strings and the case and
    whitespace operations are the ASCII ones.  [Decimal] amounts are exact
    rationals; binary floating point is an interface, [PyFloat], that the
    executor is stated over.  Python exceptions are values of [exn]; code
    that may raise returns in the [result] monad.  [date.today()] is an
    explicit [today] argument, and a fresh [uuid4()] an explicit
    identifier.  [await] is an ordinary call.  A [dict] is an association
    list in insertion order. *)

From Stdlib Require Import ZArith QArith Qabs List String Ascii Bool Lia.
From Stdlib Require Import DecimalString.
From Stdlib Require Permutation Sorted.
Import ListNotations.

Local Open Scope string_scope.
Local Open Scope Z_scope.

(* ================================================================= *)
(** ** Exceptions *)

(** A raised Python exception: its class name and [str(e)]. *)
Inductive exn : Type :=
| Exn (cls : string) (text : string).

Definition exn_str (e : exn) : string :=
  match e with Exn _ text => text end.

Inductive result (A : Type) : Type :=
| Ok (a : A)
| Raise (e : exn).

Arguments Ok {A} a.
Arguments Raise {A} e.

Definition bind {A B : Type} (m : result A) (k : A -> result B) : result B :=
  match m with
  | Ok a => k a
  | Raise e => Raise e
  end.

Notation "x <- m ;; k" := (bind m (fun x => k))
  (at level 61, m at next level, right associativity).

(** [try: m except Exception as e: h e] *)
Definition try_except {A : Type} (m : result A) (h : exn -> result A)
  : result A :=
  match m with
  | Ok a => Ok a
  | Raise e => h e
  end.

(* ================================================================= *)
(** ** Python strings *)

(** A [str] is modelled by its characters as a [string].  On ASCII text
    (every character below 128) the functions of this module are the
    methods of [str] they are named after; [str.lower], [str.strip], the
    digit class of [re] and [str.isalpha] also act on characters beyond
    ASCII, which this module leaves alone.  A statement whose truth
    depends on the difference carries [isascii] as a hypothesis. *)
Module PyStr.

(** [s.isascii()] *)
Fixpoint isascii (s : string) : bool :=
  match s with
  | EmptyString => true
  | String c r => (Nat.ltb (nat_of_ascii c) 128 && isascii r)%bool
  end.

Definition is_upper (c : ascii) : bool :=
  let n := nat_of_ascii c in (Nat.leb 65 n && Nat.leb n 90)%bool.

Definition lower_char (c : ascii) : ascii :=
  if is_upper c then ascii_of_nat (nat_of_ascii c + 32) else c.

(** [s.lower()] *)
Fixpoint lower (s : string) : string :=
  match s with
  | EmptyString => EmptyString
  | String c r => String (lower_char c) (lower r)
  end.

(** [c.isspace()] on ASCII: TAB..CR, FS..US and the blank. *)
Definition is_space (c : ascii) : bool :=
  let n := nat_of_ascii c in
  ((Nat.leb 9 n && Nat.leb n 13) || (Nat.leb 28 n && Nat.leb n 32))%bool.

Fixpoint lstrip (s : string) : string :=
  match s with
  | EmptyString => EmptyString
  | String c r => if is_space c then lstrip r else s
  end.

Fixpoint rev_onto (s acc : string) : string :=
  match s with
  | EmptyString => acc
  | String c r => rev_onto r (String c acc)
  end.

Definition rev (s : string) : string := rev_onto s EmptyString.

Definition rstrip (s : string) : string := rev (lstrip (rev s)).

(** [s.strip()] *)
Definition strip (s : string) : string := rstrip (lstrip s).

(** [needle in hay] *)
Fixpoint contains (needle hay : string) : bool :=
  if String.prefix needle hay then true
  else match hay with
       | EmptyString => false
       | String _ r => contains needle r
       end.

(** [s in names], for a list of strings *)
Definition in_list (s : string) (names : list string) : bool :=
  existsb (String.eqb s) names.

(** [c.isalpha()] on ASCII *)
Definition is_alpha (c : ascii) : bool :=
  let n := nat_of_ascii c in
  ((Nat.leb 65 n && Nat.leb n 90) || (Nat.leb 97 n && Nat.leb n 122))%bool.

Definition is_digit (c : ascii) : bool :=
  let n := nat_of_ascii c in (Nat.leb 48 n && Nat.leb n 57)%bool.

Definition digit_val (c : ascii) : Z := Z.of_nat (nat_of_ascii c) - 48.

(** [sum(1 for c in name if c.isalpha())], for an ASCII name *)
Fixpoint count_alpha (s : string) : Z :=
  match s with
  | EmptyString => 0
  | String c r => (if is_alpha c then 1 else 0) + count_alpha r
  end.

Definition len (s : string) : Z := Z.of_nat (String.length s).

(** Truthiness of a string: non-empty. *)
Definition truthy (s : string) : bool :=
  match s with EmptyString => false | _ => true end.

(** [str(n)] for an integer *)
Definition of_Z (n : Z) : string := NilZero.string_of_int (Z.to_int n).

(** [sep.join(parts)] *)
Fixpoint join (sep : string) (parts : list string) : string :=
  match parts with
  | [] => ""
  | [p] => p
  | p :: rest => p ++ sep ++ join sep rest
  end.

(** Zero padding to a width, as [%02d] and [%04d] do. *)
Fixpoint zeros (k : nat) : string :=
  match k with
  | O => ""
  | S k' => String "0" (zeros k')
  end.

Definition zfill (width : nat) (n : Z) : string :=
  let s := of_Z n in zeros (width - String.length s) ++ s.

End PyStr.

(* ================================================================= *)
(** ** Python dates

    [datetime.date] with the proleptic Gregorian arithmetic of CPython's
    [datetime] module: the constructor checks its fields and raises
    [ValueError]; adding a [timedelta] goes through ordinals and raises
    [OverflowError] outside [date.min .. date.max]. *)

Module PyDate.

Record date : Type := mkdate { year : Z; month : Z; day : Z }.

Definition MINYEAR : Z := 1.
Definition MAXYEAR : Z := 9999.
Definition MAXORDINAL : Z := 3652059.

Definition is_leap (y : Z) : bool :=
  ((y mod 4 =? 0) && (negb (y mod 100 =? 0) || (y mod 400 =? 0)))%bool.

(** [_DAYS_IN_MONTH], 1-based; the entry for index 0 is -1. *)
Definition DAYS_IN_MONTH (m : Z) : Z :=
  match m with
  | 1 => 31 | 2 => 28 | 3 => 31 | 4 => 30 | 5 => 31 | 6 => 30
  | 7 => 31 | 8 => 31 | 9 => 30 | 10 => 31 | 11 => 30 | 12 => 31
  | _ => -1
  end.

(** [_DAYS_BEFORE_MONTH] *)
Definition DAYS_BEFORE_MONTH (m : Z) : Z :=
  match m with
  | 1 => 0 | 2 => 31 | 3 => 59 | 4 => 90 | 5 => 120 | 6 => 151
  | 7 => 181 | 8 => 212 | 9 => 243 | 10 => 273 | 11 => 304 | 12 => 334
  | _ => -1
  end.

Definition days_in_month (y m : Z) : Z :=
  if ((m =? 2) && is_leap y)%bool then 29 else DAYS_IN_MONTH m.

Definition days_before_year (y : Z) : Z :=
  let y1 := y - 1 in y1 * 365 + y1 / 4 - y1 / 100 + y1 / 400.

Definition days_before_month (y m : Z) : Z :=
  DAYS_BEFORE_MONTH m + (if ((2 <? m) && is_leap y)%bool then 1 else 0).

Definition ymd2ord (y m d : Z) : Z :=
  days_before_year y + days_before_month y m + d.

Definition DI400Y : Z := 146097.
Definition DI100Y : Z := 36524.
Definition DI4Y : Z := 1461.

Definition ord2ymd (n0 : Z) : date :=
  let n := n0 - 1 in
  let n400 := n / DI400Y in
  let n := n mod DI400Y in
  let y := n400 * 400 + 1 in
  let n100 := n / DI100Y in
  let n := n mod DI100Y in
  let n4 := n / DI4Y in
  let n := n mod DI4Y in
  let n1 := n / 365 in
  let n := n mod 365 in
  let y := y + n100 * 100 + n4 * 4 + n1 in
  if ((n1 =? 4) || (n100 =? 4))%bool then mkdate (y - 1) 12 31
  else
    let leapyear := ((n1 =? 3) && (negb (n4 =? 24) || (n100 =? 3)))%bool in
    let m := Z.shiftr (n + 50) 5 in
    let preceding :=
      DAYS_BEFORE_MONTH m + (if ((2 <? m) && leapyear)%bool then 1 else 0) in
    if n <? preceding then
      let m' := m - 1 in
      let preceding' :=
        preceding
        - (DAYS_IN_MONTH m'
           + (if ((m' =? 2) && leapyear)%bool then 1 else 0)) in
      mkdate y m' (n - preceding' + 1)
    else mkdate y m (n - preceding + 1).

Definition valid (d : date) : bool :=
  ((MINYEAR <=? year d) && (year d <=? MAXYEAR)
   && (1 <=? month d) && (month d <=? 12)
   && (1 <=? day d) && (day d <=? days_in_month (year d) (month d)))%bool.

(** [date(y, m, d)] *)
Definition new (y m d : Z) : result date :=
  if negb ((MINYEAR <=? y) && (y <=? MAXYEAR))%bool
  then Raise (Exn "ValueError" ("year " ++ PyStr.of_Z y ++ " is out of range"))
  else if negb ((1 <=? m) && (m <=? 12))%bool
  then Raise (Exn "ValueError" "month must be in 1..12")
  else if negb ((1 <=? d) && (d <=? days_in_month y m))%bool
  then Raise (Exn "ValueError" "day is out of range for month")
  else Ok (mkdate y m d).

(** [d.replace(year=.., month=.., day=..)]; an absent keyword keeps the
    field. *)
Definition replace (d : date) (y m dd : option Z) : result date :=
  new (match y with Some v => v | None => year d end)
      (match m with Some v => v | None => month d end)
      (match dd with Some v => v | None => day d end).

Definition toordinal (d : date) : Z := ymd2ord (year d) (month d) (day d).

(** [d + timedelta(days=n)] *)
Definition add_days (d : date) (n : Z) : result date :=
  let o := toordinal d + n in
  if ((0 <? o) && (o <=? MAXORDINAL))%bool then Ok (ord2ymd o)
  else Raise (Exn "OverflowError" "date value out of range").

(** [d - timedelta(days=n)] *)
Definition sub_days (d : date) (n : Z) : result date := add_days d (- n).

(** Comparison of dates is that of the (year, month, day) triples. *)
Definition ltb (a b : date) : bool :=
  ((year a <? year b)
   || ((year a =? year b)
       && ((month a <? month b)
           || ((month a =? month b) && (day a <? day b)))))%bool.

Definition eqb (a b : date) : bool :=
  ((year a =? year b) && (month a =? month b) && (day a =? day b))%bool.

Definition leb (a b : date) : bool := negb (ltb b a).

(** [d.isoformat()], also [str(d)] *)
Definition isoformat (d : date) : string :=
  PyStr.zfill 4 (year d) ++ "-" ++ PyStr.zfill 2 (month d) ++ "-"
  ++ PyStr.zfill 2 (day d).

(** [%B] in the C locale *)
Definition month_name (m : Z) : string :=
  match m with
  | 1 => "January" | 2 => "February" | 3 => "March" | 4 => "April"
  | 5 => "May" | 6 => "June" | 7 => "July" | 8 => "August"
  | 9 => "September" | 10 => "October" | 11 => "November"
  | 12 => "December" | _ => ""
  end.

(** [%b] in the C locale *)
Definition month_abbr (m : Z) : string :=
  String.substring 0 3 (month_name m).

(** [%Y], as glibc prints it (no padding) *)
Definition fmt_Y (d : date) : string := PyStr.of_Z (year d).

(** [d.strftime('%d %b %Y')] *)
Definition strftime_d_b_Y (d : date) : string :=
  PyStr.zfill 2 (day d) ++ " " ++ month_abbr (month d) ++ " " ++ fmt_Y d.

(** [d.strftime('%B %Y')] *)
Definition strftime_B_Y (d : date) : string :=
  month_name (month d) ++ " " ++ fmt_Y d.

(** [d.strftime('%b')] *)
Definition strftime_b (d : date) : string := month_abbr (month d).

(** [d.strftime('%b %Y')] *)
Definition strftime_b_Y (d : date) : string :=
  month_abbr (month d) ++ " " ++ fmt_Y d.

(** [d.strftime('%Y-%m')] *)
Definition strftime_Y_m (d : date) : string :=
  fmt_Y d ++ "-" ++ PyStr.zfill 2 (month d).

End PyDate.

Import PyDate.

(* ================================================================= *)
(** ** Data model ([src/models/bill.py]) *)

(** [Decimal]: an exact rational. *)
Definition Decimal : Type := Q.

(** Truthiness of a [Decimal]: non-zero. *)
Definition decimal_truthy (a : Decimal) : bool := negb (Qeq_bool a 0).

Definition Qltb (a b : Q) : bool := negb (Qle_bool b a).

(** Truthiness of an optional string ([if intent.category:]). *)
Definition opt_truthy (o : option string) : bool :=
  match o with
  | Some s => PyStr.truthy s
  | None => false
  end.

Definition is_some {A : Type} (o : option A) : bool :=
  match o with Some _ => true | None => false end.

Module BillCategory.
Inductive t : Type :=
| ELECTRICITY | WATER | GAS | INTERNET | MOBILE | GROCERIES
| MEDICAL | INSURANCE | RENT | MAINTENANCE | FUEL | OTHER.

Definition value (c : t) : string :=
  match c with
  | ELECTRICITY => "electricity" | WATER => "water" | GAS => "gas"
  | INTERNET => "internet" | MOBILE => "mobile"
  | GROCERIES => "groceries" | MEDICAL => "medical"
  | INSURANCE => "insurance" | RENT => "rent"
  | MAINTENANCE => "maintenance" | FUEL => "fuel" | OTHER => "other"
  end.

Definition all : list t :=
  [ELECTRICITY; WATER; GAS; INTERNET; MOBILE; GROCERIES;
   MEDICAL; INSURANCE; RENT; MAINTENANCE; FUEL; OTHER].

(** [BillCategory(s)]: lookup by value, [ValueError] when there is none. *)
Definition of_value (s : string) : result t :=
  match find (fun c => String.eqb (value c) s) all with
  | Some c => Ok c
  | None =>
      Raise (Exn "ValueError" (s ++ " is not a valid BillCategory"))
  end.

Definition eqb (a b : t) : bool := String.eqb (value a) (value b).
End BillCategory.

Module PaymentStatus.
Inductive t : Type := UNPAID | PAID | PARTIAL | OVERDUE.

Definition value (p : t) : string :=
  match p with
  | UNPAID => "unpaid" | PAID => "paid"
  | PARTIAL => "partial" | OVERDUE => "overdue"
  end.

Definition eqb (a b : t) : bool := String.eqb (value a) (value b).
End PaymentStatus.

Module VendorInfo.
Record t : Type := mk { name : string }.
End VendorInfo.

Module ExtractedBillData.
Record t : Type := mk {
  extraction_id : string;
  confidence_score : Q;
  vendor : option VendorInfo.t;
  bill_number : option string;
  bill_date : option date;
  due_date : option date;
  billing_period_start : option date;
  billing_period_end : option date;
  subtotal : option Decimal;
  tax_amount : option Decimal;
  total_amount : option Decimal
}.
End ExtractedBillData.

Module ConfirmedBill.
Record t : Type := mk {
  id : string;
  vendor_name : string;
  category : BillCategory.t;
  total_amount : Decimal;
  bill_date : date;
  bill_number : option string;
  due_date : option date;
  payment_status : PaymentStatus.t
}.
End ConfirmedBill.

Module StructuredQuery.
Record t : Type := mk {
  query_id : string;
  original_question : string;
  query_type : string;
  category_filter : option BillCategory.t;
  vendor_filter : option string;
  date_from : option date;
  date_to : option date;
  payment_status_filter : option PaymentStatus.t;
  aggregation_type : option string;
  group_by : option string;
  limit : Z
}.

Definition query_types : list string :=
  ["lookup"; "aggregate"; "compare"; "list"; "exists"].

(** The constructor with the field validation of the model: the pattern
    on [query_type]; [limit] takes its default, 10. *)
Definition new (query_id original_question query_type : string)
    (category_filter : option BillCategory.t)
    (vendor_filter : option string) (date_from date_to : option date)
    (payment_status_filter : option PaymentStatus.t)
    (aggregation_type group_by : option string) : result t :=
  if PyStr.in_list query_type query_types then
    Ok (mk query_id original_question query_type category_filter
           vendor_filter date_from date_to payment_status_filter
           aggregation_type group_by 10)
  else Raise (Exn "ValidationError"
                  "1 validation error for StructuredQuery").
End StructuredQuery.

Module QueryIntent.
Record t : Type := mk {
  query_type : string;
  target_entity : string;
  category : option string;
  vendor : option string;
  time_reference : option string;
  payment_status : option string;
  aggregation : option string;
  group_by : option string
}.
End QueryIntent.

(* ================================================================= *)
(** ** The query agent ([src/agents/ai_agents.py]) *)

Module QueryAgent.

Definition months : list (string * Z) :=
  [("january", 1); ("february", 2); ("march", 3); ("april", 4);
   ("may", 5); ("june", 6); ("july", 7); ("august", 8);
   ("september", 9); ("october", 10); ("november", 11);
   ("december", 12)].

(** [re.search(r"20\d{2}", s)] followed by [int(match.group())]:
    the leftmost "20" followed by two digits.  The digits are those of
    ASCII; in a [str] pattern the class also takes the decimal digits
    of other scripts. *)
Fixpoint year_search (s : string) : option Z :=
  match s with
  | EmptyString => None
  | String c r =>
      match s with
      | String "2" (String "0" (String d1 (String d2 _))) =>
          if (PyStr.is_digit d1 && PyStr.is_digit d2)%bool
          then Some (2000 + 10 * PyStr.digit_val d1 + PyStr.digit_val d2)
          else year_search r
      | _ => year_search r
      end
  end.

(** The body of the loop over [months.items()] at its first hit. *)
Definition month_branch (today : date) (month_num : Z)
  : result (option date * option date) :=
  let year := year today in
  let year := if month today <? month_num then year - 1 else year in
  start <- PyDate.new year month_num 1 ;;
  end_ <- (if month_num =? 12
           then d <- PyDate.new (year + 1) 1 1 ;; sub_days d 1
           else d <- PyDate.new year (month_num + 1) 1 ;; sub_days d 1) ;;
  Ok (Some start, Some end_).

Definition _resolve_time_reference (today : date) (time_ref : option string)
  : result (option date * option date) :=
  if negb (opt_truthy time_ref) then Ok (None, None)
  else
    let time_ref :=
      PyStr.strip (PyStr.lower (match time_ref with
                                | Some s => s
                                | None => ""
                                end)) in
    if PyStr.in_list time_ref ["this month"; "current month"] then
      start <- replace today None None (Some 1) ;;
      end_ <- (if month today =? 12
               then d <- replace today (Some (year today + 1)) (Some 1)
                                 (Some 1) ;;
                    sub_days d 1
               else d <- replace today None (Some (month today + 1))
                                 (Some 1) ;;
                    sub_days d 1) ;;
      Ok (Some start, Some end_)
    else if PyStr.in_list time_ref ["last month"; "previous month"] then
      first_of_this_month <- replace today None None (Some 1) ;;
      end_ <- sub_days first_of_this_month 1 ;;
      start <- replace end_ None None (Some 1) ;;
      Ok (Some start, Some end_)
    else if PyStr.in_list time_ref ["this year"; "current year"] then
      start <- replace today None (Some 1) (Some 1) ;;
      end_ <- replace today None (Some 12) (Some 31) ;;
      Ok (Some start, Some end_)
    else if PyStr.in_list time_ref ["last year"; "previous year"] then
      start <- replace today (Some (year today - 1)) (Some 1) (Some 1) ;;
      end_ <- replace today (Some (year today - 1)) (Some 12) (Some 31) ;;
      Ok (Some start, Some end_)
    else
      match find (fun kv => PyStr.contains (fst kv) time_ref) months with
      | Some (_, month_num) => month_branch today month_num
      | None =>
          match year_search time_ref with
          | Some year =>
              start <- PyDate.new year 1 1 ;;
              end_ <- PyDate.new year 12 31 ;;
              Ok (Some start, Some end_)
          | None => Ok (None, None)
          end
      end.

(** The payment-status branch of [intent_to_query]. *)
Definition payment_filter_of (payment_status : option string)
  : option PaymentStatus.t :=
  if opt_truthy payment_status then
    let status_lower :=
      PyStr.lower (match payment_status with
                   | Some s => s
                   | None => ""
                   end) in
    if (PyStr.contains "paid" status_lower
        && negb (PyStr.contains "un" status_lower))%bool
    then Some PaymentStatus.PAID
    else if (PyStr.contains "unpaid" status_lower
             || PyStr.contains "not paid" status_lower)%bool
    then Some PaymentStatus.UNPAID
    else if PyStr.contains "overdue" status_lower
    then Some PaymentStatus.OVERDUE
    else None
  else None.

Definition category_filter_of (category : option string)
  : option BillCategory.t :=
  match category with
  | Some s =>
      if PyStr.truthy s then
        match BillCategory.of_value (PyStr.lower s) with
        | Ok c => Some c
        | Raise _ => None
        end
      else None
  | None => None
  end.

Definition agg_type_of (aggregation : option string) : option string :=
  match aggregation with
  | Some s =>
      if PyStr.truthy s then
        let agg_lower := PyStr.lower s in
        if PyStr.in_list agg_lower ["sum"; "total"] then Some "sum"
        else if PyStr.in_list agg_lower ["count"; "number"]
        then Some "count"
        else if PyStr.in_list agg_lower ["average"; "avg"; "mean"]
        then Some "average"
        else if PyStr.in_list agg_lower ["min"; "minimum"; "lowest"]
        then Some "min"
        else if PyStr.in_list agg_lower ["max"; "maximum"; "highest"]
        then Some "max"
        else None
      else None
  | None => None
  end.

Definition group_of (group_by : option string) : option string :=
  match group_by with
  | Some s =>
      if PyStr.truthy s then
        if PyStr.in_list (PyStr.lower s) ["category"; "type"]
        then Some "category"
        else if PyStr.in_list (PyStr.lower s) ["vendor"; "company"]
        then Some "vendor"
        else if PyStr.in_list (PyStr.lower s) ["month"] then Some "month"
        else if PyStr.in_list (PyStr.lower s) ["year"] then Some "year"
        else None
      else None
  | None => None
  end.

(** [intent_to_query]; [query_id] is the fresh identifier the model
    draws for the new query. *)
Definition intent_to_query (today : date) (query_id : string)
    (intent : QueryIntent.t) (original_question : string)
  : result StructuredQuery.t :=
  range <- _resolve_time_reference today
             (QueryIntent.time_reference intent) ;;
  let (date_from, date_to) := range : (option date * option date) in
  let category_filter := category_filter_of (QueryIntent.category intent) in
  let payment_filter :=
    payment_filter_of (QueryIntent.payment_status intent) in
  let agg_type := agg_type_of (QueryIntent.aggregation intent) in
  let group := group_of (QueryIntent.group_by intent) in
  StructuredQuery.new query_id original_question
    (QueryIntent.query_type intent) category_filter
    (QueryIntent.vendor intent) date_from date_to payment_filter
    agg_type group.

End QueryAgent.

(* ================================================================= *)
(** ** Python values in result mappings *)

(** Binary floating point, as the executor uses it: the conversion
    [float(d)] of a [Decimal], of an [int], the builtin [sum] over a list
    of floats, true division and [<].  The executor is stated over any
    implementation of these; [ExactFloat] below computes with exact
    rationals. *)
Class PyFloat : Type := {
  float : Type;
  float_of_decimal : Decimal -> float;
  float_of_int : Z -> float;
  float_sum : list float -> float;
  float_div : float -> float -> float;
  float_ltb : float -> float -> bool
}.

Definition ExactFloat : PyFloat := {|
  float := Q;
  float_of_decimal := Qred;
  float_of_int := inject_Z;
  float_sum := fun l => Qred (fold_left Qplus l (inject_Z 0));
  float_div := fun a b => Qred (Qdiv a b);
  float_ltb := Qltb
|}.

Section Values.
Context {F : PyFloat}.

#[warnings="-register-all"]
Inductive pyval : Type :=
| VNone
| VBool (b : bool)
| VInt (n : Z)
| VFloat (x : float)
| VStr (s : string)
| VDict (items : list (string * pyval)).

(** A [dict] with string keys, in insertion order. *)
Definition pydict : Type := list (string * pyval).

Fixpoint dict_get {V : Type} (d : list (string * V)) (k : string)
  : option V :=
  match d with
  | [] => None
  | (k', v) :: r => if String.eqb k' k then Some v else dict_get r k
  end.

(** [d[k] = v] *)
Fixpoint dict_set {V : Type} (d : list (string * V)) (k : string) (v : V)
  : list (string * V) :=
  match d with
  | [] => [(k, v)]
  | (k', v') :: r =>
      if String.eqb k' k then (k', v) :: r else (k', v') :: dict_set r k v
  end.

(** [x / n] for a float and an [int] *)
Definition py_truediv (x : float) (n : Z) : result float :=
  if n =? 0 then Raise (Exn "ZeroDivisionError" "float division by zero")
  else Ok (float_div x (float_of_int n)).

(** [min(l)]: the first smallest element *)
Definition py_min (l : list float) : result float :=
  match l with
  | [] => Raise (Exn "ValueError" "min() arg is an empty sequence")
  | x :: r =>
      Ok (fold_left (fun cur y => if float_ltb y cur then y else cur) r x)
  end.

(** [max(l)]: the first largest element *)
Definition py_max (l : list float) : result float :=
  match l with
  | [] => Raise (Exn "ValueError" "max() arg is an empty sequence")
  | x :: r =>
      Ok (fold_left (fun cur y => if float_ltb cur y then y else cur) r x)
  end.

Definition py_len {A : Type} (l : list A) : Z := Z.of_nat (List.length l).

(** [l[lo:hi]] *)
Definition py_slice {A : Type} (l : list A) (lo hi : Z) : list A :=
  let n := py_len l in
  let norm i := if i <? 0 then Z.max (i + n) 0 else Z.min i n in
  let lo' := norm lo in
  let hi' := norm hi in
  firstn (Z.to_nat (hi' - lo')) (skipn (Z.to_nat lo') l).

Fixpoint mapM {A B : Type} (f : A -> result B) (l : list A)
  : result (list B) :=
  match l with
  | [] => Ok []
  | a :: r => b <- f a ;; bs <- mapM f r ;; Ok (b :: bs)
  end.

End Values.

Module QueryResult.
Section QueryResult.
Context {F : PyFloat}.
Record t : Type := mk {
  query_id : string;
  success : bool;
  error_message : option string;
  data_found : bool;
  result_count : Z;
  results : list pydict;
  aggregation_result : option pydict;
  query_description : string
}.
End QueryResult.
End QueryResult.

(* ================================================================= *)
(** ** The record source ([src/services/storage]) *)

(** [BillStorageInterface], restricted to the two reading methods the
    decision layer calls.  [S] is the state the implementation reads. *)
Class BillStorageInterface (S : Type) : Type := {
  list_bills :
    S -> option BillCategory.t -> option string -> option date ->
    option date -> option PaymentStatus.t -> Z -> Z ->
    result (list ConfirmedBill.t);
  bill_exists : S -> string -> option string -> date -> result bool
}.

Module GoogleSheetsBillStorage.

(** The bills worksheet as [list_bills] sees it: reading it raises, or
    gives the rows below the header, each with what [_row_to_bill] makes
    of it ([None] for an empty row and for one whose parsing raises:
    both are skipped). *)
Definition t : Type := result (list (option ConfirmedBill.t)).

(** The filters of [list_bills]: [false] is [continue].  The vendor
    test lower-cases with [PyStr.lower], which is [str.lower] on ASCII
    vendor text. *)
Definition keep (category : option BillCategory.t) (vendor : option string)
    (date_from date_to : option date)
    (payment_status : option PaymentStatus.t) (bill : ConfirmedBill.t)
  : bool :=
  if match category with
     | Some c => negb (BillCategory.eqb (ConfirmedBill.category bill) c)
     | None => false
     end then false
  else if match vendor with
          | Some v =>
              (PyStr.truthy v
               && negb (PyStr.contains
                          (PyStr.lower v)
                          (PyStr.lower (ConfirmedBill.vendor_name bill))))%bool
          | None => false
          end then false
  else if match date_from with
          | Some d => PyDate.ltb (ConfirmedBill.bill_date bill) d
          | None => false
          end then false
  else if match date_to with
          | Some d => PyDate.ltb d (ConfirmedBill.bill_date bill)
          | None => false
          end then false
  else if match payment_status with
          | Some p =>
              negb (PaymentStatus.eqb (ConfirmedBill.payment_status bill) p)
          | None => false
          end then false
  else true.

Fixpoint collect (category : option BillCategory.t) (vendor : option string)
    (date_from date_to : option date)
    (payment_status : option PaymentStatus.t)
    (all_rows : list (option ConfirmedBill.t)) : list ConfirmedBill.t :=
  match all_rows with
  | [] => []
  | None :: rest =>
      collect category vendor date_from date_to payment_status rest
  | Some bill :: rest =>
      if keep category vendor date_from date_to payment_status bill
      then bill
           :: collect category vendor date_from date_to payment_status rest
      else collect category vendor date_from date_to payment_status rest
  end.

(** [bills.sort(key=lambda b: b.bill_date, reverse=True)]: newest first,
    bills of one date keep their order. *)
Fixpoint insert_desc (b : ConfirmedBill.t) (l : list ConfirmedBill.t)
  : list ConfirmedBill.t :=
  match l with
  | [] => [b]
  | x :: r =>
      if PyDate.ltb (ConfirmedBill.bill_date b) (ConfirmedBill.bill_date x)
      then x :: insert_desc b r
      else b :: l
  end.

Definition sort_desc (l : list ConfirmedBill.t) : list ConfirmedBill.t :=
  fold_right insert_desc [] l.

Definition list_bills (sheet : t) (category : option BillCategory.t)
    (vendor : option string) (date_from date_to : option date)
    (payment_status : option PaymentStatus.t) (limit offset : Z)
  : result (list ConfirmedBill.t) :=
  try_except
    (all_rows <- sheet ;;
     let bills :=
       collect category vendor date_from date_to payment_status all_rows in
     let bills := sort_desc bills in
     Ok (py_slice bills offset (offset + limit)))
    (fun e =>
       Raise (Exn "StorageError" ("Failed to list bills: " ++ exn_str e))).

Definition bill_exists (sheet : t) (vendor : string)
    (bill_number : option string) (bill_date : date) : result bool :=
  bills <- list_bills sheet None (Some vendor) (Some bill_date)
             (Some bill_date) None 100 0 ;;
  Ok (existsb
        (fun bill =>
           (opt_truthy bill_number
            && match ConfirmedBill.bill_number bill, bill_number with
               | Some a, Some b => String.eqb a b
               | None, None => true
               | _, _ => false
               end)%bool)
        bills).

End GoogleSheetsBillStorage.

#[export] Instance GoogleSheets : BillStorageInterface GoogleSheetsBillStorage.t :=
  {| list_bills := GoogleSheetsBillStorage.list_bills;
     bill_exists := GoogleSheetsBillStorage.bill_exists |}.

(* ================================================================= *)
(** ** The query executor ([src/queries/executor.py]) *)

Module QueryExecutor.
Section QueryExecutor.
Context {F : PyFloat} {S : Type} {storage_ops : BillStorageInterface S}.

(** [self._storage] *)
Variable _storage : S.

Definition opt_date_val (d : option date) : pyval :=
  match d with
  | Some d' => VStr (isoformat d')
  | None => VNone
  end.

Definition opt_str_val (s : option string) : pyval :=
  match s with
  | Some s' => VStr s'
  | None => VNone
  end.

Definition _bill_to_dict (bill : ConfirmedBill.t) : pydict :=
  [("id", VStr (ConfirmedBill.id bill));
   ("vendor_name", VStr (ConfirmedBill.vendor_name bill));
   ("category",
    VStr (BillCategory.value (ConfirmedBill.category bill)));
   ("total_amount",
    VFloat (float_of_decimal (ConfirmedBill.total_amount bill)));
   ("bill_date", VStr (isoformat (ConfirmedBill.bill_date bill)));
   ("due_date", opt_date_val (ConfirmedBill.due_date bill));
   ("payment_status",
    VStr (PaymentStatus.value (ConfirmedBill.payment_status bill)));
   ("bill_number", opt_str_val (ConfirmedBill.bill_number bill))].

Definition _date_range_str (date_from date_to : option date) : string :=
  match date_from, date_to with
  | Some f, Some t =>
      if PyDate.eqb f t then "on " ++ strftime_d_b_Y f
      else if ((month f =? month t) && (year f =? year t))%bool
      then "in " ++ strftime_B_Y f
      else if year f =? year t
      then "from " ++ strftime_b f ++ " to " ++ strftime_b_Y t
      else "from " ++ strftime_b_Y f ++ " to " ++ strftime_b_Y t
  | Some f, None => "from " ++ strftime_d_b_Y f
  | None, Some t => "until " ++ strftime_d_b_Y t
  | None, None => ""
  end.

(** [if cond: desc_parts.append(part)] *)
Definition append_if (cond : bool) (part : string)
    (desc_parts : list string) : list string :=
  if cond then (desc_parts ++ [part])%list else desc_parts.

Definition category_value (c : option BillCategory.t) : string :=
  match c with Some c' => BillCategory.value c' | None => "" end.

Definition status_value (p : option PaymentStatus.t) : string :=
  match p with Some p' => PaymentStatus.value p' | None => "" end.

Definition str_value (s : option string) : string :=
  match s with Some s' => s' | None => "" end.

Definition has_dates (query : StructuredQuery.t) : bool :=
  (is_some (StructuredQuery.date_from query)
   || is_some (StructuredQuery.date_to query))%bool.

Definition fetch (query : StructuredQuery.t) (limit : Z)
  : result (list ConfirmedBill.t) :=
  list_bills _storage
    (StructuredQuery.category_filter query)
    (StructuredQuery.vendor_filter query)
    (StructuredQuery.date_from query)
    (StructuredQuery.date_to query)
    (StructuredQuery.payment_status_filter query)
    limit 0.

Definition _execute_lookup (query : StructuredQuery.t)
  : result QueryResult.t :=
  bills <- fetch query (StructuredQuery.limit query) ;;
  let results := map _bill_to_dict bills in
  let desc_parts := ["Looking for bills"] in
  let desc_parts :=
    append_if (is_some (StructuredQuery.category_filter query))
      ("category: "
       ++ category_value (StructuredQuery.category_filter query))
      desc_parts in
  let desc_parts :=
    append_if (opt_truthy (StructuredQuery.vendor_filter query))
      ("vendor: " ++ str_value (StructuredQuery.vendor_filter query))
      desc_parts in
  let desc_parts :=
    append_if (has_dates query)
      (_date_range_str (StructuredQuery.date_from query)
         (StructuredQuery.date_to query))
      desc_parts in
  Ok (QueryResult.mk (StructuredQuery.query_id query) true None
        (0 <? py_len results) (py_len results) results None
        (PyStr.join " | " desc_parts)).

Definition _execute_list (query : StructuredQuery.t)
  : result QueryResult.t :=
  bills <- fetch query (StructuredQuery.limit query) ;;
  let results := map _bill_to_dict bills in
  let desc_parts := ["Listing bills"] in
  let desc_parts :=
    append_if (is_some (StructuredQuery.category_filter query))
      ("category: "
       ++ category_value (StructuredQuery.category_filter query))
      desc_parts in
  let desc_parts :=
    append_if (opt_truthy (StructuredQuery.vendor_filter query))
      ("vendor: " ++ str_value (StructuredQuery.vendor_filter query))
      desc_parts in
  let desc_parts :=
    append_if (is_some (StructuredQuery.payment_status_filter query))
      ("status: "
       ++ status_value (StructuredQuery.payment_status_filter query))
      desc_parts in
  let desc_parts :=
    append_if (has_dates query)
      (_date_range_str (StructuredQuery.date_from query)
         (StructuredQuery.date_to query))
      desc_parts in
  Ok (QueryResult.mk (StructuredQuery.query_id query) true None
        (0 <? py_len results) (py_len results) results None
        (PyStr.join " | " desc_parts)).

(** The group key of a bill. *)
Definition group_key (group_by : string) (bill : ConfirmedBill.t)
  : string :=
  if String.eqb group_by "category"
  then BillCategory.value (ConfirmedBill.category bill)
  else if String.eqb group_by "vendor"
  then ConfirmedBill.vendor_name bill
  else if String.eqb group_by "month"
  then strftime_Y_m (ConfirmedBill.bill_date bill)
  else if String.eqb group_by "year"
  then PyStr.of_Z (year (ConfirmedBill.bill_date bill))
  else "other".

(** [if key not in groups: groups[key] = []] and then
    [groups[key].append(x)] *)
Definition groups_add (groups : list (string * list float))
    (key : string) (x : float) : list (string * list float) :=
  match dict_get groups key with
  | Some amounts => dict_set groups key (amounts ++ [x])%list
  | None => dict_set groups key [x]
  end.

Definition opt_str_eqb (o : option string) (s : string) : bool :=
  match o with Some s' => String.eqb s' s | None => false end.

Definition group_value (aggregation_type : option string)
    (amounts : list float) : result pyval :=
  if opt_str_eqb aggregation_type "count"
  then Ok (VInt (py_len amounts))
  else if opt_str_eqb aggregation_type "average"
  then x <- py_truediv (float_sum amounts) (py_len amounts) ;;
       Ok (VFloat x)
  else if opt_str_eqb aggregation_type "min"
  then x <- py_min amounts ;; Ok (VFloat x)
  else if opt_str_eqb aggregation_type "max"
  then x <- py_max amounts ;; Ok (VFloat x)
  else Ok (VFloat (float_sum amounts)).

Definition _execute_grouped_aggregate (bills : list ConfirmedBill.t)
    (group_by : string) (aggregation_type : option string)
  : result pydict :=
  let groups :=
    fold_left
      (fun groups bill =>
         groups_add groups (group_key group_by bill)
           (float_of_decimal (ConfirmedBill.total_amount bill)))
      bills [] in
  mapM (fun kv : string * list float =>
          v <- group_value aggregation_type (snd kv) ;;
          Ok (fst kv, v))
       groups.

Definition _execute_aggregate (query : StructuredQuery.t)
  : result QueryResult.t :=
  bills <- fetch query 1000 ;;
  match bills with
  | [] =>
      Ok (QueryResult.mk (StructuredQuery.query_id query) true None
            false 0 [] None "No bills found for aggregation")
  | _ :: _ =>
      let amounts :=
        map (fun bill =>
               float_of_decimal (ConfirmedBill.total_amount bill))
            bills in
      let aggregation_type := StructuredQuery.aggregation_type query in
      aggregation_result <-
        (if (opt_str_eqb aggregation_type "sum"
             || negb (is_some aggregation_type))%bool
         then Ok [("total_amount", VFloat (float_sum amounts));
                  ("bill_count", VInt (py_len amounts))]
         else if opt_str_eqb aggregation_type "count"
         then Ok [("count", VInt (py_len amounts))]
         else if opt_str_eqb aggregation_type "average"
         then x <- py_truediv (float_sum amounts) (py_len amounts) ;;
              Ok [("average_amount", VFloat x);
                  ("bill_count", VInt (py_len amounts))]
         else if opt_str_eqb aggregation_type "min"
         then x <- py_min amounts ;; Ok [("minimum_amount", VFloat x)]
         else if opt_str_eqb aggregation_type "max"
         then x <- py_max amounts ;; Ok [("maximum_amount", VFloat x)]
         else Ok []) ;;
      aggregation_result <-
        (if opt_truthy (StructuredQuery.group_by query)
         then grouped <- _execute_grouped_aggregate bills
                           (str_value (StructuredQuery.group_by query))
                           aggregation_type ;;
              Ok (dict_set aggregation_result "breakdown"
                    (VDict grouped))
         else Ok aggregation_result) ;;
      let desc_parts :=
        if opt_truthy aggregation_type
        then ["Calculating " ++ str_value aggregation_type]
        else ["Calculating total"] in
      let desc_parts :=
        append_if (is_some (StructuredQuery.category_filter query))
          ("for "
           ++ category_value (StructuredQuery.category_filter query))
          desc_parts in
      let desc_parts :=
        append_if (opt_truthy (StructuredQuery.vendor_filter query))
          ("from " ++ str_value (StructuredQuery.vendor_filter query))
          desc_parts in
      let desc_parts :=
        append_if (has_dates query)
          (_date_range_str (StructuredQuery.date_from query)
             (StructuredQuery.date_to query))
          desc_parts in
      let desc_parts :=
        append_if (opt_truthy (StructuredQuery.group_by query))
          ("grouped by " ++ str_value (StructuredQuery.group_by query))
          desc_parts in
      Ok (QueryResult.mk (StructuredQuery.query_id query) true None
            true (py_len bills) [] (Some aggregation_result)
            (PyStr.join " " desc_parts))
  end.

Definition _execute_exists (query : StructuredQuery.t)
  : result QueryResult.t :=
  bills <- fetch query 1 ;;
  let exists_ := 0 <? py_len bills in
  let desc_parts := ["Checking if"] in
  let desc_parts :=
    if is_some (StructuredQuery.category_filter query)
    then append_if true
           (category_value (StructuredQuery.category_filter query)
            ++ " bill")
           desc_parts
    else append_if true "bill" desc_parts in
  let desc_parts :=
    append_if (is_some (StructuredQuery.payment_status_filter query))
      ("was "
       ++ status_value (StructuredQuery.payment_status_filter query))
      desc_parts in
  let desc_parts :=
    append_if (opt_truthy (StructuredQuery.vendor_filter query))
      ("from " ++ str_value (StructuredQuery.vendor_filter query))
      desc_parts in
  let desc_parts :=
    append_if (has_dates query)
      (_date_range_str (StructuredQuery.date_from query)
         (StructuredQuery.date_to query))
      desc_parts in
  let result_data : list pydict :=
    [[("exists", VBool exists_);
      ("answer", VStr (if exists_ then "yes" else "no"))]] in
  let result_data :=
    match bills with
    | bill0 :: _ =>
        if exists_ then (result_data ++ [_bill_to_dict bill0])%list
        else result_data
    | [] => result_data
    end in
  Ok (QueryResult.mk (StructuredQuery.query_id query) true None
        exists_ (if exists_ then 1 else 0) result_data None
        (PyStr.join " " desc_parts)).

Definition _execute_compare (query : StructuredQuery.t)
  : result QueryResult.t :=
  _execute_aggregate query.

(** The routing inside [try:]. *)
Definition dispatch (query : StructuredQuery.t) : result QueryResult.t :=
  let query_type := StructuredQuery.query_type query in
  if String.eqb query_type "lookup" then _execute_lookup query
  else if String.eqb query_type "list" then _execute_list query
  else if String.eqb query_type "aggregate" then _execute_aggregate query
  else if String.eqb query_type "exists" then _execute_exists query
  else if String.eqb query_type "compare" then _execute_compare query
  else _execute_list query.

Definition execute (query : StructuredQuery.t) : result QueryResult.t :=
  try_except (dispatch query)
    (fun e =>
       Ok (QueryResult.mk (StructuredQuery.query_id query) false
             (Some (exn_str e)) false 0 [] None
             ("Query failed: " ++ exn_str e))).

End QueryExecutor.
End QueryExecutor.

(* ================================================================= *)
(** ** The validation pipeline ([src/validation/validator.py]) *)

(** The two thresholds of [AppSettings] the validator reads.
    [max_bill_amount_inr] stands for [Decimal(str(max_bill_amount_inr))]. *)
Module AppSettings.
Record t : Type := mk {
  max_bill_amount_inr : Decimal;
  future_date_tolerance_days : Z
}.

Definition default : t := mk (inject_Z 1000000) 7.
End AppSettings.

(** A value interpolated into a message, with its format: [{d}] for a
    date, [{x:.0%}] for the confidence, the rupee sign followed by
    [{a:,.2f}] or by [{a}] for an amount, [{s}] for a string. *)
Inductive fmt_arg : Type :=
| FDate (d : date)
| FPercent (x : Q)
| FRupees2f (a : Decimal)
| FRupees (a : Decimal)
| FStr (s : string).

(** An f-string: its literal text with [{}] for each interpolation, and
    the interpolated values in order. *)
Record message : Type := mkmsg { template : string; args : list fmt_arg }.

Definition text (s : string) : message := mkmsg s [].

Module ValidationIssue.
Record t : Type := mk {
  field : string;
  issue_type : string;
  message : message;
  severity : string;
  suggested_fix : option string
}.
End ValidationIssue.

Module ValidationResult.
Record t : Type := mk {
  extraction_id : string;
  schema_valid : bool;
  semantic_valid : bool;
  is_valid : bool;
  can_proceed_with_review : bool;
  issues : list ValidationIssue.t;
  warnings : list message
}.
End ValidationResult.

Module BillValidator.
Section BillValidator.
Context {S : Type} {storage_ops : BillStorageInterface S}.

(** [self._storage] and [self._settings] *)
Variable _storage : option S.
Variable _settings : AppSettings.t.

(** [if cond: issues.append(issue)] *)
Definition issue_if (cond : bool) (issue : ValidationIssue.t)
    (issues : list ValidationIssue.t) : list ValidationIssue.t :=
  if cond then (issues ++ [issue])%list else issues.

Definition is_error (issue : ValidationIssue.t) : bool :=
  String.eqb (ValidationIssue.severity issue) "error".

(** [not any(issue.severity == "error" for issue in issues)] *)
Definition no_errors (issues : list ValidationIssue.t) : bool :=
  negb (existsb is_error issues).

(** [extracted.vendor is None or not extracted.vendor.name] *)
Definition vendor_missing (extracted : ExtractedBillData.t) : bool :=
  match ExtractedBillData.vendor extracted with
  | None => true
  | Some v => negb (PyStr.truthy (VendorInfo.name v))
  end.

Definition _validate_schema (extracted : ExtractedBillData.t)
  : bool * list ValidationIssue.t :=
  let issues : list ValidationIssue.t := [] in
  let issues :=
    match ExtractedBillData.total_amount extracted with
    | None =>
        issue_if true
          (ValidationIssue.mk "total_amount" "missing"
             (text "Total amount is required but was not extracted")
             "error"
             (Some "Ensure the total amount is clearly visible in the photo"))
          issues
    | Some a =>
        issue_if (Qle_bool a 0)
          (ValidationIssue.mk "total_amount" "invalid_value"
             (text "Total amount must be greater than zero")
             "error"
             (Some "Check if the amount was read correctly"))
          issues
    end in
  let issues :=
    issue_if (vendor_missing extracted)
      (ValidationIssue.mk "vendor" "missing"
         (text "Vendor/company name is required but was not extracted")
         "warning"
         (Some "You'll need to enter the vendor name manually"))
      issues in
  let issues :=
    issue_if (negb (is_some (ExtractedBillData.bill_date extracted)))
      (ValidationIssue.mk "bill_date" "missing"
         (text "Bill date is required but was not extracted")
         "warning"
         (Some "You'll need to enter the bill date manually"))
      issues in
  let issues :=
    issue_if (Qltb (ExtractedBillData.confidence_score extracted) (1 # 2))
      (ValidationIssue.mk "confidence_score" "low_confidence"
         (mkmsg "Extraction confidence is low ({})"
            [FPercent (ExtractedBillData.confidence_score extracted)])
         "warning"
         (Some "Please review all fields carefully"))
      issues in
  let issues :=
    issue_if
      (negb (is_some (ExtractedBillData.total_amount extracted))
       && negb (is_some (ExtractedBillData.vendor extracted))
       && negb (is_some (ExtractedBillData.bill_date extracted)))%bool
      (ValidationIssue.mk "extraction" "empty"
         (text "No meaningful data could be extracted from this image")
         "error"
         (Some "Please try with a clearer photo"))
      issues in
  (no_errors issues, issues).

(** [o and o < bound], for an optional date *)
Definition date_and_lt (o : option date) (bound : date) : bool :=
  match o with Some d => PyDate.ltb d bound | None => false end.

Definition date_and_gt (o : option date) (bound : date) : bool :=
  match o with Some d => PyDate.ltb bound d | None => false end.

(** [a and b and b < a], for two optional dates *)
Definition both_and_lt (a b : option date) : bool :=
  match a, b with
  | Some a', Some b' => PyDate.ltb a' b'
  | _, _ => false
  end.

(** Truthiness of an optional amount: present and non-zero. *)
Definition amount_truthy (o : option Decimal) : bool :=
  match o with Some a => decimal_truthy a | None => false end.

Definition amount_val (o : option Decimal) : Decimal :=
  match o with Some a => a | None => 0%Q end.

Definition date_val (o : option date) : date :=
  match o with Some d => d | None => mkdate 0 0 0 end.

Definition vendor_name_val (extracted : ExtractedBillData.t) : string :=
  match ExtractedBillData.vendor extracted with
  | Some v => VendorInfo.name v
  | None => ""
  end.

Definition _validate_semantic (today : date)
    (extracted : ExtractedBillData.t)
  : result (bool * list ValidationIssue.t) :=
  let issues : list ValidationIssue.t := [] in
  let max_future_days := AppSettings.future_date_tolerance_days _settings in
  max_future_date <- add_days today max_future_days ;;
  let bill_date := ExtractedBillData.bill_date extracted in
  let due_date := ExtractedBillData.due_date extracted in
  let total_amount := ExtractedBillData.total_amount extracted in
  let issues :=
    issue_if (date_and_gt bill_date max_future_date)
      (ValidationIssue.mk "bill_date" "future_date"
         (mkmsg "Bill date ({}) is in the future"
            [FDate (date_val bill_date)])
         "warning" (Some "Please verify the date is correct"))
      issues in
  min_reasonable_date <- sub_days today (365 * 2) ;;
  let issues :=
    issue_if (date_and_lt bill_date min_reasonable_date)
      (ValidationIssue.mk "bill_date" "suspicious_date"
         (mkmsg "Bill date ({}) seems unusually old"
            [FDate (date_val bill_date)])
         "warning" (Some "Please verify the date was read correctly"))
      issues in
  let issues :=
    issue_if
      (is_some due_date && is_some bill_date
       && PyDate.ltb (date_val due_date) (date_val bill_date))%bool
      (ValidationIssue.mk "due_date" "inconsistent"
         (text "Due date is before bill date")
         "warning" (Some "Please verify both dates"))
      issues in
  let max_amount := AppSettings.max_bill_amount_inr _settings in
  let issues :=
    issue_if
      (amount_truthy total_amount
       && Qltb max_amount (amount_val total_amount))%bool
      (ValidationIssue.mk "total_amount" "suspicious_value"
         (mkmsg "Amount ({}) seems unusually high"
            [FRupees2f (amount_val total_amount)])
         "warning" (Some "Please verify this amount is correct"))
      issues in
  let issues :=
    issue_if
      (amount_truthy total_amount
       && Qltb (amount_val total_amount) 1)%bool
      (ValidationIssue.mk "total_amount" "suspicious_value"
         (mkmsg "Amount ({}) seems unusually low"
            [FRupees (amount_val total_amount)])
         "warning" (Some "Please verify this amount is correct"))
      issues in
  let issues :=
    if (amount_truthy (ExtractedBillData.subtotal extracted)
        && amount_truthy (ExtractedBillData.tax_amount extracted)
        && amount_truthy total_amount)%bool
    then
      let expected_total :=
        (amount_val (ExtractedBillData.subtotal extracted)
         + amount_val (ExtractedBillData.tax_amount extracted))%Q in
      let tolerance := (expected_total * (5 # 100))%Q in
      let diff := Qabs (amount_val total_amount - expected_total)%Q in
      issue_if (Qltb tolerance diff && Qltb 10 diff)%bool
        (ValidationIssue.mk "total_amount" "inconsistent"
           (mkmsg "Total ({}) doesn't match subtotal + tax ({})"
              [FRupees (amount_val total_amount);
               FRupees expected_total])
           "warning" (Some "Please verify the amounts"))
        issues
    else issues in
  let issues :=
    issue_if
      (both_and_lt (ExtractedBillData.billing_period_end extracted)
         (ExtractedBillData.billing_period_start extracted))
      (ValidationIssue.mk "billing_period" "inconsistent"
         (text "Billing period end is before start")
         "warning" (Some "Please verify the billing period"))
      issues in
  let issues :=
    if negb (vendor_missing extracted) then
      let name := vendor_name_val extracted in
      let alpha_count := PyStr.count_alpha name in
      (* [alpha_count / len(name) < 0.3]: a quotient of integers with
         a denominator this small is below the double 0.3 exactly when
         it is below 3/10 *)
      issue_if
        ((0 <? PyStr.len name)
         && Qltb (alpha_count # Z.to_pos (PyStr.len name)) (3 # 10))%bool
        (ValidationIssue.mk "vendor" "suspicious_value"
           (text "Vendor name looks unusual (too many numbers/symbols)")
           "warning" (Some "Please verify the vendor name"))
        issues
    else issues in
  Ok (no_errors issues, issues).

Definition _check_duplicates (extracted : ExtractedBillData.t)
  : list ValidationIssue.t :=
  let issues : list ValidationIssue.t := [] in
  match _storage with
  | None => issues
  | Some storage =>
      match ExtractedBillData.vendor extracted,
            ExtractedBillData.bill_date extracted with
      | Some vendor, Some bill_date =>
          match bill_exists storage (VendorInfo.name vendor)
                  (ExtractedBillData.bill_number extracted) bill_date with
          | Ok is_duplicate =>
              issue_if is_duplicate
                (ValidationIssue.mk "duplicate" "potential_duplicate"
                   (mkmsg "A bill from {} dated {} may already exist"
                      [FStr (VendorInfo.name vendor); FDate bill_date])
                   "warning"
                   (Some "Please verify this isn't a duplicate entry"))
                issues
          | Raise _ => issues
          end
      | _, _ => issues
      end
  end.

Definition validate (today : date) (extracted : ExtractedBillData.t)
    (check_duplicates : bool) : result ValidationResult.t :=
  let all_issues : list ValidationIssue.t := [] in
  let (schema_valid, schema_issues) := _validate_schema extracted in
  let all_issues := (all_issues ++ schema_issues)%list in
  stage2 <-
    (if schema_valid then
       sem <- _validate_semantic today extracted ;;
       let (semantic_valid, semantic_issues) :=
         sem : bool * list ValidationIssue.t in
       let all_issues := (all_issues ++ semantic_issues)%list in
       let all_issues :=
         if check_duplicates
         then (all_issues ++ _check_duplicates extracted)%list
         else all_issues in
       Ok (semantic_valid, all_issues)
     else Ok (false, all_issues)) ;;
  let (semantic_valid, all_issues) :=
    stage2 : bool * list ValidationIssue.t in
  let warnings :=
    map ValidationIssue.message
      (filter (fun issue =>
                 String.eqb (ValidationIssue.severity issue) "warning")
              all_issues) in
  let is_valid := (schema_valid && semantic_valid)%bool in
  let can_proceed :=
    (is_some (ExtractedBillData.total_amount extracted)
     && negb (existsb
                (fun issue =>
                   (String.eqb (ValidationIssue.severity issue) "error"
                    && negb (String.eqb (ValidationIssue.field issue)
                               "vendor"))%bool)
                all_issues))%bool in
  Ok (ValidationResult.mk (ExtractedBillData.extraction_id extracted)
        schema_valid semantic_valid is_valid can_proceed all_issues
        warnings).

End BillValidator.
End BillValidator.


(* ================================================================= *)
(** ** Vocabulary of the statements *)

Definition issue_key (i : ValidationIssue.t) : string * string :=
  (ValidationIssue.field i, ValidationIssue.issue_type i).

Definition is_warning (i : ValidationIssue.t) : Prop :=
  ValidationIssue.severity i = "warning".

(** [today + timedelta(days=tolerance)] and [today - timedelta(days=730)]
    are dates. *)
Definition semantic_dates_exist (settings : AppSettings.t) (today : date)
  : Prop :=
  0 < toordinal today + AppSettings.future_date_tolerance_days settings
    <= MAXORDINAL
  /\ 0 < toordinal today - 730 <= MAXORDINAL.

(** The last day of the month before month [m] of year [y]. *)
Definition prev_month_end (y m : Z) : date :=
  if m =? 1 then mkdate (y - 1) 12 31
  else mkdate y (m - 1) (days_in_month y (m - 1)).

(** The years of one 400-year cycle of the calendar, and the months. *)
Definition cycle_years : list Z := map Z.of_nat (seq 1 400).
Definition all_months : list Z := map Z.of_nat (seq 1 12).

(** A date moved by [k] cycles of 400 years. *)
Definition shift_cycles (k : Z) (d : date) : date :=
  mkdate (year d + 400 * k) (month d) (day d).

(** The end of a month as the resolver computes it: the day before the
    first of the next month. *)
Definition month_end_of (y m : Z) : result date :=
  if m =? 12
  then d <- PyDate.new (y + 1) 1 1 ;; sub_days d 1
  else d <- PyDate.new y (m + 1) 1 ;; sub_days d 1.

(** [time_ref.lower().strip()] *)
Definition normalized (phrase : string) : string :=
  PyStr.strip (PyStr.lower phrase).

(** The phrase holds the name of month [num]. *)
Definition names_month (phrase : string) (num : Z) : Prop :=
  exists name : string,
    In (name, num) QueryAgent.months /\ PyStr.contains name phrase = true.

(** [num] is the first month, in calendar order, that the phrase names. *)
Definition first_named_month (phrase : string) (num : Z) : Prop :=
  names_month phrase num
  /\ forall num' : Z, names_month phrase num' -> num <= num'.

(** The year the resolver gives a named month: this year up to the
    current month, last year after it. *)
Definition year_of_named_month (today : date) (num : Z) : Z :=
  if num <=? month today then year today else year today - 1.

(** The stored bills of a worksheet: its rows that parse, in sheet order. *)
Definition stored_bills (rows : list (option ConfirmedBill.t))
  : list ConfirmedBill.t :=
  flat_map (fun row => match row with Some b => [b] | None => [] end) rows.

(** A stored bill is of the vendor and date of an extraction: its vendor
    name holds the extracted one, case apart, and its date is the same. *)
Definition same_vendor_and_date (vendor : string) (d : date)
    (b : ConfirmedBill.t) : bool :=
  (PyStr.contains (PyStr.lower vendor)
     (PyStr.lower (ConfirmedBill.vendor_name b))
   && PyDate.eqb (ConfirmedBill.bill_date b) d)%bool.

(** The issues hold a [potential_duplicate] warning. *)
Definition flags_duplicate (issues : list ValidationIssue.t) : Prop :=
  exists i : ValidationIssue.t,
    In i issues
    /\ ValidationIssue.issue_type i = "potential_duplicate"
    /\ ValidationIssue.severity i = "warning".

(** [[float(bill.total_amount) for bill in bills]] *)
Definition amounts_of {F : PyFloat} (bills : list ConfirmedBill.t)
  : list float :=
  map (fun bill => float_of_decimal (ConfirmedBill.total_amount bill)) bills.

(** Every group of a grouping holds at least one amount. *)
Definition nonempty_groups {F : PyFloat}
    (groups : list (string * list float)) : Prop :=
  Forall (fun kv => snd kv <> []) groups.

(* ================================================================= *)
(** ** Sample inputs *)

Module Samples.

(** An extraction in which nothing was read. *)
Definition empty_extraction : ExtractedBillData.t :=
  ExtractedBillData.mk "extraction-1" (9 # 10) None None None None None
    None None None None.

(** A complete extraction. *)
Definition power_bill : ExtractedBillData.t :=
  ExtractedBillData.mk "extraction-2" (9 # 10)
    (Some (VendorInfo.mk "Acme Power")) (Some "INV-7")
    (Some (mkdate 2024 3 1)) (Some (mkdate 2024 3 20)) None None
    (Some (1000 # 1)) (Some (180 # 1)) (Some (1180 # 1)).

Definition today : date := mkdate 2024 3 15.

Definition bill (id vendor_name : string) (amount : Z) (bill_date : date)
    (bill_number : option string) : ConfirmedBill.t :=
  ConfirmedBill.mk id vendor_name BillCategory.ELECTRICITY
    (inject_Z amount) bill_date bill_number None PaymentStatus.UNPAID.

(** Three stored bills with the amounts 100, 200 and 300, and a row
    that does not parse. *)
Definition three_rows : list (option ConfirmedBill.t) :=
  [Some (bill "b1" "Acme Power" 100 (mkdate 2024 1 10) (Some "INV-1"));
   None;
   Some (bill "b2" "Acme Power" 200 (mkdate 2024 2 10) (Some "INV-2"));
   Some (bill "b3" "City Water" 300 (mkdate 2024 3 10) None)].

Definition three_bills : GoogleSheetsBillStorage.t := Ok three_rows.

(** An extraction of the second of them, the vendor in short. *)
Definition second_again : ExtractedBillData.t :=
  ExtractedBillData.mk "extraction-3" (9 # 10)
    (Some (VendorInfo.mk "acme")) (Some "INV-2")
    (Some (mkdate 2024 2 10)) None None None None None (Some (200 # 1)).

(** A worksheet that cannot be read. *)
Definition broken_sheet : GoogleSheetsBillStorage.t :=
  Raise (Exn "APIError" "quota exceeded").

(** A worksheet with 101 bills of one vendor and one date: a hundred
    numbered INV-0 and then one numbered INV-7. *)
Definition crowded_rows : list (option ConfirmedBill.t) :=
  (repeat (Some (bill "b0" "Acme Power" 1180 (mkdate 2024 3 1)
                   (Some "INV-0"))) 100
   ++ [Some (bill "b7" "Acme Power" 1180 (mkdate 2024 3 1)
               (Some "INV-7"))])%list.

Definition crowded_sheet : GoogleSheetsBillStorage.t := Ok crowded_rows.

(** A worksheet with 1001 bills of the amount 1. *)
Definition thousand_and_one_rows : list (option ConfirmedBill.t) :=
  repeat (Some (bill "b0" "Acme Power" 1 (mkdate 2024 3 1) None)) 1001.

Definition query (query_type : string) : StructuredQuery.t :=
  StructuredQuery.mk "query-1" "?" query_type None None None None None
    None None 10.

(** The same, with an aggregation type, a grouping and a vendor. *)
Definition aggregate_query (aggregation_type group_by vendor : option string)
  : StructuredQuery.t :=
  StructuredQuery.mk "query-2" "?" "aggregate" None vendor None None None
    aggregation_type group_by 10.

(** A bill dated ten days after [today]. *)
Definition ten_days_ahead : ExtractedBillData.t :=
  ExtractedBillData.mk "extraction-4" (9 # 10)
    (Some (VendorInfo.mk "Acme Power")) None
    (Some (mkdate 2024 3 25)) None None None None None (Some (500 # 1)).

(** A bill with the amount 0. *)
Definition zero_amount : ExtractedBillData.t :=
  ExtractedBillData.mk "extraction-5" (9 # 10)
    (Some (VendorInfo.mk "Acme Power")) None
    (Some (mkdate 2024 3 1)) None None None None None (Some (0 # 1)).

End Samples.

(* ================================================================= *)
(** ** Further operations of the record source and of the models *)

Module GoogleSheetsTotals.
Section GoogleSheetsTotals.
Context {F : PyFloat}.

(** [GoogleSheetsBillStorage.get_total_by_category] *)
Definition get_total_by_category (sheet : GoogleSheetsBillStorage.t)
    (category : BillCategory.t) (date_from date_to : option date)
  : result float :=
  bills <- GoogleSheetsBillStorage.list_bills sheet (Some category) None
             date_from date_to None 1000 0 ;;
  Ok (float_sum
        (map (fun bill =>
                float_of_decimal (ConfirmedBill.total_amount bill))
             bills)).

(** [GoogleSheetsBillStorage.get_total_by_vendor] *)
Definition get_total_by_vendor (sheet : GoogleSheetsBillStorage.t)
    (vendor : string) (date_from date_to : option date)
  : result float :=
  bills <- GoogleSheetsBillStorage.list_bills sheet None (Some vendor)
             date_from date_to None 1000 0 ;;
  Ok (float_sum
        (map (fun bill =>
                float_of_decimal (ConfirmedBill.total_amount bill))
             bills)).

End GoogleSheetsTotals.
End GoogleSheetsTotals.

Module ValidationResultProps.

(** [ValidationResult.has_errors] *)
Definition has_errors (r : ValidationResult.t) : bool :=
  existsb (fun issue => String.eqb (ValidationIssue.severity issue) "error")
    (ValidationResult.issues r).

(** [ValidationResult.error_count] *)
Definition error_count (r : ValidationResult.t) : Z :=
  fold_left
    (fun acc issue =>
       if String.eqb (ValidationIssue.severity issue) "error"
       then acc + 1 else acc)
    (ValidationResult.issues r) 0.

End ValidationResultProps.

(* ================================================================= *)
(** ** Further vocabulary *)

(** A bill passes the filters of [list_bills]: each filter that is set
    holds (an empty vendor text counts as not set). *)
Definition passes_filters (category : option BillCategory.t)
    (vendor : option string) (date_from date_to : option date)
    (payment_status : option PaymentStatus.t) (b : ConfirmedBill.t) : Prop :=
  (forall c, category = Some c -> ConfirmedBill.category b = c)
  /\ (forall v, vendor = Some v ->
        PyStr.contains (PyStr.lower v)
          (PyStr.lower (ConfirmedBill.vendor_name b)) = true)
  /\ (forall d, date_from = Some d ->
        PyDate.leb d (ConfirmedBill.bill_date b) = true)
  /\ (forall d, date_to = Some d ->
        PyDate.leb (ConfirmedBill.bill_date b) d = true)
  /\ (forall p, payment_status = Some p ->
        ConfirmedBill.payment_status b = p).

(** The stored bills that pass the filters, in sheet order. *)
Definition matching_bills (category : option BillCategory.t)
    (vendor : option string) (date_from date_to : option date)
    (payment_status : option PaymentStatus.t)
    (rows : list (option ConfirmedBill.t)) : list ConfirmedBill.t :=
  filter
    (GoogleSheetsBillStorage.keep category vendor date_from date_to
       payment_status)
    (stored_bills rows).

(** [a] is not older than [b]. *)
Definition not_older (a b : ConfirmedBill.t) : Prop :=
  PyDate.leb (ConfirmedBill.bill_date b) (ConfirmedBill.bill_date a) = true.

(** The bills of one group: those with the group key [k], in order. *)
Definition bills_of_group (group_by k : string)
    (bills : list ConfirmedBill.t) : list ConfirmedBill.t :=
  filter (fun b => String.eqb (QueryExecutor.group_key group_by b) k) bills.

(** The filters of a query hold for a bill. *)
Definition passes_query (query : StructuredQuery.t) (b : ConfirmedBill.t)
  : Prop :=
  passes_filters (StructuredQuery.category_filter query)
    (StructuredQuery.vendor_filter query) (StructuredQuery.date_from query)
    (StructuredQuery.date_to query)
    (StructuredQuery.payment_status_filter query) b.

(** The stored bills a query matches, in sheet order. *)
Definition query_matches (query : StructuredQuery.t)
    (rows : list (option ConfirmedBill.t)) : list ConfirmedBill.t :=
  matching_bills (StructuredQuery.category_filter query)
    (StructuredQuery.vendor_filter query) (StructuredQuery.date_from query)
    (StructuredQuery.date_to query)
    (StructuredQuery.payment_status_filter query) rows.

(** What the grouping loop has built after the bills [seen]: a group
    for each key that occurred, with the amounts of the bills of that key. *)
Definition grouping_of {F : PyFloat} (group_by : string)
    (seen : list ConfirmedBill.t) (groups : list (string * list float))
  : Prop :=
  NoDup (map fst groups)
  /\ forall k : string,
      dict_get groups k
      = match bills_of_group group_by k seen with
        | [] => None
        | bs => Some (amounts_of bs)
        end.

(** [<] on floats is a strict order: nothing is below itself, and it is
    transitive (as it is on binary64, NaN included). *)
Definition strict_order (F : PyFloat) : Prop :=
  (forall a : float, float_ltb a a = false)
  /\ (forall a b c : float,
        float_ltb a b = true -> float_ltb b c = true ->
        float_ltb a c = true).

(** A query that only filters by category and dates, as
    [get_total_by_category] does, or by vendor and dates. *)
Definition category_total_query (category : BillCategory.t)
    (date_from date_to : option date) : StructuredQuery.t :=
  StructuredQuery.mk "query-3" "?" "aggregate" (Some category) None
    date_from date_to None None None 10.

Definition vendor_total_query (vendor : string)
    (date_from date_to : option date) : StructuredQuery.t :=
  StructuredQuery.mk "query-4" "?" "aggregate" None (Some vendor)
    date_from date_to None None None 10.

(** The four pairs of relative phrases of the resolver. *)
Definition relative_phrases : list string :=
  ["this month"; "current month"; "last month"; "previous month";
   "this year"; "current year"; "last year"; "previous year"].

(** The first day of the month of a date. *)
Definition first_of_month (d : date) : date :=
  mkdate (year d) (month d) 1.

(** A date is the last day of its month. *)
Definition is_month_end (d : date) : Prop :=
  day d = days_in_month (year d) (month d).

(** A range of whole months: from the first of a month through the last
    day of the same month, or of December when it starts in January. *)
Definition whole_months (s e : date) : Prop :=
  day s = 1 /\ is_month_end e /\ year s = year e
  /\ (month s = month e \/ (month s = 1 /\ month e = 12)).

(** Nothing in the phrase is recognised: it is none of the relative
    phrases, names no month and holds no year of this century. *)
Definition unrecognised (t : string) : Prop :=
  ~ In t relative_phrases
  /\ (forall num : Z, ~ names_month t num)
  /\ QueryAgent.year_search t = None.

(** What the field patterns and bounds of [StructuredQuery] ask of a
    query: one of the five query types, an aggregation type and a
    grouping among the canonical names when set, a limit from 1 to 100. *)
Definition well_formed_query (q : StructuredQuery.t) : Prop :=
  In (StructuredQuery.query_type q) StructuredQuery.query_types
  /\ (forall a : string,
         StructuredQuery.aggregation_type q = Some a ->
         In a ["sum"; "count"; "average"; "min"; "max"])
  /\ (forall g : string,
         StructuredQuery.group_by q = Some g ->
         In g ["category"; "vendor"; "month"; "year"])
  /\ 1 <= StructuredQuery.limit q <= 100.

(** An issue is an error on a field other than the vendor, or a warning. *)
Definition blocking_error_or_warning (i : ValidationIssue.t) : Prop :=
  (ValidationIssue.severity i = "error"
   /\ ValidationIssue.field i <> "vendor")
  \/ ValidationIssue.severity i = "warning".

(** The vendor text that a vendor filter compares is ASCII: the filter and
    the vendor names of the stored bills.  There [str.lower] is
    [PyStr.lower].  Without a vendor filter nothing is compared. *)
Definition ascii_vendors (vendor : option string)
    (rows : list (option ConfirmedBill.t)) : bool :=
  match vendor with
  | Some v =>
      (PyStr.isascii v
       && forallb (fun b => PyStr.isascii (ConfirmedBill.vendor_name b))
            (stored_bills rows))%bool
  | None => true
  end.

(** The mapping of a bill's fields, as the results of a query hold it. *)
Definition bill_fields {F : PyFloat} (b : ConfirmedBill.t)
  : list (string * pyval) :=
  [("id", VStr (ConfirmedBill.id b));
   ("vendor_name", VStr (ConfirmedBill.vendor_name b));
   ("category", VStr (BillCategory.value (ConfirmedBill.category b)));
   ("total_amount", VFloat (float_of_decimal (ConfirmedBill.total_amount b)));
   ("bill_date", VStr (isoformat (ConfirmedBill.bill_date b)));
   ("due_date",
    match ConfirmedBill.due_date b with
    | Some d => VStr (isoformat d)
    | None => VNone
    end);
   ("payment_status",
    VStr (PaymentStatus.value (ConfirmedBill.payment_status b)));
   ("bill_number",
    match ConfirmedBill.bill_number b with
    | Some n => VStr n
    | None => VNone
    end)].

(* ================================================================= *)
(** * Properties *)

(** ** Strings *)

Lemma prefix_split (p x : string) :
  String.prefix p x = true -> exists r, x = p ++ r.
Proof.
  revert x; induction p as [|c p IH]; intros x H.
  - exists x; reflexivity.
  - destruct x as [|d x]; simpl in H; [discriminate|].
    destruct (Ascii.ascii_dec c d) as [->|]; [|discriminate].
    destruct (IH _ H) as [r ->]. exists r; reflexivity.
Qed.

Lemma prefix_app_l (p q x : string) :
  String.prefix (p ++ q) x = true -> String.prefix p x = true.
Proof.
  revert x; induction p as [|c p IH]; intros x H.
  - destruct x; reflexivity.
  - destruct x as [|d x]; simpl in *; [discriminate|].
    destruct (Ascii.ascii_dec c d); [eauto|discriminate].
Qed.

Lemma contains_nil (p : string) :
  PyStr.contains p "" = String.prefix p "".
Proof. unfold PyStr.contains. now destruct (String.prefix p ""). Qed.

Lemma contains_cons (p : string) (d : ascii) (x : string) :
  PyStr.contains p (String d x)
  = if String.prefix p (String d x) then true else PyStr.contains p x.
Proof. reflexivity. Qed.

Lemma prefix_app_refl (p r : string) : String.prefix p (p ++ r) = true.
Proof.
  induction p as [|c p IH]; simpl.
  - now destruct r.
  - destruct (Ascii.ascii_dec c c); [exact IH|congruence].
Qed.

Lemma contains_here (p r : string) : PyStr.contains p (p ++ r) = true.
Proof.
  destruct (p ++ r) eqn:E.
  - rewrite contains_nil, <- E. apply prefix_app_refl.
  - rewrite contains_cons, <- E, prefix_app_refl. reflexivity.
Qed.

Lemma contains_skip (p : string) (c : ascii) (x : string) :
  PyStr.contains p x = true -> PyStr.contains p (String c x) = true.
Proof.
  intros H. rewrite contains_cons, H.
  now destruct (String.prefix p (String c x)).
Qed.

Lemma contains_app_l (p q x : string) :
  PyStr.contains (p ++ q) x = true -> PyStr.contains p x = true.
Proof.
  induction x as [|d x IH].
  - rewrite !contains_nil. apply prefix_app_l.
  - rewrite !contains_cons.
    destruct (String.prefix (p ++ q) (String d x)) eqn:E.
    + now rewrite (prefix_app_l _ _ _ E).
    + destruct (String.prefix p (String d x)); auto.
Qed.

Lemma contains_not_paid_paid (x : string) :
  PyStr.contains "not paid" x = true -> PyStr.contains "paid" x = true.
Proof.
  induction x as [|d x IH]; [discriminate|].
  rewrite !contains_cons.
  destruct (String.prefix "not paid" (String d x)) eqn:E.
  - intros _. destruct (prefix_split _ _ E) as [r Hr].
    rewrite <- contains_cons, Hr.
    change ("not paid" ++ r) with ("not " ++ ("paid" ++ r)).
    do 4 apply contains_skip. apply contains_here.
  - intros H. rewrite (IH H).
    now destruct (String.prefix "paid" (String d x)).
Qed.

Lemma lower_nonempty (s : string) :
  PyStr.lower s <> "" -> PyStr.truthy s = true.
Proof. destruct s; simpl; congruence. Qed.

Lemma contains_nonempty (p x : string) :
  p <> "" -> PyStr.contains p x = true -> x <> "".
Proof.
  intros Hp H ->. destruct p; [congruence|discriminate].
Qed.

(** ** The payment-status hint (claim C1) *)

(** What the first test of the chain decides: a hint with "paid" and
    without "un" is PAID, whatever else it holds. *)
Lemma payment_filter_paid (s : string) :
  PyStr.contains "paid" (PyStr.lower s) = true ->
  PyStr.contains "un" (PyStr.lower s) = false ->
  QueryAgent.payment_filter_of (Some s) = Some PaymentStatus.PAID.
Proof.
  intros Hp Hun. unfold QueryAgent.payment_filter_of.
  assert (Ht : opt_truthy (Some s) = true).
  { apply lower_nonempty. eapply contains_nonempty; [|exact Hp]. discriminate. }
  rewrite Ht, Hp, Hun. reflexivity.
Qed.

(** A hint with "not paid" reaches the UNPAID branch only when it also
    holds "un"; otherwise the first test has already answered PAID. *)
Lemma payment_filter_not_paid (s : string) :
  PyStr.contains "not paid" (PyStr.lower s) = true ->
  QueryAgent.payment_filter_of (Some s)
  = if PyStr.contains "un" (PyStr.lower s)
    then Some PaymentStatus.UNPAID else Some PaymentStatus.PAID.
Proof.
  intros Hnp. pose proof (contains_not_paid_paid _ Hnp) as Hp.
  destruct (PyStr.contains "un" (PyStr.lower s)) eqn:Hun.
  - unfold QueryAgent.payment_filter_of.
    assert (Ht : opt_truthy (Some s) = true).
    { apply lower_nonempty. eapply contains_nonempty; [|exact Hp]. discriminate. }
    rewrite Ht, Hp, Hun, Hnp. simpl.
    now rewrite orb_true_r.
  - now apply payment_filter_paid.
Qed.

Lemma payment_filter_unpaid (s : string) :
  PyStr.contains "unpaid" (PyStr.lower s) = true ->
  QueryAgent.payment_filter_of (Some s) = Some PaymentStatus.UNPAID.
Proof.
  intros Hu. unfold QueryAgent.payment_filter_of.
  assert (Ht : opt_truthy (Some s) = true).
  { apply lower_nonempty. eapply contains_nonempty; [|exact Hu]. discriminate. }
  assert (Hun : PyStr.contains "un" (PyStr.lower s) = true)
    by (apply (contains_app_l "un" "paid"); exact Hu).
  rewrite Ht, Hun, Hu, andb_false_r. reflexivity.
Qed.

Lemma payment_filter_overdue (s : string) :
  PyStr.contains "overdue" (PyStr.lower s) = true ->
  PyStr.contains "paid" (PyStr.lower s) = false ->
  QueryAgent.payment_filter_of (Some s) = Some PaymentStatus.OVERDUE.
Proof.
  intros Ho Hp. unfold QueryAgent.payment_filter_of.
  assert (Ht : opt_truthy (Some s) = true).
  { apply lower_nonempty. eapply contains_nonempty; [|exact Ho]. discriminate. }
  assert (Hu : PyStr.contains "unpaid" (PyStr.lower s) = false).
  { destruct (PyStr.contains "unpaid" (PyStr.lower s)) eqn:E; [|reflexivity].
    (* "unpaid" holds "paid" *)
    exfalso. clear - E Hp. revert E Hp.
    induction (PyStr.lower s) as [|d x IH]; [discriminate|].
    rewrite (contains_cons "unpaid").
    destruct (String.prefix "unpaid" (String d x)) eqn:P.
    - intros _. destruct (prefix_split _ _ P) as [r Hr]. rewrite Hr.
      change ("unpaid" ++ r) with ("un" ++ ("paid" ++ r)).
      simpl append at 1.
      rewrite (contains_skip "paid" _ _
                 (contains_skip "paid" _ _ (contains_here "paid" r))).
      discriminate.
    - rewrite (contains_cons "paid").
      destruct (String.prefix "paid" (String d x)); [discriminate|].
      auto. }
  assert (Hn : PyStr.contains "not paid" (PyStr.lower s) = false).
  { destruct (PyStr.contains "not paid" (PyStr.lower s)) eqn:E; [|reflexivity].
    rewrite (contains_not_paid_paid _ E) in Hp. discriminate. }
  rewrite Ht, Hp, Hu, Hn, Ho. reflexivity.
Qed.

(** C1, at the hint the claim names: [intent_to_query] maps the hint
    "not paid" to the filter PAID.  The hint holds "paid" and does not
    hold "un", so the first test of the chain answers before the test
    for "not paid" is reached. *)
Theorem intent_to_query_not_paid_gives_PAID :
  forall (today : date) (query_id question : string),
    QueryAgent.intent_to_query today query_id
      (QueryIntent.mk "list" "bill" None None None (Some "not paid")
         None None)
      question
    = Ok (StructuredQuery.mk query_id question "list" None None None None
            (Some PaymentStatus.PAID) None None 10).
Proof. intros. reflexivity. Qed.

(** ** Schema validation (claim C2) *)

(** C2, as the code has it: with amount, vendor and date all absent the
    schema stage fails with exactly two error-severity issues, [missing]
    on [total_amount] and then [empty] on [extraction]. *)
Theorem schema_all_absent_two_errors :
  forall extracted : ExtractedBillData.t,
    ExtractedBillData.total_amount extracted = None ->
    ExtractedBillData.vendor extracted = None ->
    ExtractedBillData.bill_date extracted = None ->
    fst (BillValidator._validate_schema extracted) = false /\
    map issue_key
      (filter BillValidator.is_error
         (snd (BillValidator._validate_schema extracted)))
    = [("total_amount", "missing"); ("extraction", "empty")].
Proof.
  intros [eid conf v bn bd dd ps pe st tx tot]; simpl.
  intros -> -> ->.
  unfold BillValidator._validate_schema, BillValidator.no_errors; simpl.
  destruct (Qltb conf (1 # 2)); split; reflexivity.
Qed.

(** C2 at the extraction in which nothing was read. *)
Lemma schema_all_absent_two_errors_witness :
  fst (BillValidator._validate_schema Samples.empty_extraction) = false /\
  map issue_key
    (filter BillValidator.is_error
       (snd (BillValidator._validate_schema Samples.empty_extraction)))
  = [("total_amount", "missing"); ("extraction", "empty")].
Proof.
  apply (schema_all_absent_two_errors Samples.empty_extraction);
    reflexivity.
Defined.

(** C2 as stated fails: for the empty extraction the error-severity
    issues are not a single [empty] issue. *)
Lemma schema_all_absent_not_single_error :
  ~ (exists i : ValidationIssue.t,
        filter BillValidator.is_error
          (snd (BillValidator._validate_schema Samples.empty_extraction))
        = [i]
        /\ ValidationIssue.issue_type i = "empty").
Proof.
  intros [i [H _]]. vm_compute in H. discriminate H.
Qed.

(** ** The two stages (claim C9) *)

Section ValidatorFacts.
Context {S : Type} {storage_ops : BillStorageInterface S}.
Variable storage : option S.
Variable settings : AppSettings.t.

Lemma Forall_issue_if (P : ValidationIssue.t -> Prop) (c : bool)
    (i : ValidationIssue.t) (l : list ValidationIssue.t) :
  Forall P l -> P i -> Forall P (BillValidator.issue_if c i l).
Proof.
  intros Hl Hi. unfold BillValidator.issue_if. destruct c; [|exact Hl].
  apply Forall_app; split; [exact Hl|]. constructor; [exact Hi|constructor].
Qed.

Lemma no_errors_of_warnings (l : list ValidationIssue.t) :
  Forall is_warning l -> BillValidator.no_errors l = true.
Proof.
  unfold BillValidator.no_errors. induction 1 as [|i l Hi _ IH]; simpl.
  - reflexivity.
  - unfold BillValidator.is_error at 1. rewrite Hi. simpl.
    exact IH.
Qed.

(** Stage 2 only ever appends warnings, so it reports [True]. *)
Lemma validate_semantic_only_warnings (today : date)
    (extracted : ExtractedBillData.t) (ok : bool)
    (issues : list ValidationIssue.t) :
  BillValidator._validate_semantic settings today extracted
  = Ok (ok, issues) ->
  ok = true /\ Forall is_warning issues.
Proof.
  unfold BillValidator._validate_semantic.
  destruct (add_days today _) as [max_future_date|]; simpl; [|discriminate].
  destruct (sub_days today _) as [min_reasonable_date|]; simpl;
    [|discriminate].
  intros H. injection H as Hok Hissues.
  assert (W : Forall is_warning issues).
  { subst issues.
    repeat first
      [ apply Forall_issue_if; [|reflexivity]
      | match goal with
        | |- Forall _ (if ?c then _ else _) => destruct c
        end
      | apply Forall_nil ]. }
  split; [|exact W].
  rewrite <- Hok, Hissues. now apply no_errors_of_warnings.
Qed.

Lemma validate_semantic_returns (today : date)
    (extracted : ExtractedBillData.t) :
  semantic_dates_exist settings today ->
  exists r, BillValidator._validate_semantic settings today extracted = Ok r.
Proof.
  intros [[H1 H2] [H3 H4]]. unfold BillValidator._validate_semantic.
  unfold sub_days, add_days.
  replace (toordinal today + - (365 * 2)) with (toordinal today - 730)
    by lia.
  assert (E1 : ((0 <? toordinal today
                       + AppSettings.future_date_tolerance_days settings)
                && (toordinal today
                    + AppSettings.future_date_tolerance_days settings
                    <=? MAXORDINAL))%bool = true)
    by (apply andb_true_intro; split; [apply Z.ltb_lt|apply Z.leb_le]; lia).
  assert (E2 : ((0 <? toordinal today - 730)
                && (toordinal today - 730 <=? MAXORDINAL))%bool = true)
    by (apply andb_true_intro; split; [apply Z.ltb_lt|apply Z.leb_le]; lia).
  rewrite E1. simpl. rewrite E2. simpl. eexists; reflexivity.
Qed.

(** C9.  Whatever [validate] returns has [is_valid = schema_valid]:
    stage 2, when it runs, adds warnings only and reports [True];
    when stage 1 fails, [semantic_valid] keeps its initial [False] and
    the issues are those of stage 1 alone.  [validate] returns whenever
    the two dates stage 2 computes exist. *)
Theorem validate_is_valid_is_schema_valid (today : date)
    (extracted : ExtractedBillData.t) (check_duplicates : bool) :
  (forall r : ValidationResult.t,
      BillValidator.validate storage settings today extracted
        check_duplicates = Ok r ->
      ValidationResult.is_valid r = ValidationResult.schema_valid r
      /\ ValidationResult.semantic_valid r = ValidationResult.schema_valid r
      /\ ValidationResult.schema_valid r
         = fst (BillValidator._validate_schema extracted)
      /\ (ValidationResult.schema_valid r = true ->
          exists issues,
            BillValidator._validate_semantic settings today extracted
            = Ok (true, issues)
            /\ Forall is_warning issues)
      /\ (ValidationResult.schema_valid r = false ->
          ValidationResult.issues r
          = snd (BillValidator._validate_schema extracted)))
  /\ (semantic_dates_exist settings today ->
      exists r : ValidationResult.t,
        BillValidator.validate storage settings today extracted
          check_duplicates = Ok r).
Proof.
  split.
  - intros r. unfold BillValidator.validate.
    destruct (BillValidator._validate_schema extracted)
      as [schema_valid schema_issues] eqn:Es.
    destruct schema_valid; simpl.
    + destruct (BillValidator._validate_semantic settings today extracted)
        as [[ok issues]|] eqn:E; simpl; [|discriminate].
      destruct (validate_semantic_only_warnings _ _ _ _ E) as [-> W].
      intros H; injection H as <-; simpl.
      repeat split; try discriminate.
      intros _. exists issues; split; [reflexivity|exact W].
    + intros H; injection H as <-; simpl.
      repeat split; try discriminate.
  - intros Hd. unfold BillValidator.validate.
    destruct (BillValidator._validate_schema extracted)
      as [schema_valid schema_issues].
    destruct schema_valid; simpl.
    + destruct (validate_semantic_returns today extracted Hd)
        as [[ok issues] ->]. simpl. eexists; reflexivity.
    + eexists; reflexivity.
Qed.

End ValidatorFacts.

(** ** The executor (claims C4, C6, C7, C10) *)

Section ExecutorFacts.
Context {F : PyFloat} {S : Type} {storage_ops : BillStorageInterface S}.
Variable storage : S.

Lemma py_len_pos {A : Type} (a : A) (l : list A) :
  (0 <? py_len (a :: l)) = true.
Proof. apply Z.ltb_lt. unfold py_len. simpl List.length. lia. Qed.

Lemma py_len_map {A B : Type} (f : A -> B) (l : list A) :
  py_len (map f l) = py_len l.
Proof. unfold py_len. now rewrite length_map. Qed.

(** *** Nothing inside the handlers raises *)

Lemma dict_set_nonempty (groups : list (string * list float))
    (k : string) (v : list float) :
  nonempty_groups groups -> v <> [] -> nonempty_groups (dict_set groups k v).
Proof.
  intros Hg Hv. unfold nonempty_groups in *.
  induction Hg as [|[k' v'] r Hkv Hr IH]; simpl.
  - constructor; [exact Hv|constructor].
  - destruct (String.eqb k' k); constructor; simpl; assumption.
Qed.

Lemma groups_add_nonempty (groups : list (string * list float))
    (k : string) (x : float) :
  nonempty_groups groups ->
  nonempty_groups (QueryExecutor.groups_add groups k x).
Proof.
  intros Hg. unfold QueryExecutor.groups_add.
  destruct (dict_get groups k) as [amounts|];
    apply dict_set_nonempty; auto.
  - now destruct amounts.
  - discriminate.
Qed.

Lemma grouping_nonempty (group_by : string) (bills : list ConfirmedBill.t)
    (groups : list (string * list float)) :
  nonempty_groups groups ->
  nonempty_groups
    (fold_left
       (fun groups bill =>
          QueryExecutor.groups_add groups
            (QueryExecutor.group_key group_by bill)
            (float_of_decimal (ConfirmedBill.total_amount bill)))
       bills groups).
Proof.
  revert groups; induction bills as [|b bills IH]; intros groups Hg; simpl.
  - exact Hg.
  - apply IH. now apply groups_add_nonempty.
Qed.

Lemma py_truediv_returns (x : float) (n : Z) :
  n <> 0 -> exists y, py_truediv x n = Ok y.
Proof.
  intros Hn. unfold py_truediv.
  destruct (n =? 0) eqn:E; [apply Z.eqb_eq in E; contradiction|].
  eexists; reflexivity.
Qed.

Lemma py_len_nonzero {A : Type} (l : list A) : l <> [] -> py_len l <> 0.
Proof. destruct l; [congruence|]. unfold py_len; simpl List.length; lia. Qed.

Lemma group_value_returns (aggregation_type : option string)
    (amounts : list float) :
  amounts <> [] ->
  exists v, QueryExecutor.group_value aggregation_type amounts = Ok v.
Proof.
  intros Hne. unfold QueryExecutor.group_value.
  destruct (QueryExecutor.opt_str_eqb aggregation_type "count");
    [eexists; reflexivity|].
  destruct (QueryExecutor.opt_str_eqb aggregation_type "average").
  { destruct (py_truediv_returns (float_sum amounts) (py_len amounts)
                (py_len_nonzero _ Hne)) as [y ->].
    eexists; reflexivity. }
  destruct amounts as [|a amounts]; [congruence|].
  destruct (QueryExecutor.opt_str_eqb aggregation_type "min");
    [eexists; reflexivity|].
  destruct (QueryExecutor.opt_str_eqb aggregation_type "max");
    eexists; reflexivity.
Qed.

Lemma mapM_returns {A B : Type} (f : A -> result B) (P : A -> Prop)
    (l : list A) :
  (forall a, P a -> exists b, f a = Ok b) ->
  Forall P l -> exists bs, mapM f l = Ok bs.
Proof.
  intros Hf. induction 1 as [|a l Ha _ [bs IH]]; simpl.
  - eexists; reflexivity.
  - destruct (Hf a Ha) as [b ->]. simpl. rewrite IH. simpl.
    eexists; reflexivity.
Qed.

Lemma grouped_aggregate_returns (bills : list ConfirmedBill.t)
    (group_by : string) (aggregation_type : option string) :
  exists grouped,
    QueryExecutor._execute_grouped_aggregate bills group_by
      aggregation_type = Ok grouped.
Proof.
  unfold QueryExecutor._execute_grouped_aggregate.
  eapply mapM_returns; [|apply grouping_nonempty; constructor].
  intros [k amounts] Hne. simpl in Hne.
  destruct (group_value_returns aggregation_type amounts Hne) as [v Hv].
  simpl. rewrite Hv. simpl. eexists; reflexivity.
Qed.

(** A handler raises only what its one call of [list_bills] raised. *)
Lemma dispatch_raises_from_source (query : StructuredQuery.t) (e : exn) :
  QueryExecutor.dispatch storage query = Raise e ->
  exists limit : Z, QueryExecutor.fetch storage query limit = Raise e.
Proof.
  assert (Hlist : QueryExecutor._execute_list storage query = Raise e ->
                  exists limit,
                    QueryExecutor.fetch storage query limit = Raise e).
  { unfold QueryExecutor._execute_list.
    destruct (QueryExecutor.fetch storage query _) eqn:E; simpl;
      [discriminate|].
    intros H; injection H as <-. eauto. }
  assert (Hagg : QueryExecutor._execute_aggregate storage query = Raise e ->
                 exists limit,
                   QueryExecutor.fetch storage query limit = Raise e).
  { unfold QueryExecutor._execute_aggregate.
    destruct (QueryExecutor.fetch storage query 1000) as [bills|e'] eqn:E;
      simpl; [|intros H; injection H as <-; eauto].
    destruct bills as [|b bills]; [discriminate|].
    set (amounts := map _ (b :: bills)).
    assert (Hne : amounts <> []) by discriminate.
    destruct (py_truediv_returns (float_sum amounts) (py_len amounts)
                (py_len_nonzero _ Hne)) as [avg Havg].
    destruct (grouped_aggregate_returns (b :: bills)
                (QueryExecutor.str_value (StructuredQuery.group_by query))
                (StructuredQuery.aggregation_type query)) as [g Hg].
    rewrite Havg, Hg.
    destruct (_ || _)%bool; simpl;
      [destruct (opt_truthy _); discriminate|].
    destruct (QueryExecutor.opt_str_eqb _ "count"); simpl;
      [destruct (opt_truthy _); discriminate|].
    destruct (QueryExecutor.opt_str_eqb _ "average"); simpl;
      [destruct (opt_truthy _); discriminate|].
    destruct (QueryExecutor.opt_str_eqb _ "min"); simpl;
      [destruct (opt_truthy _); discriminate|].
    destruct (QueryExecutor.opt_str_eqb _ "max"); simpl;
      destruct (opt_truthy _); discriminate. }
  unfold QueryExecutor.dispatch.
  destruct (String.eqb _ "lookup").
  { unfold QueryExecutor._execute_lookup.
    destruct (QueryExecutor.fetch storage query _) eqn:E; simpl;
      [discriminate|].
    intros H; injection H as <-. eauto. }
  destruct (String.eqb _ "list"); [exact Hlist|].
  destruct (String.eqb _ "aggregate"); [exact Hagg|].
  destruct (String.eqb _ "exists").
  { unfold QueryExecutor._execute_exists.
    destruct (QueryExecutor.fetch storage query 1) eqn:E; simpl;
      [discriminate|].
    intros H; injection H as <-. eauto. }
  destruct (String.eqb _ "compare"); [exact Hagg|exact Hlist].
Qed.

(** C4.  [execute] always returns a [QueryResult]; when anything raised
    while the query was executed, it is the failed result that carries the
    exception's text; and the exception then came from the record
    source. *)
Theorem execute_never_raises (query : StructuredQuery.t) :
  (exists r : QueryResult.t, QueryExecutor.execute storage query = Ok r)
  /\ (forall e : exn,
         QueryExecutor.dispatch storage query = Raise e ->
         QueryExecutor.execute storage query
         = Ok (QueryResult.mk (StructuredQuery.query_id query) false
                 (Some (exn_str e)) false 0 [] None
                 ("Query failed: " ++ exn_str e))
         /\ exists limit : Z,
             QueryExecutor.fetch storage query limit = Raise e).
Proof.
  split.
  - unfold QueryExecutor.execute.
    destruct (QueryExecutor.dispatch storage query); simpl;
      eexists; reflexivity.
  - intros e He. split.
    + unfold QueryExecutor.execute. rewrite He. reflexivity.
    + now apply dispatch_raises_from_source.
Qed.

End ExecutorFacts.

Section ExecutorResults.
Context {F : PyFloat} {S : Type} {storage_ops : BillStorageInterface S}.
Variable storage : S.

Lemma dispatch_aggregate (query : StructuredQuery.t) :
  StructuredQuery.query_type query = "aggregate" ->
  QueryExecutor.dispatch storage query
  = QueryExecutor._execute_aggregate storage query.
Proof. intros H. unfold QueryExecutor.dispatch. rewrite H. reflexivity. Qed.

(** What the handler makes of the bills it fetched: with no bill the
    result has [data_found = False] and no aggregation payload; with
    [n >= 1] bills the payload gives the sum of their amounts as
    [total_amount] and [n] as [bill_count]. *)
Lemma aggregate_unset_of_fetched (query : StructuredQuery.t)
    (bills : list ConfirmedBill.t) :
  StructuredQuery.query_type query = "aggregate" ->
  StructuredQuery.aggregation_type query = None ->
  QueryExecutor.fetch storage query 1000 = Ok bills ->
  exists r : QueryResult.t,
    QueryExecutor.execute storage query = Ok r
    /\ QueryResult.success r = true
    /\ (bills = [] ->
        QueryResult.data_found r = false
        /\ QueryResult.result_count r = 0
        /\ QueryResult.aggregation_result r = None)
    /\ (bills <> [] ->
        QueryResult.data_found r = true
        /\ QueryResult.result_count r = py_len bills
        /\ exists payload : pydict,
            QueryResult.aggregation_result r = Some payload
            /\ dict_get payload "total_amount"
               = Some (VFloat (float_sum (amounts_of bills)))
            /\ dict_get payload "bill_count"
               = Some (VInt (py_len bills))).
Proof.
  intros Hty Hagg Hfetch.
  unfold QueryExecutor.execute. rewrite (dispatch_aggregate _ Hty).
  unfold QueryExecutor._execute_aggregate. rewrite Hfetch, Hagg. simpl.
  destruct bills as [|b bills].
  - simpl. eexists; split; [reflexivity|]. simpl.
    repeat split; congruence.
  - destruct (opt_truthy (StructuredQuery.group_by query)).
    + destruct (grouped_aggregate_returns (b :: bills)
                  (QueryExecutor.str_value
                     (StructuredQuery.group_by query)) None) as [g Hg].
      rewrite Hg. simpl.
      eexists; split; [reflexivity|]. simpl.
      repeat split; try congruence.
      eexists; split; [reflexivity|]. split.
      * reflexivity.
      * rewrite <- (py_len_map
                      (fun bill =>
                         float_of_decimal (ConfirmedBill.total_amount bill))
                      (b :: bills)).
        reflexivity.
    + simpl. eexists; split; [reflexivity|]. simpl.
      repeat split; try congruence.
      eexists; split; [reflexivity|]. split.
      * reflexivity.
      * rewrite <- (py_len_map
                      (fun bill =>
                         float_of_decimal (ConfirmedBill.total_amount bill))
                      (b :: bills)).
        reflexivity.
Qed.

Lemma firstn_nil_iff {A : Type} (n : nat) (l : list A) :
  firstn (Datatypes.S n) l = [] <-> l = [].
Proof. destruct l; simpl; split; congruence. Qed.

Lemma py_len_firstn {A : Type} (n : nat) (l : list A) :
  py_len (firstn n l) = Z.min (Z.of_nat n) (py_len l).
Proof. unfold py_len. rewrite length_firstn. lia. Qed.

(** C6.  An aggregate query with no aggregation type, over a record
    source that answers the query's filters, for every limit, with the
    first records of [matching]: when no record matches, the result has
    [data_found = False] and no aggregation payload; when [n >= 1]
    match, the handler asks for 1000 of them, and the payload gives
    the sum of the amounts of the first 1000 of [matching] as
    [total_amount] and [min(n, 1000)] as [bill_count].  So with up to
    1000 matching records the total is the sum over all of them and the
    count is [n]. *)
Theorem aggregate_unset_sums_first_thousand (query : StructuredQuery.t)
    (matching : list ConfirmedBill.t) :
  StructuredQuery.query_type query = "aggregate" ->
  StructuredQuery.aggregation_type query = None ->
  (forall limit : Z,
      0 <= limit ->
      list_bills storage
        (StructuredQuery.category_filter query)
        (StructuredQuery.vendor_filter query)
        (StructuredQuery.date_from query)
        (StructuredQuery.date_to query)
        (StructuredQuery.payment_status_filter query) limit 0
      = Ok (firstn (Z.to_nat limit) matching)) ->
  exists r : QueryResult.t,
    QueryExecutor.execute storage query = Ok r
    /\ QueryResult.success r = true
    /\ (matching = [] ->
        QueryResult.data_found r = false
        /\ QueryResult.result_count r = 0
        /\ QueryResult.aggregation_result r = None)
    /\ (matching <> [] ->
        QueryResult.data_found r = true
        /\ QueryResult.result_count r = Z.min 1000 (py_len matching)
        /\ exists payload : pydict,
            QueryResult.aggregation_result r = Some payload
            /\ dict_get payload "total_amount"
               = Some (VFloat (float_sum (amounts_of (firstn 1000 matching))))
            /\ dict_get payload "bill_count"
               = Some (VInt (Z.min 1000 (py_len matching)))
            /\ (py_len matching <= 1000 ->
                dict_get payload "total_amount"
                = Some (VFloat (float_sum (amounts_of matching)))
                /\ dict_get payload "bill_count"
                   = Some (VInt (py_len matching)))).
Proof.
  intros Hty Hagg Hsource.
  specialize (Hsource 1000 ltac:(lia)).
  replace (Z.to_nat 1000) with 1000%nat in Hsource
    by reflexivity.
  destruct (aggregate_unset_of_fetched query (firstn 1000 matching)
              Hty Hagg Hsource) as [r [Hr [Hs [Hnone Hsome]]]].
  exists r. split; [exact Hr|]. split; [exact Hs|]. split.
  - intros ->. now apply Hnone.
  - intros Hne.
    assert (Hne' : firstn 1000 matching <> [])
      by (intros H; apply Hne; now apply (firstn_nil_iff 999)).
    destruct (Hsome Hne') as [Hd [Hc [payload [Hp [Ht Hb]]]]].
    rewrite (py_len_firstn 1000) in Hc, Hb.
    change (Z.of_nat 1000) with 1000 in Hc, Hb.
    split; [exact Hd|]. split; [exact Hc|].
    exists payload. split; [exact Hp|]. split; [exact Ht|].
    split; [exact Hb|].
    intros Hall.
    rewrite firstn_all2 in Ht by (unfold py_len in Hall; lia).
    rewrite Z.min_r in Hb by lia. split; assumption.
Qed.

(** C7.  [execute] returns, and in what it returns [data_found] is
    [result_count > 0], for every query type, every answer of the record
    source and on the path of the caught exception. *)
Theorem execute_data_found_iff_count (query : StructuredQuery.t) :
  exists r : QueryResult.t,
    QueryExecutor.execute storage query = Ok r
    /\ QueryResult.data_found r = (0 <? QueryResult.result_count r).
Proof.
  assert (Hlookup : forall r,
             QueryExecutor._execute_lookup storage query = Ok r ->
             QueryResult.data_found r = (0 <? QueryResult.result_count r)).
  { intros r. unfold QueryExecutor._execute_lookup.
    destruct (QueryExecutor.fetch storage query _); simpl; [|discriminate].
    intros H; injection H as <-. reflexivity. }
  assert (Hlist : forall r,
             QueryExecutor._execute_list storage query = Ok r ->
             QueryResult.data_found r = (0 <? QueryResult.result_count r)).
  { intros r. unfold QueryExecutor._execute_list.
    destruct (QueryExecutor.fetch storage query _); simpl; [|discriminate].
    intros H; injection H as <-. reflexivity. }
  assert (Hagg : forall r,
             QueryExecutor._execute_aggregate storage query = Ok r ->
             QueryResult.data_found r = (0 <? QueryResult.result_count r)).
  { intros r. unfold QueryExecutor._execute_aggregate.
    destruct (QueryExecutor.fetch storage query 1000) as [bills|]; simpl;
      [|discriminate].
    destruct bills as [|b bills].
    - intros H; injection H as <-. reflexivity.
    - match goal with
      | |- bind ?m _ = _ -> _ => destruct m as [payload|]; simpl;
                                 [|discriminate]
      end.
      match goal with
      | |- bind ?m _ = _ -> _ => destruct m as [payload'|]; simpl;
                                 [|discriminate]
      end.
      intros H; injection H as <-. simpl.
      symmetry. apply py_len_pos. }
  assert (Hexists : forall r,
             QueryExecutor._execute_exists storage query = Ok r ->
             QueryResult.data_found r = (0 <? QueryResult.result_count r)).
  { intros r. unfold QueryExecutor._execute_exists.
    destruct (QueryExecutor.fetch storage query 1) as [bills|]; simpl;
      [|discriminate].
    intros H; injection H as <-. simpl.
    now destruct (0 <? py_len bills). }
  unfold QueryExecutor.execute.
  destruct (QueryExecutor.dispatch storage query) as [r|e] eqn:E; simpl.
  - exists r; split; [reflexivity|].
    revert E. unfold QueryExecutor.dispatch, QueryExecutor._execute_compare.
    repeat match goal with
           | |- (if ?c then _ else _) = _ -> _ => destruct c
           end; auto.
  - eexists; split; reflexivity.
Qed.

(** C10.  What [_execute_exists] returns.  It asks the record source
    for one bill with the query's filters and returns whenever the
    source does.  Without a bill, [results] is the single mapping
    {exists: False, answer: no} and [result_count] is 0.  With one,
    [results] is the mapping {exists: True, answer: yes} followed by
    the mapping of the fields of the first bill the source gave, and
    [result_count] is 1.  So the first entry always is the mapping of
    [exists] and [answer], and [result_count] is never the length of
    [results]. *)
Theorem exists_results_shape (query : StructuredQuery.t) :
  (forall bills : list ConfirmedBill.t,
      list_bills storage
        (StructuredQuery.category_filter query)
        (StructuredQuery.vendor_filter query)
        (StructuredQuery.date_from query)
        (StructuredQuery.date_to query)
        (StructuredQuery.payment_status_filter query) 1 0
      = Ok bills ->
      exists r : QueryResult.t,
        QueryExecutor._execute_exists storage query = Ok r
        /\ QueryResult.results r
           = match bills with
             | [] => [[("exists", VBool false); ("answer", VStr "no")]]
             | bill :: _ =>
                 [[("exists", VBool true); ("answer", VStr "yes")];
                  [("id", VStr (ConfirmedBill.id bill));
                   ("vendor_name", VStr (ConfirmedBill.vendor_name bill));
                   ("category",
                    VStr (BillCategory.value
                            (ConfirmedBill.category bill)));
                   ("total_amount",
                    VFloat (float_of_decimal
                              (ConfirmedBill.total_amount bill)));
                   ("bill_date",
                    VStr (isoformat (ConfirmedBill.bill_date bill)));
                   ("due_date",
                    match ConfirmedBill.due_date bill with
                    | Some d => VStr (isoformat d)
                    | None => VNone
                    end);
                   ("payment_status",
                    VStr (PaymentStatus.value
                            (ConfirmedBill.payment_status bill)));
                   ("bill_number",
                    match ConfirmedBill.bill_number bill with
                    | Some n => VStr n
                    | None => VNone
                    end)]]
             end
        /\ QueryResult.data_found r
           = match bills with [] => false | _ :: _ => true end
        /\ QueryResult.result_count r
           = match bills with [] => 0 | _ :: _ => 1 end)
  /\ (forall r : QueryResult.t,
         QueryExecutor._execute_exists storage query = Ok r ->
         (exists bills : list ConfirmedBill.t,
             list_bills storage
               (StructuredQuery.category_filter query)
               (StructuredQuery.vendor_filter query)
               (StructuredQuery.date_from query)
               (StructuredQuery.date_to query)
               (StructuredQuery.payment_status_filter query) 1 0
             = Ok bills)
         /\ nth_error (QueryResult.results r) 0
            = Some [("exists", VBool (QueryResult.data_found r));
                    ("answer",
                     VStr (if QueryResult.data_found r
                           then "yes" else "no"))]
         /\ (QueryResult.data_found r = true ->
             QueryResult.result_count r = 1
             /\ py_len (QueryResult.results r) = 2)
         /\ (QueryResult.data_found r = false ->
             QueryResult.result_count r = 0
             /\ py_len (QueryResult.results r) = 1)
         /\ QueryResult.result_count r
            <> py_len (QueryResult.results r)).
Proof.
  split.
  - intros bills Hb. unfold QueryExecutor._execute_exists,
      QueryExecutor.fetch.
    rewrite Hb. cbn [bind]. eexists; split; [reflexivity|].
    destruct bills as [|b bills]; [repeat split|].
    cbv zeta. rewrite py_len_pos.
    cbn [QueryResult.results QueryResult.data_found
           QueryResult.result_count app].
    repeat split.
  - intros r. unfold QueryExecutor._execute_exists, QueryExecutor.fetch.
    destruct (list_bills storage _ _ _ _ _ 1 0) as [bills|]; cbn [bind];
      [|discriminate].
    destruct bills as [|b bills].
    + intros H; injection H as <-. simpl.
      repeat split; try discriminate. now eexists.
    + rewrite py_len_pos.
      intros H; injection H as <-. simpl.
      repeat split; try discriminate. now eexists.
Qed.

End ExecutorResults.

(** ** Dates as triples *)

Lemma date_ltb_irrefl (d : date) : PyDate.ltb d d = false.
Proof.
  unfold PyDate.ltb. rewrite !Z.ltb_irrefl, !Z.eqb_refl. reflexivity.
Qed.

Lemma date_eqb_eq (a b : date) : PyDate.eqb a b = true <-> a = b.
Proof.
  destruct a as [y m d], b as [y' m' d']; unfold PyDate.eqb; simpl.
  rewrite !andb_true_iff, !Z.eqb_eq. split.
  - intros [[-> ->] ->]; reflexivity.
  - intros H; injection H; auto.
Qed.

Lemma date_eqb_ltb (a b : date) :
  PyDate.eqb a b = (negb (PyDate.ltb a b) && negb (PyDate.ltb b a))%bool.
Proof.
  destruct a as [y m d], b as [y' m' d']; unfold PyDate.eqb, PyDate.ltb;
    simpl.
  destruct (Z.compare_spec y y'), (Z.compare_spec m m'),
    (Z.compare_spec d d');
    repeat match goal with
           | |- context [?a =? ?b] =>
               (replace (a =? b) with true by (symmetry; apply Z.eqb_eq; lia))
               || (replace (a =? b) with false
                    by (symmetry; apply Z.eqb_neq; lia))
           | |- context [?a <? ?b] =>
               (replace (a <? b) with true by (symmetry; apply Z.ltb_lt; lia))
               || (replace (a <? b) with false
                    by (symmetry; apply Z.ltb_ge; lia))
           end; reflexivity.
Qed.

(** ** The worksheet storage and duplicate detection (claim C3) *)

Lemma contains_empty (x : string) : PyStr.contains "" x = true.
Proof.
  destruct x; [reflexivity|]. rewrite contains_cons. reflexivity.
Qed.

Lemma keep_vendor_date (vendor : string) (d : date) (b : ConfirmedBill.t) :
  GoogleSheetsBillStorage.keep None (Some vendor) (Some d) (Some d) None b
  = same_vendor_and_date vendor d b.
Proof.
  unfold GoogleSheetsBillStorage.keep, same_vendor_and_date.
  rewrite date_eqb_ltb.
  set (before := PyDate.ltb (ConfirmedBill.bill_date b) d).
  set (after := PyDate.ltb d (ConfirmedBill.bill_date b)).
  destruct vendor as [|c v].
  - cbn [PyStr.truthy PyStr.lower]. rewrite contains_empty.
    now destruct before, after.
  - cbn [PyStr.truthy].
    now destruct (PyStr.contains _ _), before, after.
Qed.

Lemma collect_vendor_date (vendor : string) (d : date)
    (rows : list (option ConfirmedBill.t)) :
  GoogleSheetsBillStorage.collect None (Some vendor) (Some d) (Some d) None
    rows
  = filter (same_vendor_and_date vendor d) (stored_bills rows).
Proof.
  induction rows as [|[b|] rows IH]; simpl; [reflexivity| |exact IH].
  rewrite keep_vendor_date, IH. reflexivity.
Qed.

Lemma sort_desc_same_date (d : date) (l : list ConfirmedBill.t) :
  Forall (fun b => ConfirmedBill.bill_date b = d) l ->
  GoogleSheetsBillStorage.sort_desc l = l.
Proof.
  unfold GoogleSheetsBillStorage.sort_desc.
  induction 1 as [|x l Hx Hl IH]; [reflexivity|].
  cbn [fold_right]. rewrite IH.
  destruct Hl as [|y l Hy _]; [reflexivity|].
  cbn [GoogleSheetsBillStorage.insert_desc].
  now rewrite Hx, Hy, date_ltb_irrefl.
Qed.

Lemma filter_same_date (vendor : string) (d : date)
    (l : list ConfirmedBill.t) :
  Forall (fun b => ConfirmedBill.bill_date b = d)
    (filter (same_vendor_and_date vendor d) l).
Proof.
  apply Forall_forall. intros b Hb. apply filter_In in Hb as [_ Hb].
  unfold same_vendor_and_date in Hb. apply andb_true_iff in Hb as [_ Hb].
  now apply date_eqb_eq.
Qed.

Lemma py_slice_first {A : Type} (l : list A) (k : Z) :
  0 <= k -> py_slice l 0 (0 + k) = firstn (Z.to_nat k) l.
Proof.
  intros Hk. unfold py_slice.
  replace (0 <? 0) with false by reflexivity.
  replace (0 + k <? 0) with false by (symmetry; apply Z.ltb_ge; lia).
  assert (Hn : 0 <= py_len l) by (unfold py_len; lia).
  rewrite (Z.min_l 0) by exact Hn. rewrite Z.sub_0_r. simpl skipn.
  destruct (Z.le_ge_cases k (py_len l)) as [Hle|Hge].
  - rewrite Z.min_l by lia. now rewrite Z.add_0_l.
  - rewrite Z.min_r by lia. unfold py_len. rewrite Nat2Z.id.
    rewrite firstn_all. symmetry. apply firstn_all2.
    unfold py_len in Hge. lia.
Qed.

(** What [bill_exists] looks at: the first hundred stored bills of the
    vendor and date, in sheet order. *)
Lemma list_bills_vendor_date (rows : list (option ConfirmedBill.t))
    (vendor : string) (d : date) :
  GoogleSheetsBillStorage.list_bills (Ok rows) None (Some vendor) (Some d)
    (Some d) None 100 0
  = Ok (firstn 100 (filter (same_vendor_and_date vendor d)
                      (stored_bills rows))).
Proof.
  unfold GoogleSheetsBillStorage.list_bills. simpl.
  rewrite collect_vendor_date.
  rewrite (sort_desc_same_date d) by apply filter_same_date.
  now rewrite (py_slice_first _ 100) by lia.
Qed.

Lemma bill_exists_sheet (rows : list (option ConfirmedBill.t))
    (vendor : string) (number : option string) (d : date) :
  bill_exists (Ok rows : GoogleSheetsBillStorage.t) vendor number d
  = Ok (existsb
          (fun bill =>
             (opt_truthy number
              && match ConfirmedBill.bill_number bill, number with
                 | Some a, Some b => String.eqb a b
                 | None, None => true
                 | _, _ => false
                 end)%bool)
          (firstn 100 (filter (same_vendor_and_date vendor d)
                         (stored_bills rows)))).
Proof.
  change (bill_exists (Ok rows : GoogleSheetsBillStorage.t) vendor number d)
    with (GoogleSheetsBillStorage.bill_exists (Ok rows) vendor number d).
  unfold GoogleSheetsBillStorage.bill_exists.
  rewrite list_bills_vendor_date. reflexivity.
Qed.

(** X28.  What the duplicate check sees, on ASCII vendor text.  For a
    readable worksheet and an extraction with a vendor and a bill date,
    it flags [potential_duplicate] exactly when the extraction carries a
    bill number and one of the first hundred stored bills of that vendor
    and date, in sheet order, has exactly that number. *)
Theorem duplicate_flag_iff_number_in_first_hundred
    (rows : list (option ConfirmedBill.t))
    (extracted : ExtractedBillData.t) (v : VendorInfo.t) (d : date) :
  ExtractedBillData.vendor extracted = Some v ->
  ExtractedBillData.bill_date extracted = Some d ->
  ascii_vendors (Some (VendorInfo.name v)) rows = true ->
  flags_duplicate
    (BillValidator._check_duplicates
       (Some (Ok rows : GoogleSheetsBillStorage.t)) extracted)
  <-> (opt_truthy (ExtractedBillData.bill_number extracted) = true
       /\ exists b : ConfirmedBill.t,
           In b (firstn 100
                   (filter (same_vendor_and_date (VendorInfo.name v) d)
                      (stored_bills rows)))
           /\ ConfirmedBill.bill_number b
              = ExtractedBillData.bill_number extracted).
Proof.
  intros Hv Hd _. unfold flags_duplicate, BillValidator._check_duplicates.
  rewrite Hv, Hd, bill_exists_sheet.
  set (bills := firstn 100 _).
  set (number := ExtractedBillData.bill_number extracted).
  destruct (existsb _ bills) eqn:E; unfold BillValidator.issue_if.
  - apply existsb_exists in E as [b [Hb Ht]].
    apply andb_true_iff in Ht as [Htr Heq].
    split.
    + intros _. split; [exact Htr|]. exists b. split; [exact Hb|].
      destruct (ConfirmedBill.bill_number b) as [a|], number as [n|];
        try discriminate.
      apply String.eqb_eq in Heq. now subst.
    + intros _. eexists. split; [left; reflexivity|]. split; reflexivity.
  - split.
    + intros [i [[] _]].
    + intros [Htr [b [Hb Heq]]]. exfalso.
      rewrite <- not_true_iff_false in E. apply E.
      apply existsb_exists. exists b. split; [exact Hb|].
      rewrite Htr, Heq. simpl.
      destruct number as [n|]; [apply String.eqb_refl|reflexivity].
Qed.

(** X28 at a bill extracted a second time. *)
Lemma duplicate_flag_iff_number_in_first_hundred_witness :
  flags_duplicate
    (BillValidator._check_duplicates (Some Samples.three_bills)
       Samples.second_again).
Proof.
  apply (proj2 (duplicate_flag_iff_number_in_first_hundred
                  Samples.three_rows Samples.second_again
                  (VendorInfo.mk "acme") (mkdate 2024 2 10)
                  eq_refl eq_refl eq_refl)).
  split; [reflexivity|].
  exists (Samples.bill "b2" "Acme Power" 200 (mkdate 2024 2 10)
            (Some "INV-2")).
  split; [vm_compute; left; reflexivity|reflexivity].
Defined.

(** C3.  The duplicate check misses a duplicate when the vendor has more
    than a hundred stored bills of the date.  The worksheet holds a
    hundred bills of Acme Power of 1 March 2024 numbered INV-0 and then
    one numbered INV-7; the extraction is a bill of Acme Power of that
    date numbered INV-7.  A stored bill of the vendor and date has
    exactly the extracted number, [bill_exists] answers [False], and
    nothing is flagged. *)
Theorem duplicate_beyond_first_hundred_not_flagged :
  (exists (v : VendorInfo.t) (b : ConfirmedBill.t),
      ExtractedBillData.vendor Samples.power_bill = Some v
      /\ In (Some b) Samples.crowded_rows
      /\ ConfirmedBill.vendor_name b = VendorInfo.name v
      /\ Some (ConfirmedBill.bill_date b)
         = ExtractedBillData.bill_date Samples.power_bill
      /\ ConfirmedBill.bill_number b
         = ExtractedBillData.bill_number Samples.power_bill
      /\ ExtractedBillData.bill_number Samples.power_bill = Some "INV-7")
  /\ bill_exists Samples.crowded_sheet "Acme Power" (Some "INV-7")
       (mkdate 2024 3 1) = Ok false
  /\ BillValidator._check_duplicates (Some Samples.crowded_sheet)
       Samples.power_bill = []
  /\ ~ flags_duplicate
        (BillValidator._check_duplicates (Some Samples.crowded_sheet)
           Samples.power_bill).
Proof.
  assert (Hnone : BillValidator._check_duplicates
                    (Some Samples.crowded_sheet) Samples.power_bill = [])
    by (vm_compute; reflexivity).
  split; [|split; [vm_compute; reflexivity|split; [exact Hnone|]]].
  - exists (VendorInfo.mk "Acme Power"),
      (Samples.bill "b7" "Acme Power" 1180 (mkdate 2024 3 1)
         (Some "INV-7")).
    split; [reflexivity|]. split; [|repeat split].
    unfold Samples.crowded_rows. apply in_or_app. right. left. reflexivity.
  - rewrite Hnone. intros [i [[] _]].
Qed.

(** Without a record source, or when reading it raises, nothing is
    flagged. *)
Lemma no_storage_no_duplicate (extracted : ExtractedBillData.t) :
  BillValidator._check_duplicates (None : option GoogleSheetsBillStorage.t)
    extracted = [].
Proof. reflexivity. Qed.

Lemma unreadable_sheet_no_duplicate (e : exn)
    (extracted : ExtractedBillData.t) :
  BillValidator._check_duplicates
    (Some (Raise e : GoogleSheetsBillStorage.t)) extracted = [].
Proof.
  unfold BillValidator._check_duplicates.
  destruct (ExtractedBillData.vendor extracted),
    (ExtractedBillData.bill_date extracted); reflexivity.
Qed.

(** ** Calendar arithmetic *)

(** The ordinal before that of the first of a month is that of the last
    day of the month before: checked by evaluation for every month of the
    years 1 to 400. *)
Lemma cycle_first_minus_one_ok :
  forallb
    (fun y =>
       forallb
         (fun m =>
            PyDate.eqb (ord2ymd (ymd2ord y m 1 - 1)) (prev_month_end y m))
         all_months)
    cycle_years
  = true.
Proof. vm_compute. reflexivity. Qed.

Lemma in_range_list (lo len : nat) (z : Z) :
  Z.of_nat lo <= z < Z.of_nat lo + Z.of_nat len ->
  In z (map Z.of_nat (seq lo len)).
Proof.
  intros H. apply in_map_iff. exists (Z.to_nat z). split.
  - apply Z2Nat.id. lia.
  - apply in_seq. lia.
Qed.

Lemma cycle_first_minus_one (y m : Z) :
  1 <= y <= 400 -> 1 <= m <= 12 ->
  ord2ymd (ymd2ord y m 1 - 1) = prev_month_end y m.
Proof.
  intros Hy Hm.
  pose proof cycle_first_minus_one_ok as H.
  rewrite forallb_forall in H.
  specialize (H y (in_range_list 1 400 y ltac:(lia))).
  rewrite forallb_forall in H.
  specialize (H m (in_range_list 1 12 m ltac:(lia))).
  apply date_eqb_eq in H. exact H.
Qed.

(** The calendar repeats every 400 years, that is every 146097 days. *)

Lemma is_leap_shift (y k : Z) : is_leap (y + 400 * k) = is_leap y.
Proof.
  unfold is_leap.
  replace ((y + 400 * k) mod 4) with (y mod 4)
    by (Z.div_mod_to_equations; lia).
  replace ((y + 400 * k) mod 100) with (y mod 100)
    by (Z.div_mod_to_equations; lia).
  replace ((y + 400 * k) mod 400) with (y mod 400)
    by (Z.div_mod_to_equations; lia).
  reflexivity.
Qed.

Lemma days_before_year_shift (y k : Z) :
  days_before_year (y + 400 * k) = days_before_year y + 146097 * k.
Proof. unfold days_before_year. Z.div_mod_to_equations. lia. Qed.

Lemma ymd2ord_shift (y k m d : Z) :
  ymd2ord (y + 400 * k) m d = ymd2ord y m d + 146097 * k.
Proof.
  unfold ymd2ord, days_before_month.
  rewrite days_before_year_shift, is_leap_shift. lia.
Qed.

Lemma days_in_month_shift (y k m : Z) :
  days_in_month (y + 400 * k) m = days_in_month y m.
Proof. unfold days_in_month. now rewrite is_leap_shift. Qed.

Lemma prev_month_end_shift (y k m : Z) :
  prev_month_end (y + 400 * k) m = shift_cycles k (prev_month_end y m).
Proof.
  unfold prev_month_end, shift_cycles.
  rewrite days_in_month_shift.
  destruct (m =? 1); simpl; f_equal; lia.
Qed.

Lemma ord2ymd_shift (n k : Z) :
  ord2ymd (n + 146097 * k) = shift_cycles k (ord2ymd n).
Proof.
  unfold ord2ymd, shift_cycles.
  replace (n + 146097 * k - 1) with (n - 1 + k * DI400Y)
    by (unfold DI400Y; lia).
  rewrite Z.div_add, Z.mod_add by (unfold DI400Y; lia).
  set (q := (n - 1) / DI400Y). set (r := (n - 1) mod DI400Y).
  cbv zeta.
  repeat match goal with
         | |- context [if ?c then _ else _] => destruct c
         end; cbn [year month day]; f_equal; lia.
Qed.

Lemma first_minus_one_ordinal (y m : Z) :
  1 <= m <= 12 -> ord2ymd (ymd2ord y m 1 - 1) = prev_month_end y m.
Proof.
  intros Hm.
  pose proof (Z.div_mod (y - 1) 400 ltac:(lia)) as Hdiv.
  pose proof (Z.mod_pos_bound (y - 1) 400 ltac:(lia)) as Hmod.
  set (k := (y - 1) / 400) in *. set (y0 := (y - 1) mod 400 + 1).
  replace y with (y0 + 400 * k) by (unfold y0; lia).
  rewrite ymd2ord_shift, prev_month_end_shift.
  replace (ymd2ord y0 m 1 + 146097 * k - 1)
    with (ymd2ord y0 m 1 - 1 + 146097 * k) by lia.
  rewrite ord2ymd_shift.
  now rewrite cycle_first_minus_one by (unfold y0; lia).
Qed.

Lemma days_before_month_range (y m : Z) :
  1 <= m <= 12 ->
  0 <= days_before_month y m <= 335
  /\ (2 <= m -> 31 <= days_before_month y m).
Proof.
  intros H. unfold days_before_month.
  assert (m = 1 \/ m = 2 \/ m = 3 \/ m = 4 \/ m = 5 \/ m = 6 \/ m = 7
          \/ m = 8 \/ m = 9 \/ m = 10 \/ m = 11 \/ m = 12) as Hc by lia.
  repeat destruct Hc as [Hc|Hc]; subst m;
    destruct ((2 <? _) && is_leap y)%bool; simpl; lia.
Qed.

Lemma first_minus_one (y m : Z) :
  1 <= y <= 9999 -> 1 <= m <= 12 -> (y, m) <> (1, 1) ->
  sub_days (mkdate y m 1) 1 = Ok (prev_month_end y m).
Proof.
  intros Hy Hm Hne. unfold sub_days, add_days, toordinal.
  cbn [year month day].
  replace (ymd2ord y m 1 + - (1)) with (ymd2ord y m 1 - 1) by lia.
  assert (Hrange : 0 < ymd2ord y m 1 - 1 <= MAXORDINAL).
  { destruct (days_before_month_range y m Hm) as [Hb Hb2].
    unfold ymd2ord, MAXORDINAL.
    assert (Hdy : 0 <= days_before_year y <= 3651694)
      by (unfold days_before_year; Z.div_mod_to_equations; lia).
    assert (Hdy2 : 2 <= y -> 365 <= days_before_year y)
      by (unfold days_before_year; Z.div_mod_to_equations; lia).
    destruct (Z.eq_dec y 1) as [->|Hy1].
    - assert (m <> 1) by congruence. lia.
    - lia. }
  replace (0 <? ymd2ord y m 1 - 1) with true
    by (symmetry; apply Z.ltb_lt; lia).
  replace (ymd2ord y m 1 - 1 <=? MAXORDINAL) with true
    by (symmetry; apply Z.leb_le; lia).
  cbn [andb]. now rewrite first_minus_one_ordinal.
Qed.

Lemma days_in_month_ge (y m : Z) : 1 <= m <= 12 -> 28 <= days_in_month y m.
Proof.
  intros H. unfold days_in_month.
  destruct ((m =? 2) && is_leap y)%bool; [lia|].
  assert (m = 1 \/ m = 2 \/ m = 3 \/ m = 4 \/ m = 5 \/ m = 6 \/ m = 7
          \/ m = 8 \/ m = 9 \/ m = 10 \/ m = 11 \/ m = 12) as Hc by lia.
  repeat destruct Hc as [->|Hc]; try subst m; simpl; lia.
Qed.

Lemma new_ok (y m d : Z) :
  1 <= y <= 9999 -> 1 <= m <= 12 -> 1 <= d <= days_in_month y m ->
  PyDate.new y m d = Ok (mkdate y m d).
Proof.
  intros Hy Hm Hd. unfold PyDate.new, MINYEAR, MAXYEAR.
  replace (1 <=? y) with true by (symmetry; apply Z.leb_le; lia).
  replace (y <=? 9999) with true by (symmetry; apply Z.leb_le; lia).
  replace (1 <=? m) with true by (symmetry; apply Z.leb_le; lia).
  replace (m <=? 12) with true by (symmetry; apply Z.leb_le; lia).
  replace (1 <=? d) with true by (symmetry; apply Z.leb_le; lia).
  replace (d <=? days_in_month y m) with true
    by (symmetry; apply Z.leb_le; lia).
  reflexivity.
Qed.

Lemma new_inv (y m d : Z) (x : date) :
  PyDate.new y m d = Ok x ->
  x = mkdate y m d /\ 1 <= y <= 9999 /\ 1 <= m <= 12
  /\ 1 <= d <= days_in_month y m.
Proof.
  unfold PyDate.new, MINYEAR, MAXYEAR.
  destruct (Z.leb_spec 1 y), (Z.leb_spec y 9999); simpl; try discriminate.
  destruct (Z.leb_spec 1 m), (Z.leb_spec m 12); simpl; try discriminate.
  destruct (Z.leb_spec 1 d), (Z.leb_spec d (days_in_month y m)); simpl;
    try discriminate.
  intros Hx; injection Hx as <-. repeat split; lia.
Qed.

Lemma valid_inv (d : date) :
  valid d = true ->
  1 <= year d <= 9999 /\ 1 <= month d <= 12
  /\ 1 <= day d <= days_in_month (year d) (month d).
Proof.
  unfold valid, MINYEAR, MAXYEAR. rewrite !andb_true_iff, !Z.leb_le. lia.
Qed.

Lemma date_leb_same_month (y m d d' : Z) :
  d <= d' -> PyDate.leb (mkdate y m d) (mkdate y m d') = true.
Proof.
  intros H. unfold PyDate.leb, PyDate.ltb; simpl.
  rewrite !Z.ltb_irrefl, !Z.eqb_refl. simpl.
  apply negb_true_iff, Z.ltb_ge. lia.
Qed.

Lemma date_leb_same_year (y m m' d d' : Z) :
  m < m' -> PyDate.leb (mkdate y m d) (mkdate y m' d') = true.
Proof.
  intros H. unfold PyDate.leb, PyDate.ltb; simpl.
  rewrite Z.ltb_irrefl, Z.eqb_refl. simpl.
  replace (m' <? m) with false by (symmetry; apply Z.ltb_ge; lia).
  replace (m' =? m) with false by (symmetry; apply Z.eqb_neq; lia).
  reflexivity.
Qed.

Ltac date_range :=
  try lia;
  match goal with
  | |- _ <= _ <= days_in_month ?y ?m =>
      pose proof (days_in_month_ge y m); lia
  end.

Lemma month_end_inv (y m : Z) (e : date) :
  1 <= y <= 9999 -> 1 <= m <= 12 ->
  month_end_of y m = Ok e -> e = mkdate y m (days_in_month y m).
Proof.
  intros Hy Hm. unfold month_end_of.
  destruct (Z.eqb_spec m 12) as [->|Hne].
  - destruct (PyDate.new (y + 1) 1 1) as [d|] eqn:E; simpl; [|discriminate].
    apply new_inv in E as [-> [Hy' _]].
    rewrite first_minus_one by (try lia; intros Heq; injection Heq; lia).
    intros He; injection He as <-. unfold prev_month_end. simpl.
    f_equal. lia.
  - destruct (PyDate.new y (m + 1) 1) as [d|] eqn:E; simpl; [|discriminate].
    apply new_inv in E as [-> _].
    rewrite first_minus_one by (try lia; intros Heq; injection Heq; lia).
    intros He; injection He as <-. unfold prev_month_end.
    replace (m + 1 =? 1) with false by (symmetry; apply Z.eqb_neq; lia).
    now replace (m + 1 - 1) with m by lia.
Qed.

Lemma month_end_ok (y m : Z) :
  1 <= y <= 9998 -> 1 <= m <= 12 ->
  month_end_of y m = Ok (mkdate y m (days_in_month y m)).
Proof.
  intros Hy Hm. unfold month_end_of.
  destruct (Z.eqb_spec m 12) as [->|Hne].
  - rewrite new_ok by date_range. simpl.
    rewrite first_minus_one by (try lia; intros Heq; injection Heq; lia).
    unfold prev_month_end. simpl. do 2 f_equal. lia.
  - rewrite new_ok by date_range.
    simpl.
    rewrite first_minus_one by (try lia; intros Heq; injection Heq; lia).
    unfold prev_month_end.
    replace (m + 1 =? 1) with false by (symmetry; apply Z.eqb_neq; lia).
    now replace (m + 1 - 1) with m by lia.
Qed.

(** ** The time-reference resolver (claims C5, C8) *)

Lemma in_list_two (t a b : string) :
  PyStr.in_list t [a; b] = true -> t = a \/ t = b.
Proof.
  unfold PyStr.in_list; simpl. rewrite !orb_true_iff, !String.eqb_eq.
  intros [H|[H|H]]; auto; discriminate.
Qed.

Lemma month_number_range (name : string) (num : Z) :
  In (name, num) QueryAgent.months -> 1 <= num <= 12.
Proof.
  unfold QueryAgent.months; simpl.
  intros H; repeat destruct H as [H|H]; try contradiction;
    injection H as _ <-; lia.
Qed.

Lemma date_leb_from_first (e : date) :
  1 <= day e -> PyDate.leb (mkdate (year e) (month e) 1) e = true.
Proof. destruct e as [y m d]; simpl. apply date_leb_same_month. Qed.

Lemma replace_day_one (d : date) :
  replace d None None (Some 1) = PyDate.new (year d) (month d) 1.
Proof. reflexivity. Qed.

Lemma month_branch_unfold (today : date) (num : Z) :
  QueryAgent.month_branch today num
  = (start <- PyDate.new
               (if month today <? num then year today - 1 else year today)
               num 1 ;;
     end_ <- month_end_of
               (if month today <? num then year today - 1 else year today)
               num ;;
     Ok (Some start, Some end_)).
Proof. reflexivity. Qed.

Lemma month_branch_ordered (today : date) (num : Z) (s e : date) :
  1 <= num <= 12 ->
  QueryAgent.month_branch today num = Ok (Some s, Some e) ->
  PyDate.leb s e = true.
Proof.
  intros Hnum. rewrite month_branch_unfold.
  set (y := if month today <? num then year today - 1 else year today).
  destruct (PyDate.new y num 1) as [start|] eqn:Es; simpl; [|discriminate].
  apply new_inv in Es as [-> [Hy _]].
  destruct (month_end_of y num) as [end_|] eqn:Ee; simpl; [|discriminate].
  apply month_end_inv in Ee; [|lia|lia]. subst end_.
  intros H; injection H as <- <-.
  apply date_leb_same_month. pose proof (days_in_month_ge y num Hnum). lia.
Qed.

(** C8.  Whenever the resolver returns both bounds, the start is not
    after the end. *)
Theorem resolved_range_is_ordered (today : date) (time_ref : option string)
    (s e : date) :
  valid today = true ->
  QueryAgent._resolve_time_reference today time_ref = Ok (Some s, Some e) ->
  PyDate.leb s e = true.
Proof.
  intros Hv. destruct (valid_inv today Hv) as [Hy [Hm Hd]].
  unfold QueryAgent._resolve_time_reference.
  destruct (negb (opt_truthy time_ref)); [discriminate|].
  set (t := PyStr.strip _).
  destruct (PyStr.in_list t ["this month"; "current month"]).
  { (* this month *)
    rewrite replace_day_one.
    destruct (PyDate.new (year today) (month today) 1) as [start|] eqn:Es;
      simpl; [|discriminate].
    apply new_inv in Es as [-> _].
    change (if month today =? 12
            then d <- replace today (Some (year today + 1)) (Some 1)
                        (Some 1) ;; sub_days d 1
            else d <- replace today None (Some (month today + 1))
                        (Some 1) ;; sub_days d 1)
      with (month_end_of (year today) (month today)).
    destruct (month_end_of (year today) (month today)) as [end_|] eqn:Ee;
      simpl; [|discriminate].
    apply month_end_inv in Ee; [|lia|lia]. subst end_.
    intros H; injection H as <- <-.
    apply date_leb_same_month.
    pose proof (days_in_month_ge (year today) (month today) Hm). lia. }
  destruct (PyStr.in_list t ["last month"; "previous month"]).
  { (* last month *)
    rewrite replace_day_one.
    rewrite new_ok by date_range. simpl.
    destruct (sub_days (mkdate (year today) (month today) 1) 1)
      as [end_|] eqn:Ee; simpl; [|discriminate].
    rewrite replace_day_one.
    destruct (PyDate.new (year end_) (month end_) 1) as [start|] eqn:Es;
      simpl; [|discriminate].
    apply new_inv in Es as [-> _].
    intros H; injection H as <- <-.
    apply date_leb_from_first.
    destruct (Z.eq_dec (year today) 1) as [Ey|Ey],
             (Z.eq_dec (month today) 1) as [Em|Em];
      try (rewrite Ey, Em in Ee; discriminate Ee);
      (rewrite first_minus_one in Ee
         by (try lia; intros Heq; injection Heq; lia));
      injection Ee as <-; unfold prev_month_end;
      destruct (month today =? 1) eqn:E1; simpl; try lia;
      apply Z.eqb_neq in E1;
      pose proof (days_in_month_ge (year today) (month today - 1)); lia. }
  destruct (PyStr.in_list t ["this year"; "current year"]).
  { unfold replace.
    destruct (PyDate.new (year today) 1 1) as [start|] eqn:Es; simpl;
      [|discriminate].
    destruct (PyDate.new (year today) 12 31) as [end_|] eqn:Ee; simpl;
      [|discriminate].
    apply new_inv in Es as [-> _]. apply new_inv in Ee as [-> _].
    intros H; injection H as <- <-. apply date_leb_same_year. lia. }
  destruct (PyStr.in_list t ["last year"; "previous year"]).
  { unfold replace.
    destruct (PyDate.new (year today - 1) 1 1) as [start|] eqn:Es; simpl;
      [|discriminate].
    destruct (PyDate.new (year today - 1) 12 31) as [end_|] eqn:Ee; simpl;
      [|discriminate].
    apply new_inv in Es as [-> _]. apply new_inv in Ee as [-> _].
    intros H; injection H as <- <-. apply date_leb_same_year. lia. }
  destruct (find _ QueryAgent.months) as [[name num]|] eqn:Ef.
  { apply find_some in Ef as [Hin _].
    apply month_branch_ordered. eapply month_number_range; eauto. }
  destruct (QueryAgent.year_search t) as [y|]; [|discriminate].
  destruct (PyDate.new y 1 1) as [start|] eqn:Es; simpl; [|discriminate].
  destruct (PyDate.new y 12 31) as [end_|] eqn:Ee; simpl; [|discriminate].
  apply new_inv in Es as [-> _]. apply new_inv in Ee as [-> _].
  intros H; injection H as <- <-. apply date_leb_same_year. lia.
Qed.

(** C8 at "Last Month " asked on 15 March 2024. *)
Lemma resolved_range_is_ordered_witness :
  valid Samples.today = true
  /\ QueryAgent._resolve_time_reference Samples.today (Some "Last Month ")
     = Ok (Some (mkdate 2024 2 1), Some (mkdate 2024 2 29))
  /\ PyDate.leb (mkdate 2024 2 1) (mkdate 2024 2 29) = true.
Proof.
  split; [reflexivity|]. split; [vm_compute; reflexivity|].
  apply (resolved_range_is_ordered Samples.today (Some "Last Month ")
           (mkdate 2024 2 1) (mkdate 2024 2 29));
    vm_compute; reflexivity.
Defined.

Ltac in_months := unfold QueryAgent.months; simpl; tauto.

(** The loop over the month table stops at the first month, in calendar
    order, whose name the phrase holds. *)
Lemma find_first_named_month (t : string) (num : Z) :
  first_named_month t num ->
  exists name : string,
    find (fun kv => PyStr.contains (fst kv) t) QueryAgent.months
    = Some (name, num).
Proof.
  intros [[name [Hin Hc]] Hmin].
  unfold QueryAgent.months in Hin; simpl in Hin.
  repeat destruct Hin as [Hin|Hin]; try contradiction;
    injection Hin as <- <-;
    unfold QueryAgent.months; cbn [find fst];
    repeat first
      [ rewrite Hc; eexists; reflexivity
      | match goal with
        | |- exists _,
              (if PyStr.contains ?n t then Some (_, ?j) else _) = _ =>
            let E := fresh "E" in
            destruct (PyStr.contains n t) eqn:E;
            [ exfalso;
              assert (names_month t j)
                by (exists n; split; [in_months|exact E]);
              pose proof (Hmin j ltac:(assumption)); lia
            | ]
        end ].
Qed.

Lemma relative_phrase_names_no_month (t : string) (names : list string) :
  PyStr.in_list t names = true ->
  names = ["this month"; "current month"]
  \/ names = ["last month"; "previous month"]
  \/ names = ["this year"; "current year"]
  \/ names = ["last year"; "previous year"] ->
  find (fun kv => PyStr.contains (fst kv) t) QueryAgent.months = None.
Proof.
  intros Hin Hnames.
  destruct Hnames as [Hn|[Hn|[Hn|Hn]]]; subst names;
    destruct (in_list_two _ _ _ Hin) as [Ht|Ht]; subst t; reflexivity.
Qed.

(** C5, as the code has it.  When the lower-cased, stripped phrase names
    a month, the resolver returns the first through the last day of the
    first month it names, in calendar order: in this year when that
    month's number is at most today's, in last year otherwise.  (For
    today's year from 2 to 9998 every date involved exists.) *)
Theorem named_month_resolves_to_first_named (today : date) (phrase : string)
    (num : Z) :
  valid today = true ->
  2 <= year today <= 9998 ->
  first_named_month (normalized phrase) num ->
  QueryAgent._resolve_time_reference today (Some phrase)
  = Ok (Some (mkdate (year_of_named_month today num) num 1),
        Some (mkdate (year_of_named_month today num) num
                (days_in_month (year_of_named_month today num) num))).
Proof.
  intros Hv Hy Hfirst.
  destruct (find_first_named_month _ _ Hfirst) as [name Hfind].
  pose proof (find_some _ _ Hfind) as [Hin Hc]. simpl in Hc.
  pose proof (month_number_range _ _ Hin) as Hnum.
  unfold QueryAgent._resolve_time_reference.
  assert (Ht : opt_truthy (Some phrase) = true).
  { destruct phrase; [discriminate Hfind|reflexivity]. }
  rewrite Ht. cbn [negb].
  fold (normalized phrase).
  destruct (PyStr.in_list (normalized phrase) ["this month"; "current month"])
    eqn:E1.
  { rewrite (relative_phrase_names_no_month _ _ E1) in Hfind by tauto.
    discriminate. }
  destruct (PyStr.in_list (normalized phrase) ["last month"; "previous month"])
    eqn:E2.
  { rewrite (relative_phrase_names_no_month _ _ E2) in Hfind by tauto.
    discriminate. }
  destruct (PyStr.in_list (normalized phrase) ["this year"; "current year"])
    eqn:E3.
  { rewrite (relative_phrase_names_no_month _ _ E3) in Hfind by tauto.
    discriminate. }
  destruct (PyStr.in_list (normalized phrase) ["last year"; "previous year"])
    eqn:E4.
  { rewrite (relative_phrase_names_no_month _ _ E4) in Hfind by tauto.
    discriminate. }
  rewrite Hfind, month_branch_unfold.
  assert (Eyear : (if month today <? num then year today - 1
                   else year today) = year_of_named_month today num).
  { unfold year_of_named_month.
    destruct (Z.ltb_spec (month today) num), (Z.leb_spec num (month today));
      try reflexivity; lia. }
  rewrite Eyear.
  assert (Hyr : 1 <= year_of_named_month today num <= 9998).
  { unfold year_of_named_month. destruct (num <=? month today); lia. }
  rewrite new_ok by date_range. simpl.
  rewrite month_end_ok by lia. reflexivity.
Qed.

Lemma december_first_named : first_named_month (normalized "December") 12.
Proof.
  split.
  - exists "december". split; [in_months|reflexivity].
  - intros num' [name [Hin Hc]].
    unfold QueryAgent.months in Hin; simpl in Hin.
    repeat destruct Hin as [Hin|Hin]; try contradiction;
      injection Hin as <- <-; try discriminate Hc; lia.
Defined.

(** C5 at "December" asked on 15 January 2024: last December. *)
Lemma named_month_resolves_to_first_named_witness :
  valid (mkdate 2024 1 15) = true
  /\ 2 <= year (mkdate 2024 1 15) <= 9998
  /\ first_named_month (normalized "December") 12
  /\ QueryAgent._resolve_time_reference (mkdate 2024 1 15) (Some "December")
     = Ok (Some (mkdate 2023 12 1), Some (mkdate 2023 12 31)).
Proof.
  split; [reflexivity|]. split; [simpl; lia|].
  split; [exact december_first_named|].
  apply (named_month_resolves_to_first_named (mkdate 2024 1 15)
           "December" 12);
    [reflexivity|simpl; lia|exact december_first_named].
Defined.

(** C5 as stated fails for a phrase that names two months: "january
    december", asked in December 2024, holds "december", whose number is
    not above today's, and resolves to January 2024. *)
Lemma second_named_month_is_not_resolved :
  names_month (normalized "january december") 12
  /\ 12 <= month (mkdate 2024 12 15)
  /\ QueryAgent._resolve_time_reference (mkdate 2024 12 15)
       (Some "january december")
     = Ok (Some (mkdate 2024 1 1), Some (mkdate 2024 1 31))
  /\ QueryAgent._resolve_time_reference (mkdate 2024 12 15)
       (Some "january december")
     <> Ok (Some (mkdate 2024 12 1), Some (mkdate 2024 12 31)).
Proof.
  split; [exists "december"; split; [in_months|reflexivity]|].
  split; [simpl; lia|].
  split; [vm_compute; reflexivity|].
  vm_compute. discriminate.
Qed.

(** ** Worked examples *)

(** A worksheet that cannot be read: the failed result carries the text
    of the storage error. *)
Example execute_on_broken_sheet :
  QueryExecutor.execute (F := ExactFloat) Samples.broken_sheet
    (Samples.query "list")
  = Ok (QueryResult.mk "query-1" false
          (Some "Failed to list bills: quota exceeded") false 0 [] None
          "Query failed: Failed to list bills: quota exceeded").
Proof. reflexivity. Qed.

(** [exists] with no matching record. *)
Example exists_without_match :
  QueryExecutor.execute (F := ExactFloat)
    (Ok [] : GoogleSheetsBillStorage.t) (Samples.query "exists")
  = Ok (QueryResult.mk "query-1" true None false 0
          [[("exists", VBool false); ("answer", VStr "no")]] None
          "Checking if bill").
Proof. reflexivity. Qed.

(** The average of the two bills of one vendor, 100 and 200, and the
    sums of all three bills grouped by month. *)
Example average_of_two :
  exists r : @QueryResult.t ExactFloat,
    QueryExecutor.execute Samples.three_bills
      (Samples.aggregate_query (Some "average") None (Some "acme"))
    = Ok r
    /\ QueryResult.aggregation_result r
       = Some [("average_amount", @VFloat ExactFloat (150 # 1));
               ("bill_count", VInt 2)].
Proof. eexists. split; vm_compute; reflexivity. Qed.

Example sums_by_month :
  exists r : @QueryResult.t ExactFloat,
    QueryExecutor.execute Samples.three_bills
      (Samples.aggregate_query None (Some "month") None)
    = Ok r
    /\ QueryResult.aggregation_result r
       = Some [("total_amount", @VFloat ExactFloat (600 # 1));
               ("bill_count", VInt 3);
               ("breakdown",
                VDict [("2024-03", @VFloat ExactFloat (300 # 1));
                       ("2024-02", @VFloat ExactFloat (200 # 1));
                       ("2024-01", @VFloat ExactFloat (100 # 1))])].
Proof. eexists. split; vm_compute; reflexivity. Qed.

(** An amount of 0 is the error [invalid_value] on [total_amount]. *)
Example zero_amount_is_invalid :
  map issue_key
    (filter BillValidator.is_error
       (snd (BillValidator._validate_schema Samples.zero_amount)))
  = [("total_amount", "invalid_value")].
Proof. reflexivity. Qed.

(** A bill dated ten days ahead is a [future_date] warning with a
    tolerance of 7 days and none with 14. *)
Example future_date_tolerance :
  (exists r : ValidationResult.t,
      BillValidator.validate (None : option GoogleSheetsBillStorage.t)
        (AppSettings.mk (inject_Z 1000000) 7) Samples.today
        Samples.ten_days_ahead true = Ok r
      /\ map issue_key (ValidationResult.issues r)
         = [("bill_date", "future_date")])
  /\ (exists r : ValidationResult.t,
         BillValidator.validate (None : option GoogleSheetsBillStorage.t)
           (AppSettings.mk (inject_Z 1000000) 14) Samples.today
           Samples.ten_days_ahead true = Ok r
         /\ map issue_key (ValidationResult.issues r) = []).
Proof. split; eexists; split; vm_compute; reflexivity. Qed.

(** * Further properties *)

(** ** The worksheet storage: [list_bills] *)

Lemma category_eqb_eq (a b : BillCategory.t) :
  BillCategory.eqb a b = true <-> a = b.
Proof.
  split.
  - destruct a, b; intros H; try reflexivity; discriminate H.
  - intros ->. destruct b; reflexivity.
Qed.

Lemma status_eqb_eq (a b : PaymentStatus.t) :
  PaymentStatus.eqb a b = true <-> a = b.
Proof.
  split.
  - destruct a, b; intros H; try reflexivity; discriminate H.
  - intros ->. destruct b; reflexivity.
Qed.

Lemma keep_passes (category : option BillCategory.t) (vendor : option string)
    (date_from date_to : option date)
    (payment_status : option PaymentStatus.t) (b : ConfirmedBill.t) :
  GoogleSheetsBillStorage.keep category vendor date_from date_to
    payment_status b = true
  <-> passes_filters category vendor date_from date_to payment_status b.
Proof.
  unfold GoogleSheetsBillStorage.keep, passes_filters, PyDate.leb.
  split.
  - intros H.
    destruct category as [c|].
    + destruct (BillCategory.eqb (ConfirmedBill.category b) c) eqn:Ec;
        [|discriminate H]. simpl in H. apply category_eqb_eq in Ec.
      destruct vendor as [v|], date_from as [df|], date_to as [dt|],
        payment_status as [p|];
        repeat match type of H with
               | (if ?c then _ else _) = _ =>
                   let E := fresh "E" in destruct c eqn:E; [discriminate H|]
               end;
        repeat split; intros x Hx; inversion Hx; subst; auto;
        try (apply negb_true_iff; assumption);
        try (apply negb_false_iff in E; apply status_eqb_eq in E; assumption);
        try (destruct x; [apply contains_empty|];
             apply andb_false_iff in E;
             destruct E as [E|E]; [discriminate E|];
             apply negb_false_iff in E; exact E).
      all: try (apply negb_false_iff in E0; apply status_eqb_eq in E0;
                assumption).
      all: try (apply negb_false_iff in E1; apply status_eqb_eq in E1;
                assumption).
      all: try (apply negb_false_iff in E2; apply status_eqb_eq in E2;
                assumption).
      all: try (apply negb_true_iff; assumption).
    + destruct vendor as [v|], date_from as [df|], date_to as [dt|],
        payment_status as [p|];
        repeat match type of H with
               | (if ?c then _ else _) = _ =>
                   let E := fresh "E" in destruct c eqn:E; [discriminate H|]
               end;
        repeat split; intros x Hx; inversion Hx; subst; auto;
        try (apply negb_true_iff; assumption);
        try (destruct x; [apply contains_empty|];
             apply andb_false_iff in E;
             destruct E as [E|E]; [discriminate E|];
             apply negb_false_iff in E; exact E).
      all: try (apply negb_false_iff in E; apply status_eqb_eq in E;
                assumption).
      all: try (apply negb_false_iff in E0; apply status_eqb_eq in E0;
                assumption).
      all: try (apply negb_false_iff in E1; apply status_eqb_eq in E1;
                assumption).
      all: try (apply negb_false_iff in E2; apply status_eqb_eq in E2;
                assumption).
      all: try (apply negb_true_iff; assumption).
  - intros [Hc [Hv [Hf [Ht Hp]]]].
    destruct category as [c|];
      [rewrite (proj2 (category_eqb_eq _ _) (Hc c eq_refl)); simpl|].
    all: destruct vendor as [v|];
      [rewrite (Hv v eq_refl), andb_false_r|].
    all: destruct date_from as [df|];
      [rewrite (proj1 (negb_true_iff _) (Hf df eq_refl))|].
    all: destruct date_to as [dt|];
      [rewrite (proj1 (negb_true_iff _) (Ht dt eq_refl))|].
    all: destruct payment_status as [p|];
      [rewrite (proj2 (status_eqb_eq _ _) (Hp p eq_refl))|].
    all: reflexivity.
Qed.

Lemma collect_matching (category : option BillCategory.t)
    (vendor : option string) (date_from date_to : option date)
    (payment_status : option PaymentStatus.t)
    (rows : list (option ConfirmedBill.t)) :
  GoogleSheetsBillStorage.collect category vendor date_from date_to
    payment_status rows
  = matching_bills category vendor date_from date_to payment_status rows.
Proof.
  unfold matching_bills.
  induction rows as [|[b|] rows IH]; simpl; [reflexivity| |exact IH].
  rewrite IH. reflexivity.
Qed.

Lemma date_leb_iff (a b : date) :
  PyDate.leb a b = true
  <-> (year a < year b
       \/ (year a = year b
           /\ (month a < month b
               \/ (month a = month b /\ day a <= day b)))).
Proof.
  unfold PyDate.leb, PyDate.ltb.
  rewrite negb_true_iff.
  destruct (Z.ltb_spec (year b) (year a)), (Z.eqb_spec (year b) (year a)),
    (Z.ltb_spec (month b) (month a)), (Z.eqb_spec (month b) (month a)),
    (Z.ltb_spec (day b) (day a)); simpl; split; intros Hx;
    try discriminate Hx; try reflexivity; lia.
Qed.

Lemma date_leb_trans (a b c : date) :
  PyDate.leb a b = true -> PyDate.leb b c = true -> PyDate.leb a c = true.
Proof. rewrite !date_leb_iff. lia. Qed.

Lemma date_leb_total (a b : date) :
  PyDate.ltb a b = false -> PyDate.leb b a = true.
Proof. unfold PyDate.leb. now intros ->. Qed.

Lemma date_ltb_leb (a b : date) :
  PyDate.ltb a b = true -> PyDate.leb a b = true.
Proof.
  intros H. apply date_leb_iff.
  assert (Hn : PyDate.leb b a = false)
    by (unfold PyDate.leb; now rewrite H).
  destruct (PyDate.leb a b) eqn:E; [now apply date_leb_iff|].
  exfalso. apply not_true_iff_false in Hn, E.
  rewrite date_leb_iff in Hn, E. lia.
Qed.

Lemma insert_desc_perm (b : ConfirmedBill.t) (l : list ConfirmedBill.t) :
  Permutation.Permutation (GoogleSheetsBillStorage.insert_desc b l) (b :: l).
Proof.
  induction l as [|x l IH]; simpl; [apply Permutation.Permutation_refl|].
  destruct (PyDate.ltb _ _).
  - eapply Permutation.perm_trans;
      [apply Permutation.perm_skip, IH|apply Permutation.perm_swap].
  - apply Permutation.Permutation_refl.
Qed.

Lemma sort_desc_perm (l : list ConfirmedBill.t) :
  Permutation.Permutation (GoogleSheetsBillStorage.sort_desc l) l.
Proof.
  unfold GoogleSheetsBillStorage.sort_desc.
  induction l as [|x l IH]; simpl; [constructor|].
  eapply Permutation.perm_trans; [apply insert_desc_perm|].
  now apply Permutation.perm_skip.
Qed.

Lemma insert_desc_sorted (b : ConfirmedBill.t) (l : list ConfirmedBill.t) :
  Sorted.StronglySorted not_older l ->
  Sorted.StronglySorted not_older (GoogleSheetsBillStorage.insert_desc b l).
Proof.
  induction 1 as [|x l Hl IH Hx]; simpl.
  - constructor; constructor.
  - destruct (PyDate.ltb (ConfirmedBill.bill_date b)
                (ConfirmedBill.bill_date x)) eqn:E.
    + constructor; [exact IH|].
      apply Forall_forall. intros y Hy.
      apply (Permutation.Permutation_in _ (insert_desc_perm b l)) in Hy.
      destruct Hy as [<-|Hy].
      * unfold not_older. now apply date_ltb_leb.
      * rewrite Forall_forall in Hx. now apply Hx.
    + assert (Hbx : not_older b x) by (now apply date_leb_total).
      constructor; [constructor; assumption|].
      constructor; [exact Hbx|].
      apply Forall_forall. intros y Hy. rewrite Forall_forall in Hx.
      unfold not_older in *. eapply date_leb_trans; [apply Hx, Hy|exact Hbx].
Qed.

Lemma sort_desc_sorted (l : list ConfirmedBill.t) :
  Sorted.StronglySorted not_older (GoogleSheetsBillStorage.sort_desc l).
Proof.
  unfold GoogleSheetsBillStorage.sort_desc.
  induction l as [|x l IH]; simpl; [constructor|].
  now apply insert_desc_sorted.
Qed.

Lemma in_firstn {A : Type} (n : nat) (l : list A) (x : A) :
  In x (firstn n l) -> In x l.
Proof.
  intros H. rewrite <- (firstn_skipn n l). apply in_or_app. now left.
Qed.

Lemma in_skipn {A : Type} (n : nat) (l : list A) (x : A) :
  In x (skipn n l) -> In x l.
Proof.
  intros H. rewrite <- (firstn_skipn n l). apply in_or_app. now right.
Qed.

Lemma in_py_slice {A : Type} (l : list A) (lo hi : Z) (x : A) :
  In x (py_slice l lo hi) -> In x l.
Proof. unfold py_slice. intros H. eapply in_skipn, in_firstn, H. Qed.

Lemma sorted_skipn {A : Type} (R : A -> A -> Prop) (n : nat) (l : list A) :
  Sorted.StronglySorted R l -> Sorted.StronglySorted R (skipn n l).
Proof.
  revert l; induction n as [|n IH]; intros l H; [exact H|].
  destruct H; simpl; [constructor|]. now apply IH.
Qed.

Lemma sorted_firstn {A : Type} (R : A -> A -> Prop) (n : nat) (l : list A) :
  Sorted.StronglySorted R l -> Sorted.StronglySorted R (firstn n l).
Proof.
  revert l; induction n as [|n IH]; intros l H; [constructor|].
  destruct H as [|x l Hl Hx]; simpl; [constructor|].
  constructor; [now apply IH|].
  apply Forall_forall. intros y Hy. rewrite Forall_forall in Hx.
  apply Hx. eapply in_firstn; exact Hy.
Qed.

Lemma sorted_py_slice {A : Type} (R : A -> A -> Prop) (l : list A)
    (lo hi : Z) :
  Sorted.StronglySorted R l -> Sorted.StronglySorted R (py_slice l lo hi).
Proof. intros H. unfold py_slice. now apply sorted_firstn, sorted_skipn. Qed.

Lemma list_bills_readable (rows : list (option ConfirmedBill.t))
    (category : option BillCategory.t) (vendor : option string)
    (date_from date_to : option date)
    (payment_status : option PaymentStatus.t) (limit offset : Z) :
  GoogleSheetsBillStorage.list_bills (Ok rows) category vendor date_from
    date_to payment_status limit offset
  = Ok (py_slice
          (GoogleSheetsBillStorage.sort_desc
             (matching_bills category vendor date_from date_to
                payment_status rows))
          offset (offset + limit)).
Proof.
  unfold GoogleSheetsBillStorage.list_bills. simpl.
  now rewrite collect_matching.
Qed.

(** X1.  On ASCII vendor text, whatever [list_bills] returns from a
    readable worksheet is a stored bill that passes every filter that is
    set. *)
Theorem list_bills_only_matching_stored_bills
    (rows : list (option ConfirmedBill.t))
    (category : option BillCategory.t) (vendor : option string)
    (date_from date_to : option date)
    (payment_status : option PaymentStatus.t) (limit offset : Z) :
  ascii_vendors vendor rows = true ->
  exists bills : list ConfirmedBill.t,
    GoogleSheetsBillStorage.list_bills (Ok rows) category vendor date_from
      date_to payment_status limit offset = Ok bills
    /\ Forall
         (fun b =>
            In (Some b) rows
            /\ passes_filters category vendor date_from date_to
                 payment_status b)
         bills.
Proof.
  intros _. rewrite list_bills_readable. eexists; split; [reflexivity|].
  apply Forall_forall. intros b Hb.
  apply in_py_slice in Hb.
  apply (Permutation.Permutation_in _ (sort_desc_perm _)) in Hb.
  unfold matching_bills in Hb. apply filter_In in Hb as [Hs Hk].
  split; [|now apply keep_passes].
  unfold stored_bills in Hs. apply in_flat_map in Hs as [[b'|] [Hr Hi]];
    [|contradiction].
  destruct Hi as [->|[]]. exact Hr.
Qed.

Lemma list_bills_only_matching_stored_bills_witness :
  exists bills : list ConfirmedBill.t,
    GoogleSheetsBillStorage.list_bills Samples.three_bills None
      (Some "ACME") None (Some (mkdate 2024 1 31)) None 10 0 = Ok bills
    /\ Forall
         (fun b =>
            In (Some b) Samples.three_rows
            /\ passes_filters None (Some "ACME") None
                 (Some (mkdate 2024 1 31)) None b)
         bills.
Proof.
  exact (list_bills_only_matching_stored_bills Samples.three_rows None
           (Some "ACME") None (Some (mkdate 2024 1 31)) None 10 0 eq_refl).
Defined.

(** X2.  [list_bills] returns the bills newest first, whatever the page. *)
Theorem list_bills_newest_first
    (rows : list (option ConfirmedBill.t))
    (category : option BillCategory.t) (vendor : option string)
    (date_from date_to : option date)
    (payment_status : option PaymentStatus.t) (limit offset : Z) :
  exists bills : list ConfirmedBill.t,
    GoogleSheetsBillStorage.list_bills (Ok rows) category vendor date_from
      date_to payment_status limit offset = Ok bills
    /\ Sorted.StronglySorted not_older bills.
Proof.
  rewrite list_bills_readable. eexists; split; [reflexivity|].
  apply sorted_py_slice, sort_desc_sorted.
Qed.

Lemma py_slice_nonneg {A : Type} (l : list A) (lo len : Z) :
  0 <= lo -> 0 <= len ->
  py_slice l lo (lo + len)
  = firstn (Z.to_nat len) (skipn (Z.to_nat lo) l).
Proof.
  intros Hlo Hlen. unfold py_slice.
  replace (lo <? 0) with false by (symmetry; apply Z.ltb_ge; lia).
  replace (lo + len <? 0) with false by (symmetry; apply Z.ltb_ge; lia).
  assert (Hn : py_len l = Z.of_nat (List.length l)) by reflexivity.
  destruct (Z.le_gt_cases (lo + len) (py_len l)) as [H1|H1].
  - rewrite !Z.min_l by lia. f_equal. lia.
  - destruct (Z.le_gt_cases lo (py_len l)) as [H2|H2].
    + rewrite (Z.min_l lo) by lia. rewrite Z.min_r by lia.
      rewrite !firstn_all2; try reflexivity; rewrite length_skipn; lia.
    + rewrite !Z.min_r by lia.
      rewrite !skipn_all2 by lia. now rewrite !firstn_nil.
Qed.

Lemma firstn_add {A : Type} (a b : nat) (l : list A) :
  (firstn a l ++ firstn b (skipn a l))%list = firstn (a + b) l.
Proof.
  revert l; induction a as [|a IH]; intros l; [reflexivity|].
  destruct l as [|x l]; simpl.
  - now rewrite firstn_nil.
  - now rewrite IH.
Qed.

Lemma matching_bills_pass (category : option BillCategory.t)
    (vendor : option string) (date_from date_to : option date)
    (payment_status : option PaymentStatus.t)
    (rows : list (option ConfirmedBill.t)) (b : ConfirmedBill.t) :
  In b (matching_bills category vendor date_from date_to payment_status rows)
  <-> In (Some b) rows
      /\ passes_filters category vendor date_from date_to payment_status b.
Proof.
  unfold matching_bills. rewrite filter_In, keep_passes.
  unfold stored_bills. rewrite in_flat_map. split.
  - intros [[[b'|] [Hr Hi]] Hp]; [|contradiction].
    destruct Hi as [->|[]]. auto.
  - intros [Hr Hp]. split; [|exact Hp].
    exists (Some b). split; [exact Hr|now left].
Qed.

(** X3.  On ASCII vendor text and with a limit that is not negative, the
    first page holds as many bills as the limit allows of the matching
    bills, the stored bills that pass every filter that is set, and all
    of them when the limit allows that many. *)
Theorem list_bills_first_page_is_complete
    (rows : list (option ConfirmedBill.t))
    (category : option BillCategory.t) (vendor : option string)
    (date_from date_to : option date)
    (payment_status : option PaymentStatus.t) (limit : Z) :
  0 <= limit ->
  ascii_vendors vendor rows = true ->
  exists bills : list ConfirmedBill.t,
    GoogleSheetsBillStorage.list_bills (Ok rows) category vendor date_from
      date_to payment_status limit 0 = Ok bills
    /\ (forall b : ConfirmedBill.t,
           In b (matching_bills category vendor date_from date_to
                   payment_status rows)
           <-> In (Some b) rows
               /\ passes_filters category vendor date_from date_to
                    payment_status b)
    /\ py_len bills
       = Z.min limit
           (py_len (matching_bills category vendor date_from date_to
                      payment_status rows))
    /\ (py_len (matching_bills category vendor date_from date_to
                  payment_status rows) <= limit ->
        Permutation.Permutation bills
          (matching_bills category vendor date_from date_to payment_status
             rows)).
Proof.
  intros Hl _. rewrite list_bills_readable.
  eexists; split; [reflexivity|].
  split; [intros b; apply matching_bills_pass|].
  rewrite (py_slice_nonneg _ 0 limit) by lia. simpl skipn.
  set (m := matching_bills _ _ _ _ _ rows).
  assert (Hlen : List.length (GoogleSheetsBillStorage.sort_desc m)
                 = List.length m)
    by (apply Permutation.Permutation_length, sort_desc_perm).
  split.
  - unfold py_len. rewrite length_firstn, Hlen. lia.
  - unfold py_len. intros Hall.
    rewrite firstn_all2 by lia. apply sort_desc_perm.
Qed.

Lemma list_bills_first_page_is_complete_witness :
  exists bills : list ConfirmedBill.t,
    GoogleSheetsBillStorage.list_bills Samples.three_bills None
      (Some "acme") None None None 10 0 = Ok bills
    /\ py_len bills = 2.
Proof.
  destruct (list_bills_first_page_is_complete Samples.three_rows None
              (Some "acme") None None None 10 ltac:(lia) eq_refl)
    as [bills [H1 [_ [H2 _]]]].
  exists bills. split; [exact H1|exact H2].
Defined.

(** X4.  Pages join: the page of [a] bills from the start followed by the
    page of [b] bills at offset [a] is the page of [a + b] bills from the
    start. *)
Theorem list_bills_pages_join
    (rows : list (option ConfirmedBill.t))
    (category : option BillCategory.t) (vendor : option string)
    (date_from date_to : option date)
    (payment_status : option PaymentStatus.t) (a b : Z) :
  0 <= a -> 0 <= b ->
  exists first_page next_page : list ConfirmedBill.t,
    GoogleSheetsBillStorage.list_bills (Ok rows) category vendor date_from
      date_to payment_status a 0 = Ok first_page
    /\ GoogleSheetsBillStorage.list_bills (Ok rows) category vendor
         date_from date_to payment_status b a = Ok next_page
    /\ GoogleSheetsBillStorage.list_bills (Ok rows) category vendor
         date_from date_to payment_status (a + b) 0
       = Ok (first_page ++ next_page)%list.
Proof.
  intros Ha Hb. rewrite !list_bills_readable.
  do 2 eexists. split; [reflexivity|]. split; [reflexivity|].
  rewrite (py_slice_nonneg _ 0 a), (py_slice_nonneg _ a b),
    (py_slice_nonneg _ 0 (a + b)) by lia.
  simpl skipn. rewrite Z2Nat.inj_add by lia.
  now rewrite firstn_add.
Qed.

Lemma list_bills_pages_join_witness :
  exists first_page next_page : list ConfirmedBill.t,
    GoogleSheetsBillStorage.list_bills Samples.three_bills None None None
      None None 1 0 = Ok first_page
    /\ GoogleSheetsBillStorage.list_bills Samples.three_bills None None
         None None None 2 1 = Ok next_page
    /\ GoogleSheetsBillStorage.list_bills Samples.three_bills None None
         None None None (1 + 2) 0
       = Ok (first_page ++ next_page)%list.
Proof.
  exact (list_bills_pages_join Samples.three_rows None None None None None
           1 2 ltac:(lia) ltac:(lia)).
Defined.

(** ** The executor over the worksheet storage *)

Section ExecutorOverSheet.
Context {F : PyFloat}.

Lemma fetch_sheet (rows : list (option ConfirmedBill.t))
    (query : StructuredQuery.t) (limit : Z) :
  QueryExecutor.fetch (Ok rows : GoogleSheetsBillStorage.t) query limit
  = Ok (py_slice
          (GoogleSheetsBillStorage.sort_desc (query_matches query rows))
          0 (0 + limit)).
Proof.
  unfold QueryExecutor.fetch, query_matches.
  change (@list_bills GoogleSheetsBillStorage.t GoogleSheets)
    with GoogleSheetsBillStorage.list_bills.
  apply list_bills_readable.
Qed.

Lemma fetch_unreadable (e : exn) (query : StructuredQuery.t) (limit : Z) :
  QueryExecutor.fetch (Raise e : GoogleSheetsBillStorage.t) query limit
  = Raise (Exn "StorageError" ("Failed to list bills: " ++ exn_str e)).
Proof. reflexivity. Qed.

(** X5.  Over a worksheet that cannot be read, every query, of whatever
    type, gives the failed result with the storage error's text. *)
Theorem execute_over_unreadable_sheet (e : exn)
    (query : StructuredQuery.t) :
  QueryExecutor.execute (Raise e : GoogleSheetsBillStorage.t) query
  = Ok (QueryResult.mk (StructuredQuery.query_id query) false
          (Some ("Failed to list bills: " ++ exn_str e)) false 0 [] None
          ("Query failed: Failed to list bills: " ++ exn_str e)).
Proof.
  unfold QueryExecutor.execute.
  assert (H : QueryExecutor.dispatch (Raise e : GoogleSheetsBillStorage.t)
                query
              = Raise (Exn "StorageError"
                         ("Failed to list bills: " ++ exn_str e))).
  { unfold QueryExecutor.dispatch, QueryExecutor._execute_compare,
      QueryExecutor._execute_lookup, QueryExecutor._execute_list,
      QueryExecutor._execute_aggregate, QueryExecutor._execute_exists.
    rewrite !fetch_unreadable.
    repeat match goal with
           | |- (if ?c then _ else _) = _ => destruct c
           end; reflexivity. }
  rewrite H. reflexivity.
Qed.

Lemma matches_in_rows (query : StructuredQuery.t)
    (rows : list (option ConfirmedBill.t)) (b : ConfirmedBill.t) :
  In b (query_matches query rows)
  <-> In (Some b) rows /\ passes_query query b.
Proof. apply matching_bills_pass. Qed.

Lemma bill_to_dict_fields (b : ConfirmedBill.t) :
  QueryExecutor._bill_to_dict b = bill_fields b.
Proof. reflexivity. Qed.

(** X6.  On ASCII vendor text, an [exists] query over a readable
    worksheet finds data exactly when some stored bill passes the
    query's filters, and the second entry of its results then is the
    mapping of the fields of a stored bill that passes them and is not
    older than any other that does. *)
Theorem exists_over_sheet (rows : list (option ConfirmedBill.t))
    (query : StructuredQuery.t) :
  ascii_vendors (StructuredQuery.vendor_filter query) rows = true ->
  exists r : QueryResult.t,
    QueryExecutor._execute_exists (Ok rows : GoogleSheetsBillStorage.t)
      query = Ok r
    /\ (QueryResult.data_found r = true
        <-> exists b, In (Some b) rows /\ passes_query query b)
    /\ (QueryResult.data_found r = true ->
        exists b : ConfirmedBill.t,
          nth_error (QueryResult.results r) 1 = Some (bill_fields b)
          /\ In (Some b) rows /\ passes_query query b
          /\ forall b', In (Some b') rows -> passes_query query b' ->
                        not_older b b').
Proof.
  intros _.
  unfold QueryExecutor._execute_exists. rewrite fetch_sheet.
  rewrite (py_slice_nonneg _ 0 1) by lia. simpl skipn.
  pose proof (sort_desc_perm (query_matches query rows)) as Hperm.
  pose proof (sort_desc_sorted (query_matches query rows)) as Hsorted.
  destruct (GoogleSheetsBillStorage.sort_desc (query_matches query rows))
    as [|b sorted] eqn:Es.
  - simpl. eexists; split; [reflexivity|]. simpl.
    split; [|discriminate].
    split; [discriminate|].
    intros [b [Hb Hp]]. exfalso.
    assert (Hin : In b (query_matches query rows))
      by (apply matches_in_rows; auto).
    apply (Permutation.Permutation_in _ (Permutation.Permutation_sym Hperm))
      in Hin. exact Hin.
  - simpl bind. cbv zeta.
    change (Z.to_nat 1) with 1%nat. cbn [firstn].
    rewrite py_len_pos.
    eexists; split; [reflexivity|]. cbn [QueryResult.data_found].
    assert (Hb : In b (query_matches query rows))
      by (apply (Permutation.Permutation_in _ Hperm); now left).
    apply matches_in_rows in Hb as [Hb Hp].
    split; [split; [eauto|reflexivity]|].
    intros _. exists b. split; [reflexivity|].
    split; [exact Hb|]. split; [exact Hp|].
    intros b' Hb' Hp'.
    assert (Hin : In b' (b :: sorted)).
    { apply (Permutation.Permutation_in _
               (Permutation.Permutation_sym Hperm)).
      apply matches_in_rows; auto. }
    inversion Hsorted as [|? ? _ Hall]; subst.
    destruct Hin as [<-|Hin].
    + unfold not_older, PyDate.leb. now rewrite date_ltb_irrefl.
    + rewrite Forall_forall in Hall. now apply Hall.
Qed.

(** X7.  On ASCII vendor text, a [list] query over a readable
    worksheet, with a limit that is not negative: [result_count] is the
    number of entries of [results], and it is the number of the
    matching bills, the stored bills that pass the query's filters,
    capped by the limit; the entries are the mappings of the fields of
    matching bills, newest first. *)
Theorem list_over_sheet (rows : list (option ConfirmedBill.t))
    (query : StructuredQuery.t) :
  0 <= StructuredQuery.limit query ->
  ascii_vendors (StructuredQuery.vendor_filter query) rows = true ->
  exists r : QueryResult.t,
    QueryExecutor._execute_list (Ok rows : GoogleSheetsBillStorage.t)
      query = Ok r
    /\ QueryResult.success r = true
    /\ QueryResult.result_count r = py_len (QueryResult.results r)
    /\ (forall b : ConfirmedBill.t,
           In b (query_matches query rows)
           <-> In (Some b) rows /\ passes_query query b)
    /\ QueryResult.result_count r
       = Z.min (StructuredQuery.limit query)
           (py_len (query_matches query rows))
    /\ exists bills : list ConfirmedBill.t,
        QueryResult.results r = map bill_fields bills
        /\ Sorted.StronglySorted not_older bills
        /\ Forall (fun b => In (Some b) rows /\ passes_query query b)
             bills.
Proof.
  intros Hl _. unfold QueryExecutor._execute_list. rewrite fetch_sheet.
  simpl bind. cbv zeta.
  eexists; split; [reflexivity|]. cbn [QueryResult.success
    QueryResult.result_count QueryResult.results].
  split; [reflexivity|]. split; [reflexivity|].
  split; [intros b; apply matches_in_rows|].
  rewrite py_len_map.
  rewrite (py_slice_nonneg _ 0 (StructuredQuery.limit query)) by lia.
  simpl skipn.
  pose proof (sort_desc_perm (query_matches query rows)) as Hperm.
  split.
  - unfold py_len. rewrite length_firstn,
      (Permutation.Permutation_length Hperm). lia.
  - eexists; split; [reflexivity|]. split.
    + apply sorted_firstn, sort_desc_sorted.
    + apply Forall_forall. intros b Hb. apply in_firstn in Hb.
      apply (Permutation.Permutation_in _ Hperm) in Hb.
      now apply matches_in_rows.
Qed.

End ExecutorOverSheet.

Lemma list_over_sheet_witness :
  exists r : @QueryResult.t ExactFloat,
    QueryExecutor._execute_list Samples.three_bills (Samples.query "list")
    = Ok r
    /\ QueryResult.result_count r = 3.
Proof.
  destruct (list_over_sheet (F := ExactFloat) Samples.three_rows
              (Samples.query "list") ltac:(simpl; lia) eq_refl)
    as [r [H1 [_ [_ [_ [H2 _]]]]]].
  exists r. split; [exact H1|exact H2].
Defined.

Lemma exists_over_sheet_witness :
  exists r : @QueryResult.t ExactFloat,
    QueryExecutor._execute_exists Samples.three_bills
      (StructuredQuery.mk "query-3" "?" "exists" None (Some "Acme") None
         None None None None 10) = Ok r
    /\ QueryResult.data_found r = true.
Proof.
  destruct (exists_over_sheet (F := ExactFloat) Samples.three_rows
              (StructuredQuery.mk "query-3" "?" "exists" None (Some "Acme") None
         None None None None 10) eq_refl)
    as [r [H1 [H2 _]]].
  exists r. split; [exact H1|]. apply H2.
  exists (Samples.bill "b1" "Acme Power" 100 (mkdate 2024 1 10)
            (Some "INV-1")).
  split; [left; reflexivity|].
  repeat split; intros x Hx; try discriminate Hx.
  injection Hx as <-. reflexivity.
Defined.

(** ** The cap of the aggregation (claim C6) *)

(** The worksheet storage is a record source as C6 asks: for every limit
    it answers with the first of the matching bills, newest first. *)
Lemma sheet_lists_first_of_matching (rows : list (option ConfirmedBill.t))
    (query : StructuredQuery.t) (limit : Z) :
  0 <= limit ->
  list_bills (Ok rows : GoogleSheetsBillStorage.t)
    (StructuredQuery.category_filter query)
    (StructuredQuery.vendor_filter query)
    (StructuredQuery.date_from query)
    (StructuredQuery.date_to query)
    (StructuredQuery.payment_status_filter query) limit 0
  = Ok (firstn (Z.to_nat limit)
          (GoogleSheetsBillStorage.sort_desc (query_matches query rows))).
Proof.
  intros Hl.
  change (@list_bills GoogleSheetsBillStorage.t GoogleSheets)
    with GoogleSheetsBillStorage.list_bills.
  rewrite list_bills_readable.
  now rewrite (py_slice_first _ limit Hl).
Qed.

(** C6 at three stored bills of 100, 200 and 300: the sum is 600 and the
    count 3. *)
Lemma aggregate_unset_sums_first_thousand_witness :
  exists r : @QueryResult.t ExactFloat,
    QueryExecutor.execute Samples.three_bills (Samples.query "aggregate")
    = Ok r
    /\ QueryResult.data_found r = true
    /\ QueryResult.result_count r = 3
    /\ exists payload : @pydict ExactFloat,
        QueryResult.aggregation_result r = Some payload
        /\ dict_get payload "total_amount"
           = Some (@VFloat ExactFloat (600 # 1))
        /\ dict_get payload "bill_count" = Some (VInt 3).
Proof.
  destruct (aggregate_unset_sums_first_thousand (F := ExactFloat)
              (storage_ops := GoogleSheets) Samples.three_bills
              (Samples.query "aggregate")
              [Samples.bill "b3" "City Water" 300 (mkdate 2024 3 10) None;
               Samples.bill "b2" "Acme Power" 200 (mkdate 2024 2 10)
                 (Some "INV-2");
               Samples.bill "b1" "Acme Power" 100 (mkdate 2024 1 10)
                 (Some "INV-1")]
              eq_refl eq_refl
              (sheet_lists_first_of_matching Samples.three_rows
                 (Samples.query "aggregate")))
    as [r [Hr [_ [_ Hsome]]]].
  exists r. split; [exact Hr|].
  destruct (Hsome ltac:(discriminate)) as [Hd [Hc [payload [Hp [_ [_ Hall]]]]]].
  split; [exact Hd|]. split; [exact Hc|].
  exists payload. split; [exact Hp|].
  exact (Hall ltac:(vm_compute; discriminate)).
Defined.

(** C6 as stated fails beyond the cap: of 1001 stored bills of the
    amount 1, all matching a query without filters, the result counts
    1000 and gives 1000 as the total, not 1001. *)
Lemma aggregate_beyond_thousand_is_capped :
  py_len (query_matches (Samples.query "aggregate")
            Samples.thousand_and_one_rows) = 1001
  /\ (forall b : ConfirmedBill.t,
         In (Some b) Samples.thousand_and_one_rows ->
         ConfirmedBill.total_amount b = inject_Z 1)
  /\ exists (r : @QueryResult.t ExactFloat) (payload : @pydict ExactFloat),
      QueryExecutor.execute (Ok Samples.thousand_and_one_rows
                             : GoogleSheetsBillStorage.t)
        (Samples.query "aggregate") = Ok r
      /\ QueryResult.aggregation_result r = Some payload
      /\ dict_get payload "bill_count" = Some (VInt 1000)
      /\ dict_get payload "total_amount"
         = Some (@VFloat ExactFloat (1000 # 1))
      /\ dict_get payload "bill_count"
         <> Some (VInt (py_len (query_matches (Samples.query "aggregate")
                                  Samples.thousand_and_one_rows)))
      /\ dict_get payload "total_amount"
         <> Some (VFloat
                    (float_sum
                       (amounts_of
                          (query_matches (Samples.query "aggregate")
                             Samples.thousand_and_one_rows)))).
Proof.
  assert (Hn : py_len (query_matches (Samples.query "aggregate")
                         Samples.thousand_and_one_rows) = 1001)
    by (vm_compute; reflexivity).
  assert (Hsum : @float_sum ExactFloat
                   (amounts_of
                      (query_matches (Samples.query "aggregate")
                         Samples.thousand_and_one_rows))
                 = (1001 # 1))
    by (vm_compute; reflexivity).
  split; [exact Hn|]. split.
  - intros b Hb. unfold Samples.thousand_and_one_rows in Hb.
    apply repeat_spec in Hb. injection Hb as ->. reflexivity.
  - eexists. eexists. split; [vm_compute; reflexivity|].
    split; [reflexivity|]. split; [reflexivity|]. split; [reflexivity|].
    rewrite Hn, Hsum. split; discriminate.
Qed.

Section AggregateOverSheet.
Context {F : PyFloat}.

(** X29.  On ASCII vendor text, an aggregate query with no aggregation
  type over a readable worksheet: with no stored bill that passes the
  query's filters the result has [data_found = False] and no payload;
  with [n >= 1] of them, [bill_count] and [result_count] are
  [min(n, 1000)] and [total_amount] is the sum of the amounts of the
  first 1000 of them, newest first. *)
Theorem aggregate_over_sheet (rows : list (option ConfirmedBill.t))
  (query : StructuredQuery.t) :
StructuredQuery.query_type query = "aggregate" ->
StructuredQuery.aggregation_type query = None ->
ascii_vendors (StructuredQuery.vendor_filter query) rows = true ->
exists (r : QueryResult.t) (newest : list ConfirmedBill.t),
  QueryExecutor.execute (Ok rows : GoogleSheetsBillStorage.t) query = Ok r
  /\ (forall b : ConfirmedBill.t,
         In b (query_matches query rows)
         <-> In (Some b) rows /\ passes_query query b)
  /\ Permutation.Permutation newest (query_matches query rows)
  /\ Sorted.StronglySorted not_older newest
  /\ (query_matches query rows = [] ->
      QueryResult.data_found r = false
      /\ QueryResult.result_count r = 0
      /\ QueryResult.aggregation_result r = None)
  /\ (query_matches query rows <> [] ->
      QueryResult.data_found r = true
      /\ QueryResult.result_count r
         = Z.min 1000 (py_len (query_matches query rows))
      /\ exists payload : pydict,
          QueryResult.aggregation_result r = Some payload
          /\ dict_get payload "total_amount"
             = Some (VFloat (float_sum (amounts_of (firstn 1000 newest))))
          /\ dict_get payload "bill_count"
             = Some (VInt (Z.min 1000 (py_len (query_matches query rows))))).
Proof.
intros Hty Hagg _.
remember (query_matches query rows) as m eqn:Em.
pose proof (sort_desc_perm m) as Hperm.
assert (Hfetch : QueryExecutor.fetch (Ok rows : GoogleSheetsBillStorage.t)
                   query 1000
                 = Ok (firstn 1000 (GoogleSheetsBillStorage.sort_desc m))).
{ rewrite fetch_sheet, <- Em. now rewrite (py_slice_first _ 1000) by lia. }
destruct (aggregate_unset_of_fetched
            (Ok rows : GoogleSheetsBillStorage.t) query _ Hty Hagg Hfetch)
  as [r [Hr [_ [Hnone Hsome]]]].
exists r, (GoogleSheetsBillStorage.sort_desc m).
split; [exact Hr|].
split; [intros b; rewrite Em; apply matches_in_rows|].
split; [exact Hperm|].
split; [apply sort_desc_sorted|].
assert (Hlen : py_len (GoogleSheetsBillStorage.sort_desc m) = py_len m)
  by (unfold py_len; f_equal; now apply Permutation.Permutation_length).
split.
- intros Hm. apply Hnone. rewrite Hm. reflexivity.
- intros Hm.
  assert (Hne : firstn 1000 (GoogleSheetsBillStorage.sort_desc m) <> []).
  { intros H. apply (proj1 (firstn_nil_iff 999 _)) in H. apply Hm.
    rewrite H in Hperm. now apply Permutation.Permutation_nil in Hperm. }
  destruct (Hsome Hne) as [Hd [Hc [payload [Hp [Ht Hb]]]]].
  rewrite (py_len_firstn 1000), Hlen in Hc, Hb.
  change (Z.of_nat 1000) with 1000 in Hc, Hb.
  split; [exact Hd|]. split; [exact Hc|].
  exists payload. auto.
Qed.

End AggregateOverSheet.

Lemma aggregate_over_sheet_witness :
  exists r : @QueryResult.t ExactFloat,
    QueryExecutor.execute Samples.three_bills
      (Samples.aggregate_query None None (Some "ACME")) = Ok r
    /\ QueryResult.result_count r = 2.
Proof.
  destruct (aggregate_over_sheet (F := ExactFloat) Samples.three_rows
              (Samples.aggregate_query None None (Some "ACME"))
              eq_refl eq_refl eq_refl)
    as [r [newest [Hr [_ [_ [_ [_ Hsome]]]]]]].
  exists r. split; [exact Hr|].
  exact (proj1 (proj2 (Hsome ltac:(vm_compute; discriminate)))).
Defined.

(** ** Grouped aggregation *)

Lemma dict_get_set {V : Type} (d : list (string * V)) (k k' : string)
    (v : V) :
  dict_get (dict_set d k v) k'
  = if String.eqb k k' then Some v else dict_get d k'.
Proof.
  induction d as [|[k0 v0] r IH]; simpl.
  - reflexivity.
  - destruct (String.eqb k0 k) eqn:E0; simpl.
    + apply String.eqb_eq in E0; subst k0.
      now destruct (String.eqb k k').
    + rewrite IH. destruct (String.eqb k0 k') eqn:E1; [|reflexivity].
      apply String.eqb_eq in E1; subst k'.
      rewrite String.eqb_sym, E0. reflexivity.
Qed.

Lemma dict_set_keys {V : Type} (d : list (string * V)) (k k' : string)
    (v : V) :
  In k' (map fst (dict_set d k v)) -> k' = k \/ In k' (map fst d).
Proof.
  induction d as [|[k0 v0] r IH]; simpl.
  - intros [H|[]]; auto.
  - destruct (String.eqb k0 k); simpl; intros [H|H]; auto.
    destruct (IH H); auto.
Qed.

Lemma dict_set_nodup {V : Type} (d : list (string * V)) (k : string)
    (v : V) :
  NoDup (map fst d) -> NoDup (map fst (dict_set d k v)).
Proof.
  induction d as [|[k0 v0] r IH]; simpl; intros H.
  - constructor; [intros []|constructor].
  - inversion H as [|? ? Hnin Hr]; subst.
    destruct (String.eqb k0 k) eqn:E; simpl.
    + constructor; assumption.
    + constructor; [|auto].
      intros Hin. apply dict_set_keys in Hin as [->|Hin]; [|contradiction].
      rewrite String.eqb_refl in E. discriminate.
Qed.

Section GroupingFacts.
Context {F : PyFloat}.

Lemma grouping_step (group_by : string) (seen : list ConfirmedBill.t)
    (groups : list (string * list float)) (b : ConfirmedBill.t) :
  grouping_of group_by seen groups ->
  grouping_of group_by (seen ++ [b])
    (QueryExecutor.groups_add groups (QueryExecutor.group_key group_by b)
       (float_of_decimal (ConfirmedBill.total_amount b))).
Proof.
  intros [Hnd Hget]. unfold QueryExecutor.groups_add.
  set (key := QueryExecutor.group_key group_by b).
  set (x := float_of_decimal (ConfirmedBill.total_amount b)).
  assert (Hnew : forall v, grouping_of group_by (seen ++ [b])
                             (dict_set groups key v)
                           <-> forall k,
                               (if String.eqb key k then Some v
                                else dict_get groups k)
                               = match bills_of_group group_by k
                                         (seen ++ [b]) with
                                 | [] => None
                                 | bs => Some (amounts_of bs)
                                 end).
  { intros v. unfold grouping_of. split.
    - intros [_ H] k. rewrite <- dict_get_set. apply H.
    - intros H. split; [now apply dict_set_nodup|].
      intros k. rewrite dict_get_set. apply H. }
  assert (Hfilter : forall k,
             bills_of_group group_by k (seen ++ [b])
             = (bills_of_group group_by k seen
                ++ (if String.eqb key k then [b] else []))%list).
  { intros k. unfold bills_of_group. rewrite filter_app. simpl.
    fold key. now destruct (String.eqb key k). }
  pose proof (Hget key) as Hkey.
  destruct (dict_get groups key) as [amounts|] eqn:Eg.
  - apply Hnew. intros k. rewrite Hfilter.
    destruct (String.eqb key k) eqn:E.
    + apply String.eqb_eq in E; subst k.
      destruct (bills_of_group group_by key seen) as [|b0 bs];
        [discriminate Hkey|].
      injection Hkey as ->. unfold amounts_of. simpl.
      rewrite map_app. reflexivity.
    + rewrite app_nil_r. apply Hget.
  - apply Hnew. intros k. rewrite Hfilter.
    destruct (String.eqb key k) eqn:E.
    + apply String.eqb_eq in E; subst k.
      destruct (bills_of_group group_by key seen) as [|b0 bs];
        [reflexivity|discriminate Hkey].
    + rewrite app_nil_r. apply Hget.
Qed.

Lemma grouping_loop (group_by : string) (bills seen : list ConfirmedBill.t)
    (groups : list (string * list float)) :
  grouping_of group_by seen groups ->
  grouping_of group_by (seen ++ bills)
    (fold_left
       (fun groups bill =>
          QueryExecutor.groups_add groups
            (QueryExecutor.group_key group_by bill)
            (float_of_decimal (ConfirmedBill.total_amount bill)))
       bills groups).
Proof.
  revert seen groups; induction bills as [|b bills IH];
    intros seen groups H; simpl.
  - now rewrite app_nil_r.
  - replace (seen ++ b :: bills)%list with ((seen ++ [b]) ++ bills)%list
      by (now rewrite <- app_assoc).
    apply IH. now apply grouping_step.
Qed.

Lemma mapM_group_values (aggregation_type : option string)
    (groups : list (string * list float)) (out : pydict) :
  mapM (fun kv : string * list float =>
          v <- QueryExecutor.group_value aggregation_type (snd kv) ;;
          Ok (fst kv, v))
       groups = Ok out ->
  map fst out = map fst groups
  /\ forall k : string,
      match dict_get groups k with
      | None => dict_get out k = None
      | Some amounts =>
          exists v, QueryExecutor.group_value aggregation_type amounts
                    = Ok v
                    /\ dict_get out k = Some v
      end.
Proof.
  revert out; induction groups as [|[k0 a0] groups IH]; intros out; simpl.
  - intros H; injection H as <-. split; [reflexivity|]. intros k.
    reflexivity.
  - destruct (QueryExecutor.group_value aggregation_type a0) as [v0|]
      eqn:E0; simpl; [|discriminate].
    destruct (mapM _ groups) as [out'|] eqn:E; simpl; [|discriminate].
    intros H; injection H as <-.
    destruct (IH out' eq_refl) as [Hk Hv].
    split; [simpl; now rewrite Hk|].
    intros k. simpl. destruct (String.eqb k0 k).
    + exists v0. auto.
    + apply Hv.
Qed.

(** X8.  The grouped breakdown partitions the bills by their group key:
    it has one entry for each key that occurs, none for any other, and
    the value of an entry is the aggregation of exactly the bills with
    that key, in their order. *)
Theorem grouped_aggregate_partitions (bills : list ConfirmedBill.t)
    (group_by : string) (aggregation_type : option string) :
  exists grouped : pydict,
    QueryExecutor._execute_grouped_aggregate bills group_by
      aggregation_type = Ok grouped
    /\ NoDup (map fst grouped)
    /\ forall k : string,
        match bills_of_group group_by k bills with
        | [] => dict_get grouped k = None
        | bs =>
            exists v : pyval,
              QueryExecutor.group_value aggregation_type (amounts_of bs)
              = Ok v
              /\ dict_get grouped k = Some v
        end.
Proof.
  destruct (grouped_aggregate_returns bills group_by aggregation_type)
    as [grouped Hg].
  exists grouped. split; [exact Hg|].
  unfold QueryExecutor._execute_grouped_aggregate in Hg.
  destruct (grouping_loop group_by bills [] [])
    as [Hnd Hget]; [split; [constructor|reflexivity]|].
  simpl app in *.
  destruct (mapM_group_values _ _ _ Hg) as [Hk Hv].
  split; [now rewrite Hk|].
  intros k. specialize (Hv k). rewrite Hget in Hv.
  destruct (bills_of_group group_by k bills); exact Hv.
Qed.

End GroupingFacts.

(** ** Minimum, maximum and totals *)

Section ExtremeFacts.
Context {F : PyFloat} {S : Type} {storage_ops : BillStorageInterface S}.
Variable storage : S.
Hypothesis Hstrict : strict_order F.

Lemma min_loop (l : list float) (cur : float) (seen : list float) :
  In cur seen ->
  (forall z, In z seen -> float_ltb z cur = false) ->
  let m := fold_left (fun cur y => if float_ltb y cur then y else cur)
             l cur in
  In m (seen ++ l)
  /\ forall z, In z (seen ++ l) -> float_ltb z m = false.
Proof.
  destruct Hstrict as [Hirr Htr].
  revert cur seen; induction l as [|y l IH]; intros cur seen Hin Hle;
    simpl.
  - rewrite app_nil_r. auto.
  - replace (seen ++ y :: l)%list with ((seen ++ [y]) ++ l)%list
      by (now rewrite <- app_assoc).
    apply IH.
    + destruct (float_ltb y cur); apply in_or_app; [right|left]; auto.
      now left.
    + intros z Hz. apply in_app_or in Hz.
      destruct (float_ltb y cur) eqn:E.
      * destruct Hz as [Hz|[<-|[]]]; [|apply Hirr].
        destruct (float_ltb z y) eqn:Ez; [|reflexivity].
        rewrite <- (Hle z Hz). symmetry. eapply Htr; eauto.
      * destruct Hz as [Hz|[<-|[]]]; auto.
Qed.

Lemma max_loop (l : list float) (cur : float) (seen : list float) :
  In cur seen ->
  (forall z, In z seen -> float_ltb cur z = false) ->
  let m := fold_left (fun cur y => if float_ltb cur y then y else cur)
             l cur in
  In m (seen ++ l)
  /\ forall z, In z (seen ++ l) -> float_ltb m z = false.
Proof.
  destruct Hstrict as [Hirr Htr].
  revert cur seen; induction l as [|y l IH]; intros cur seen Hin Hle;
    simpl.
  - rewrite app_nil_r. auto.
  - replace (seen ++ y :: l)%list with ((seen ++ [y]) ++ l)%list
      by (now rewrite <- app_assoc).
    apply IH.
    + destruct (float_ltb cur y); apply in_or_app; [right|left]; auto.
      now left.
    + intros z Hz. apply in_app_or in Hz.
      destruct (float_ltb cur y) eqn:E.
      * destruct Hz as [Hz|[<-|[]]]; [|apply Hirr].
        destruct (float_ltb y z) eqn:Ez; [|reflexivity].
        rewrite <- (Hle z Hz). symmetry. eapply Htr; eauto.
      * destruct Hz as [Hz|[<-|[]]]; auto.
Qed.

Lemma py_min_least (l : list float) :
  l <> [] ->
  exists m, py_min l = Ok m /\ In m l
            /\ forall z, In z l -> float_ltb z m = false.
Proof.
  destruct l as [|x l]; [congruence|]. intros _.
  eexists; split; [reflexivity|].
  destruct Hstrict as [Hirr _].
  apply (min_loop l x [x]); [now left|].
  intros z [<-|[]]. apply Hirr.
Qed.

Lemma py_max_greatest (l : list float) :
  l <> [] ->
  exists m, py_max l = Ok m /\ In m l
            /\ forall z, In z l -> float_ltb m z = false.
Proof.
  destruct l as [|x l]; [congruence|]. intros _.
  eexists; split; [reflexivity|].
  destruct Hstrict as [Hirr _].
  apply (max_loop l x [x]); [now left|].
  intros z [<-|[]]. apply Hirr.
Qed.

(** X9.  The [min] aggregation gives the amount of one of the bills the
    record source returned, and none of their amounts is below it. *)
Theorem aggregate_min_is_least_amount (query : StructuredQuery.t)
    (bills : list ConfirmedBill.t) :
  StructuredQuery.aggregation_type query = Some "min" ->
  QueryExecutor.fetch storage query 1000 = Ok bills ->
  bills <> [] ->
  exists (r : QueryResult.t) (payload : pydict) (m : float),
    QueryExecutor._execute_aggregate storage query = Ok r
    /\ QueryResult.aggregation_result r = Some payload
    /\ dict_get payload "minimum_amount" = Some (VFloat m)
    /\ In m (amounts_of bills)
    /\ forall z, In z (amounts_of bills) -> float_ltb z m = false.
Proof.
  intros Hagg Hfetch Hne.
  unfold QueryExecutor._execute_aggregate. rewrite Hfetch, Hagg.
  simpl bind.
  destruct bills as [|b bills]; [congruence|].
  destruct (py_min_least (amounts_of (b :: bills)) ltac:(discriminate))
    as [m [Hm [Hin Hleast]]].
  unfold amounts_of in Hm. cbn [QueryExecutor.opt_str_eqb String.eqb
    Ascii.eqb Bool.eqb orb is_some negb].
  rewrite Hm. simpl bind.
  destruct (opt_truthy (StructuredQuery.group_by query)).
  - destruct (grouped_aggregate_returns (b :: bills)
                (QueryExecutor.str_value (StructuredQuery.group_by query))
                (Some "min")) as [g Hg].
    rewrite Hg. simpl bind.
    do 3 eexists. split; [reflexivity|]. split; [reflexivity|].
    split; [reflexivity|]. split; assumption.
  - simpl bind.
    do 3 eexists. split; [reflexivity|]. split; [reflexivity|].
    split; [reflexivity|]. split; assumption.
Qed.

(** X10.  The [max] aggregation gives the amount of one of the bills
    the record source returned, and none of their amounts is above it. *)
Theorem aggregate_max_is_greatest_amount (query : StructuredQuery.t)
    (bills : list ConfirmedBill.t) :
  StructuredQuery.aggregation_type query = Some "max" ->
  QueryExecutor.fetch storage query 1000 = Ok bills ->
  bills <> [] ->
  exists (r : QueryResult.t) (payload : pydict) (m : float),
    QueryExecutor._execute_aggregate storage query = Ok r
    /\ QueryResult.aggregation_result r = Some payload
    /\ dict_get payload "maximum_amount" = Some (VFloat m)
    /\ In m (amounts_of bills)
    /\ forall z, In z (amounts_of bills) -> float_ltb m z = false.
Proof.
  intros Hagg Hfetch Hne.
  unfold QueryExecutor._execute_aggregate. rewrite Hfetch, Hagg.
  simpl bind.
  destruct bills as [|b bills]; [congruence|].
  destruct (py_max_greatest (amounts_of (b :: bills)) ltac:(discriminate))
    as [m [Hm [Hin Hleast]]].
  unfold amounts_of in Hm. cbn [QueryExecutor.opt_str_eqb String.eqb
    Ascii.eqb Bool.eqb orb is_some negb].
  rewrite Hm. simpl bind.
  destruct (opt_truthy (StructuredQuery.group_by query)).
  - destruct (grouped_aggregate_returns (b :: bills)
                (QueryExecutor.str_value (StructuredQuery.group_by query))
                (Some "max")) as [g Hg].
    rewrite Hg. simpl bind.
    do 3 eexists. split; [reflexivity|]. split; [reflexivity|].
    split; [reflexivity|]. split; assumption.
  - simpl bind.
    do 3 eexists. split; [reflexivity|]. split; [reflexivity|].
    split; [reflexivity|]. split; assumption.
Qed.

End ExtremeFacts.

Lemma exact_float_strict_order : strict_order ExactFloat.
Proof.
  assert (Hlt : forall a b : Q, Qltb a b = true <-> (a < b)%Q).
  { intros a b. unfold Qltb. rewrite negb_true_iff.
    rewrite <- not_true_iff_false, Qle_bool_iff. split.
    - apply Qnot_le_lt.
    - apply Qlt_not_le. }
  split.
  - intros a. simpl. unfold Qltb. apply negb_false_iff.
    apply Qle_bool_iff, Qle_refl.
  - intros a b c. simpl. rewrite !Hlt. apply Qlt_trans.
Qed.

(** X9 at the three stored bills: the least amount is 100. *)
Lemma aggregate_min_is_least_amount_witness :
  exists (r : @QueryResult.t ExactFloat) (payload : @pydict ExactFloat),
    QueryExecutor._execute_aggregate Samples.three_bills
      (Samples.aggregate_query (Some "min") None None) = Ok r
    /\ QueryResult.aggregation_result r = Some payload
    /\ dict_get payload "minimum_amount"
       = Some (@VFloat ExactFloat (100 # 1)).
Proof.
  destruct (aggregate_min_is_least_amount (F := ExactFloat)
              (storage_ops := GoogleSheets) Samples.three_bills
              exact_float_strict_order
              (Samples.aggregate_query (Some "min") None None)
              [Samples.bill "b3" "City Water" 300 (mkdate 2024 3 10) None;
               Samples.bill "b2" "Acme Power" 200 (mkdate 2024 2 10)
                 (Some "INV-2");
               Samples.bill "b1" "Acme Power" 100 (mkdate 2024 1 10)
                 (Some "INV-1")]
              eq_refl eq_refl ltac:(discriminate))
    as [r [payload [m [Hr [Hp _]]]]].
  exists r, payload. split; [exact Hr|]. split; [exact Hp|].
  vm_compute in Hr. injection Hr as <-.
  vm_compute in Hp. injection Hp as <-. reflexivity.
Defined.

(** X10 at the three stored bills: the greatest amount is 300. *)
Lemma aggregate_max_is_greatest_amount_witness :
  exists (r : @QueryResult.t ExactFloat) (payload : @pydict ExactFloat),
    QueryExecutor._execute_aggregate Samples.three_bills
      (Samples.aggregate_query (Some "max") None None) = Ok r
    /\ QueryResult.aggregation_result r = Some payload
    /\ dict_get payload "maximum_amount"
       = Some (@VFloat ExactFloat (300 # 1)).
Proof.
  destruct (aggregate_max_is_greatest_amount (F := ExactFloat)
              (storage_ops := GoogleSheets) Samples.three_bills
              exact_float_strict_order
              (Samples.aggregate_query (Some "max") None None)
              [Samples.bill "b3" "City Water" 300 (mkdate 2024 3 10) None;
               Samples.bill "b2" "Acme Power" 200 (mkdate 2024 2 10)
                 (Some "INV-2");
               Samples.bill "b1" "Acme Power" 100 (mkdate 2024 1 10)
                 (Some "INV-1")]
              eq_refl eq_refl ltac:(discriminate))
    as [r [payload [m [Hr [Hp _]]]]].
  exists r, payload. split; [exact Hr|]. split; [exact Hp|].
  vm_compute in Hr. injection Hr as <-.
  vm_compute in Hp. injection Hp as <-. reflexivity.
Defined.

Section TotalsFacts.
Context {F : PyFloat}.

(** X11.  The storage's own totals agree with the executor: for a
    category (or a vendor) and a date range, [get_total_by_category]
    ([get_total_by_vendor]) returns the [total_amount] of the aggregate
    query with these filters when the query finds data, and the sum of
    no amounts when it finds none; when the worksheet cannot be read
    the total raises and the query fails. *)
Theorem storage_totals_agree_with_aggregate
    (sheet : GoogleSheetsBillStorage.t) (date_from date_to : option date) :
  (forall category : BillCategory.t,
      exists r : QueryResult.t,
        QueryExecutor.execute sheet
          (category_total_query category date_from date_to) = Ok r
        /\ match GoogleSheetsTotals.get_total_by_category sheet category
                   date_from date_to with
           | Ok total =>
               QueryResult.success r = true
               /\ (if QueryResult.data_found r
                   then exists payload,
                       QueryResult.aggregation_result r = Some payload
                       /\ dict_get payload "total_amount"
                          = Some (VFloat total)
                   else total = float_sum [])
           | Raise _ => QueryResult.success r = false
           end)
  /\ (forall vendor : string,
         exists r : QueryResult.t,
           QueryExecutor.execute sheet
             (vendor_total_query vendor date_from date_to) = Ok r
           /\ match GoogleSheetsTotals.get_total_by_vendor sheet vendor
                      date_from date_to with
              | Ok total =>
                  QueryResult.success r = true
                  /\ (if QueryResult.data_found r
                      then exists payload,
                          QueryResult.aggregation_result r = Some payload
                          /\ dict_get payload "total_amount"
                             = Some (VFloat total)
                      else total = float_sum [])
              | Raise _ => QueryResult.success r = false
              end).
Proof.
  split.
  - intros category.
    unfold GoogleSheetsTotals.get_total_by_category, QueryExecutor.execute,
      QueryExecutor.dispatch, QueryExecutor._execute_aggregate,
      QueryExecutor.fetch, category_total_query.
    cbn [String.eqb Ascii.eqb Bool.eqb StructuredQuery.query_type
         StructuredQuery.category_filter StructuredQuery.vendor_filter
         StructuredQuery.date_from StructuredQuery.date_to
         StructuredQuery.payment_status_filter list_bills GoogleSheets].
    destruct (GoogleSheetsBillStorage.list_bills sheet (Some category) None
                date_from date_to None 1000 0) as [bills|e];
      [|eexists; split; reflexivity].
    destruct bills as [|b bills]; simpl.
    + eexists; split; [reflexivity|]. simpl. auto.
    + eexists; split; [reflexivity|]. simpl.
      split; [reflexivity|]. eexists; split; reflexivity.
  - intros vendor.
    unfold GoogleSheetsTotals.get_total_by_vendor, QueryExecutor.execute,
      QueryExecutor.dispatch, QueryExecutor._execute_aggregate,
      QueryExecutor.fetch, vendor_total_query.
    cbn [String.eqb Ascii.eqb Bool.eqb StructuredQuery.query_type
         StructuredQuery.category_filter StructuredQuery.vendor_filter
         StructuredQuery.date_from StructuredQuery.date_to
         StructuredQuery.payment_status_filter list_bills GoogleSheets].
    destruct (GoogleSheetsBillStorage.list_bills sheet None (Some vendor)
                date_from date_to None 1000 0) as [bills|e];
      [|eexists; split; reflexivity].
    destruct bills as [|b bills]; simpl.
    + eexists; split; [reflexivity|]. simpl. auto.
    + eexists; split; [reflexivity|]. simpl.
      split; [reflexivity|].
      destruct (opt_truthy (Some vendor)); eexists; split; reflexivity.
Qed.

End TotalsFacts.

(** ** The resolver, rule by rule *)

Lemma month_end_ok_december (y m : Z) :
  1 <= y <= 9999 -> 1 <= m <= 12 -> (m = 12 -> y <= 9998) ->
  month_end_of y m = Ok (mkdate y m (days_in_month y m)).
Proof.
  intros Hy Hm Hdec.
  destruct (Z.eq_dec m 12) as [->|Hne]; [apply month_end_ok; lia|].
  unfold month_end_of.
  replace (m =? 12) with false by (symmetry; apply Z.eqb_neq; lia).
  rewrite new_ok by date_range. simpl.
  rewrite first_minus_one by (try lia; intros Heq; injection Heq; lia).
  unfold prev_month_end.
  replace (m + 1 =? 1) with false by (symmetry; apply Z.eqb_neq; lia).
  now replace (m + 1 - 1) with m by lia.
Qed.

Lemma new_year_bounds (y : Z) :
  1 <= y <= 9999 ->
  PyDate.new y 1 1 = Ok (mkdate y 1 1)
  /\ PyDate.new y 12 31 = Ok (mkdate y 12 31).
Proof.
  intros Hy. split; apply new_ok; try lia.
  - change (days_in_month y 1) with 31. lia.
  - change (days_in_month y 12) with 31. lia.
Qed.

Lemma in_list_In (t : string) (names : list string) :
  PyStr.in_list t names = true <-> In t names.
Proof.
  unfold PyStr.in_list. rewrite existsb_exists. split.
  - intros [x [Hx He]]. apply String.eqb_eq in He. now subst.
  - intros H. exists t. split; [exact H|apply String.eqb_refl].
Qed.

Lemma normalized_truthy (phrase : string) :
  normalized phrase <> "" -> opt_truthy (Some phrase) = true.
Proof. destruct phrase; [intros H; now elim H|reflexivity]. Qed.

Ltac phrase_is t names :=
  let E := fresh "E" in
  destruct (PyStr.in_list t names) eqn:E;
  [apply in_list_In in E; simpl in E;
   repeat match goal with
          | H : _ \/ _ |- _ => destruct H
          | H : False |- _ => destruct H
          end;
   try congruence|].

(** X12.  "this month" and "current month", in any case and with blanks
    around: the first through the last day of today's month (in December
    as long as the next year exists). *)
Theorem this_month_range (today : date) (phrase : string) :
  valid today = true ->
  (month today = 12 -> year today <= 9998) ->
  In (normalized phrase) ["this month"; "current month"] ->
  QueryAgent._resolve_time_reference today (Some phrase)
  = Ok (Some (first_of_month today),
        Some (mkdate (year today) (month today)
                (days_in_month (year today) (month today)))).
Proof.
  intros Hv Hdec Hin. destruct (valid_inv today Hv) as [Hy [Hm Hd]].
  unfold QueryAgent._resolve_time_reference.
  rewrite normalized_truthy
    by (destruct Hin as [Hp|[Hp|[]]]; rewrite <- Hp; discriminate).
  cbn [negb]. fold (normalized phrase).
  rewrite (proj2 (in_list_In _ _) Hin).
  rewrite replace_day_one, new_ok by date_range. simpl bind.
  change (if month today =? 12
          then d <- replace today (Some (year today + 1)) (Some 1)
                      (Some 1) ;; sub_days d 1
          else d <- replace today None (Some (month today + 1))
                      (Some 1) ;; sub_days d 1)
    with (month_end_of (year today) (month today)).
  now rewrite month_end_ok_december.
Qed.

Lemma this_month_range_witness :
  QueryAgent._resolve_time_reference (mkdate 2024 12 5)
    (Some "  This Month")
  = Ok (Some (mkdate 2024 12 1), Some (mkdate 2024 12 31)).
Proof.
  apply (this_month_range (mkdate 2024 12 5) "  This Month").
  - reflexivity.
  - intros _. simpl. lia.
  - left. reflexivity.
Defined.

(** X13.  "last month" and "previous month": the first through the last
    day of the month before today's, which in January is December of the
    year before. *)
Theorem last_month_range (today : date) (phrase : string) :
  valid today = true ->
  (year today, month today) <> (1, 1) ->
  In (normalized phrase) ["last month"; "previous month"] ->
  QueryAgent._resolve_time_reference today (Some phrase)
  = Ok (Some (first_of_month
                (prev_month_end (year today) (month today))),
        Some (prev_month_end (year today) (month today))).
Proof.
  intros Hv Hne Hin. destruct (valid_inv today Hv) as [Hy [Hm Hd]].
  unfold QueryAgent._resolve_time_reference.
  rewrite normalized_truthy
    by (destruct Hin as [Hp|[Hp|[]]]; rewrite <- Hp; discriminate).
  cbn [negb]. fold (normalized phrase).
  phrase_is (normalized phrase) ["this month"; "current month"];
    try (destruct Hin as [Hp|[Hp|[]]]; congruence).
  rewrite (proj2 (in_list_In _ _) Hin).
  rewrite replace_day_one, new_ok by date_range. simpl bind.
  rewrite first_minus_one by (try lia; exact Hne). simpl bind.
  rewrite replace_day_one.
  unfold prev_month_end, first_of_month.
  destruct (Z.eqb_spec (month today) 1) as [E1|E1]; cbn [year month day].
  - assert (year today <> 1) by (intros Hy1; apply Hne; congruence).
    rewrite new_ok by date_range. reflexivity.
  - rewrite new_ok by date_range. reflexivity.
Qed.

Lemma last_month_range_witness :
  QueryAgent._resolve_time_reference (mkdate 2024 1 15)
    (Some "Previous month")
  = Ok (Some (mkdate 2023 12 1), Some (mkdate 2023 12 31)).
Proof.
  apply (last_month_range (mkdate 2024 1 15) "Previous month").
  - reflexivity.
  - discriminate.
  - right. left. reflexivity.
Defined.

(** X14.  "this year" and "current year" give 1 January through
    31 December of today's year; "last year" and "previous year" those of
    the year before, when there is one. *)
Theorem year_phrases_range (today : date) (phrase : string) :
  valid today = true ->
  (In (normalized phrase) ["this year"; "current year"] ->
   QueryAgent._resolve_time_reference today (Some phrase)
   = Ok (Some (mkdate (year today) 1 1), Some (mkdate (year today) 12 31)))
  /\ (In (normalized phrase) ["last year"; "previous year"] ->
      2 <= year today ->
      QueryAgent._resolve_time_reference today (Some phrase)
      = Ok (Some (mkdate (year today - 1) 1 1),
            Some (mkdate (year today - 1) 12 31))).
Proof.
  intros Hv. destruct (valid_inv today Hv) as [Hy [Hm Hd]].
  split.
  - intros Hin. unfold QueryAgent._resolve_time_reference.
    rewrite normalized_truthy
      by (destruct Hin as [Hp|[Hp|[]]]; rewrite <- Hp; discriminate).
    cbn [negb]. fold (normalized phrase).
    phrase_is (normalized phrase) ["this month"; "current month"];
      try (destruct Hin as [Hp|[Hp|[]]]; congruence).
    phrase_is (normalized phrase) ["last month"; "previous month"];
      try (destruct Hin as [Hp|[Hp|[]]]; congruence).
    rewrite (proj2 (in_list_In _ _) Hin).
    unfold replace.
    destruct (new_year_bounds (year today) Hy) as [-> ->]. reflexivity.
  - intros Hin Hy2. unfold QueryAgent._resolve_time_reference.
    rewrite normalized_truthy
      by (destruct Hin as [Hp|[Hp|[]]]; rewrite <- Hp; discriminate).
    cbn [negb]. fold (normalized phrase).
    phrase_is (normalized phrase) ["this month"; "current month"];
      try (destruct Hin as [Hp|[Hp|[]]]; congruence).
    phrase_is (normalized phrase) ["last month"; "previous month"];
      try (destruct Hin as [Hp|[Hp|[]]]; congruence).
    phrase_is (normalized phrase) ["this year"; "current year"];
      try (destruct Hin as [Hp|[Hp|[]]]; congruence).
    rewrite (proj2 (in_list_In _ _) Hin).
    unfold replace.
    destruct (new_year_bounds (year today - 1) ltac:(lia)) as [-> ->].
    reflexivity.
Qed.

Lemma year_phrases_range_witness :
  QueryAgent._resolve_time_reference Samples.today (Some "LAST YEAR")
  = Ok (Some (mkdate 2023 1 1), Some (mkdate 2023 12 31)).
Proof.
  apply (proj2 (year_phrases_range Samples.today "LAST YEAR" eq_refl)).
  - left. reflexivity.
  - simpl. lia.
Defined.

Lemma digit_val_range (c : ascii) :
  PyStr.is_digit c = true -> 0 <= PyStr.digit_val c <= 9.
Proof.
  unfold PyStr.is_digit, PyStr.digit_val.
  rewrite andb_true_iff, !Nat.leb_le. lia.
Qed.

Lemma year_search_range (s : string) (y : Z) :
  QueryAgent.year_search s = Some y -> 2000 <= y <= 2099.
Proof.
  induction s as [|c r IH]; [discriminate|].
  destruct c as [[] [] [] [] [] [] [] []]; try exact IH.
  destruct r as [|c2 r2]; [discriminate|].
  destruct c2 as [[] [] [] [] [] [] [] []]; try exact IH.
  destruct r2 as [|d1 [|d2 r4]]; try exact IH.
  cbn [QueryAgent.year_search].
  destruct (PyStr.is_digit d1) eqn:E1; [|exact IH].
  destruct (PyStr.is_digit d2) eqn:E2; [|exact IH].
  cbn [andb]. intros Hy.
  assert (Hv : y = 2000 + 10 * PyStr.digit_val d1 + PyStr.digit_val d2)
    by congruence.
  pose proof (digit_val_range _ E1). pose proof (digit_val_range _ E2). lia.
Qed.

Lemma no_month_named (t : string) :
  (forall num : Z, ~ names_month t num)
  <-> find (fun kv => PyStr.contains (fst kv) t) QueryAgent.months = None.
Proof.
  split.
  - intros H. destruct (find _ _) as [[name num]|] eqn:E; [|reflexivity].
    apply find_some in E as [Hin Hc]. exfalso. apply (H num).
    exists name. auto.
  - intros H num [name [Hin Hc]].
    apply (find_none _ _ H) in Hin. simpl in Hin. congruence.
Qed.

Lemma not_relative (t : string) :
  ~ In t relative_phrases ->
  PyStr.in_list t ["this month"; "current month"] = false
  /\ PyStr.in_list t ["last month"; "previous month"] = false
  /\ PyStr.in_list t ["this year"; "current year"] = false
  /\ PyStr.in_list t ["last year"; "previous year"] = false.
Proof.
  intros H. repeat split; apply not_true_iff_false; rewrite in_list_In;
    intros Hin; apply H; unfold relative_phrases; simpl in *; tauto.
Qed.

(** The resolver below its relative phrases and its month names. *)
Lemma resolver_falls_to_year (today : date) (phrase : string) :
  opt_truthy (Some phrase) = true ->
  ~ In (normalized phrase) relative_phrases ->
  (forall num : Z, ~ names_month (normalized phrase) num) ->
  QueryAgent._resolve_time_reference today (Some phrase)
  = match QueryAgent.year_search (normalized phrase) with
    | Some y =>
        start <- PyDate.new y 1 1 ;;
        end_ <- PyDate.new y 12 31 ;;
        Ok (Some start, Some end_)
    | None => Ok (None, None)
    end.
Proof.
  intros Ht Hrel Hmon. unfold QueryAgent._resolve_time_reference.
  rewrite Ht. cbn [negb]. fold (normalized phrase).
  destruct (not_relative _ Hrel) as [-> [-> [-> ->]]].
  rewrite (proj1 (no_month_named _) Hmon). reflexivity.
Qed.




(** ** The shape of what the resolver returns *)

Ltac split_binds :=
  repeat match goal with
         | |- context [bind ?m _] => destruct m; cbn [bind]
         | |- context [if ?c then _ else _] => destruct c
         end.

Lemma empty_phrase_unrecognised : unrecognised (normalized "").
Proof.
  repeat split.
  - intros H. unfold relative_phrases in H; simpl in H.
    repeat destruct H as [H|H]; try discriminate H; exact H.
  - apply no_month_named. reflexivity.
Qed.


Lemma unrecognised_gives_no_bounds (today : date) (phrase : string) :
  unrecognised (normalized phrase) ->
  QueryAgent._resolve_time_reference today (Some phrase) = Ok (None, None).
Proof.
  intros [Hrel [Hmon Hy]].
  destruct phrase as [|c r]; [reflexivity|].
  rewrite resolver_falls_to_year by (reflexivity || assumption).
  now rewrite Hy.
Qed.



Lemma resolver_both_or_none (today : date) (time_ref : option string)
    (a b : option date) :
  QueryAgent._resolve_time_reference today time_ref = Ok (a, b) ->
  is_some a = is_some b.
Proof.
  unfold QueryAgent._resolve_time_reference, QueryAgent.month_branch.
  destruct (negb (opt_truthy time_ref));
    [intros H; injection H as <- <-; reflexivity|].
  set (t := PyStr.strip _).
  repeat match goal with
         | |- context [PyStr.in_list t ?l] => destruct (PyStr.in_list t l)
         end;
    [split_binds; intros H; try discriminate H;
     injection H as <- <-; reflexivity ..|].
  destruct (find _ QueryAgent.months) as [[name num]|];
    [|destruct (QueryAgent.year_search t)];
    split_binds; intros H; try discriminate H;
    injection H as <- <-; reflexivity.
Qed.

Lemma resolver_returns (today : date) (time_ref : option string) :
  valid today = true ->
  2 <= year today <= 9998 ->
  exists bounds : option date * option date,
    QueryAgent._resolve_time_reference today time_ref = Ok bounds.
Proof.
  intros Hv Hyear. destruct (valid_inv today Hv) as [Hy [Hm Hd]].
  unfold QueryAgent._resolve_time_reference.
  destruct (negb (opt_truthy time_ref)); [now eexists|].
  set (t := PyStr.strip _).
  destruct (PyStr.in_list t ["this month"; "current month"]).
  { rewrite replace_day_one, new_ok by date_range. cbn [bind].
    change (if month today =? 12
            then d <- replace today (Some (year today + 1)) (Some 1)
                        (Some 1) ;; sub_days d 1
            else d <- replace today None (Some (month today + 1))
                        (Some 1) ;; sub_days d 1)
      with (month_end_of (year today) (month today)).
    rewrite month_end_ok by lia. now eexists. }
  destruct (PyStr.in_list t ["last month"; "previous month"]).
  { rewrite replace_day_one, new_ok by date_range. cbn [bind].
    rewrite first_minus_one by (try lia; intros Heq; injection Heq; lia).
    cbn [bind]. rewrite replace_day_one.
    unfold prev_month_end.
    destruct (Z.eqb_spec (month today) 1) as [E1|E1]; cbn [year month day];
      rewrite new_ok by date_range; now eexists. }
  destruct (PyStr.in_list t ["this year"; "current year"]).
  { unfold replace.
    destruct (new_year_bounds (year today) ltac:(lia)) as [-> ->].
    now eexists. }
  destruct (PyStr.in_list t ["last year"; "previous year"]).
  { unfold replace.
    destruct (new_year_bounds (year today - 1) ltac:(lia)) as [-> ->].
    now eexists. }
  destruct (find _ QueryAgent.months) as [[name num]|] eqn:Ef.
  { apply find_some in Ef as [Hin _].
    apply month_number_range in Hin.
    rewrite month_branch_unfold.
    set (y := if month today <? num then year today - 1 else year today).
    assert (1 <= y <= 9998) by (unfold y; destruct (month today <? num); lia).
    rewrite new_ok by date_range. cbn [bind].
    rewrite month_end_ok by lia. now eexists. }
  destruct (QueryAgent.year_search t) as [y|] eqn:Ey; [|now eexists].
  apply year_search_range in Ey.
  destruct (new_year_bounds y ltac:(lia)) as [-> ->]. now eexists.
Qed.

(** X17.  Asked on a valid day of the years 2 to 9998, the resolver never
    raises, and it returns both bounds or neither. *)
Theorem resolver_returns_both_bounds_or_none
    (today : date) (time_ref : option string) :
  valid today = true ->
  2 <= year today <= 9998 ->
  exists bounds : option date * option date,
    QueryAgent._resolve_time_reference today time_ref = Ok bounds
    /\ is_some (fst bounds) = is_some (snd bounds).
Proof.
  intros Hv Hy.
  destruct (resolver_returns today time_ref Hv Hy) as [[a b] H].
  exists (a, b). split; [exact H|].
  exact (resolver_both_or_none _ _ _ _ H).
Qed.

Lemma resolver_returns_both_bounds_or_none_witness :
  exists bounds : option date * option date,
    QueryAgent._resolve_time_reference Samples.today (Some "in march")
    = Ok bounds
    /\ is_some (fst bounds) = is_some (snd bounds).
Proof.
  apply (resolver_returns_both_bounds_or_none Samples.today
           (Some "in march")).
  - reflexivity.
  - simpl. lia.
Defined.

Lemma month_end_is_month_end (y m : Z) :
  is_month_end (mkdate y m (days_in_month y m)).
Proof. reflexivity. Qed.

Lemma month_branch_whole (today : date) (num : Z) (s e : date) :
  1 <= num <= 12 ->
  QueryAgent.month_branch today num = Ok (Some s, Some e) ->
  whole_months s e /\ month s = num.
Proof.
  intros Hnum. rewrite month_branch_unfold.
  set (y := if month today <? num then year today - 1 else year today).
  destruct (PyDate.new y num 1) as [start|] eqn:Es; cbn [bind];
    [|discriminate].
  apply new_inv in Es as [-> [Hy _]].
  destruct (month_end_of y num) as [end_|] eqn:Ee; cbn [bind];
    [|discriminate].
  apply month_end_inv in Ee; [|lia|lia]. subst end_.
  intros H; injection H as <- <-.
  unfold whole_months, is_month_end; cbn [year month day]. repeat split; auto.
Qed.

(** X18.  Whenever the resolver returns bounds, they span whole months:
    the start is the first of a month, the end is the last day of a month
    of the same year, and that month is the start's month or, for a
    range starting in January, December. *)
Theorem resolved_range_is_whole_months (today : date)
    (time_ref : option string) (s e : date) :
  valid today = true ->
  QueryAgent._resolve_time_reference today time_ref = Ok (Some s, Some e) ->
  whole_months s e.
Proof.
  intros Hv. destruct (valid_inv today Hv) as [Hy [Hm Hd]].
  unfold QueryAgent._resolve_time_reference.
  destruct (negb (opt_truthy time_ref)); [discriminate|].
  set (t := PyStr.strip _).
  destruct (PyStr.in_list t ["this month"; "current month"]).
  { rewrite replace_day_one.
    destruct (PyDate.new (year today) (month today) 1) as [start|] eqn:Es;
      cbn [bind]; [|discriminate].
    apply new_inv in Es as [-> _].
    change (if month today =? 12
            then d <- replace today (Some (year today + 1)) (Some 1)
                        (Some 1) ;; sub_days d 1
            else d <- replace today None (Some (month today + 1))
                        (Some 1) ;; sub_days d 1)
      with (month_end_of (year today) (month today)).
    destruct (month_end_of (year today) (month today)) as [end_|] eqn:Ee;
      cbn [bind]; [|discriminate].
    apply month_end_inv in Ee; [|lia|lia]. subst end_.
    intros H; injection H as <- <-.
    unfold whole_months, is_month_end; cbn [year month day]. repeat split; auto. }
  destruct (PyStr.in_list t ["last month"; "previous month"]).
  { rewrite replace_day_one.
    rewrite new_ok by date_range. cbn [bind].
    destruct (sub_days (mkdate (year today) (month today) 1) 1)
      as [end_|] eqn:Ee; cbn [bind]; [|discriminate].
    rewrite replace_day_one.
    destruct (PyDate.new (year end_) (month end_) 1) as [start|] eqn:Es;
      cbn [bind]; [|discriminate].
    apply new_inv in Es as [-> _].
    intros H; injection H as <- <-.
    destruct (Z.eq_dec (year today) 1) as [Ey|Ey],
             (Z.eq_dec (month today) 1) as [Em|Em];
      try (rewrite Ey, Em in Ee; discriminate Ee);
      (rewrite first_minus_one in Ee
         by (try lia; intros Heq; injection Heq; lia));
      injection Ee as <-; unfold prev_month_end;
      destruct (month today =? 1); unfold whole_months, is_month_end;
      cbn [year month day]; repeat split; auto. }
  destruct (PyStr.in_list t ["this year"; "current year"]).
  { unfold replace.
    destruct (PyDate.new (year today) 1 1) as [start|] eqn:Es; cbn [bind];
      [|discriminate].
    destruct (PyDate.new (year today) 12 31) as [end_|] eqn:Ee; cbn [bind];
      [|discriminate].
    apply new_inv in Es as [-> _]. apply new_inv in Ee as [-> _].
    intros H; injection H as <- <-.
    unfold whole_months, is_month_end; cbn [year month day]. repeat split; auto. }
  destruct (PyStr.in_list t ["last year"; "previous year"]).
  { unfold replace.
    destruct (PyDate.new (year today - 1) 1 1) as [start|] eqn:Es;
      cbn [bind]; [|discriminate].
    destruct (PyDate.new (year today - 1) 12 31) as [end_|] eqn:Ee;
      cbn [bind]; [|discriminate].
    apply new_inv in Es as [-> _]. apply new_inv in Ee as [-> _].
    intros H; injection H as <- <-.
    unfold whole_months, is_month_end; cbn [year month day]. repeat split; auto. }
  destruct (find _ QueryAgent.months) as [[name num]|] eqn:Ef.
  { apply find_some in Ef as [Hin _]. intros H.
    eapply month_branch_whole; [|exact H].
    eapply month_number_range; eauto. }
  destruct (QueryAgent.year_search t) as [y|]; [|discriminate].
  destruct (PyDate.new y 1 1) as [start|] eqn:Es; cbn [bind]; [|discriminate].
  destruct (PyDate.new y 12 31) as [end_|] eqn:Ee; cbn [bind];
    [|discriminate].
  apply new_inv in Es as [-> _]. apply new_inv in Ee as [-> _].
  intros H; injection H as <- <-.
  unfold whole_months, is_month_end; cbn [year month day]. repeat split; auto.
Qed.

Lemma resolved_range_is_whole_months_witness :
  whole_months (mkdate 2023 11 1) (mkdate 2023 11 30).
Proof.
  apply (resolved_range_is_whole_months Samples.today
           (Some "bills of November") (mkdate 2023 11 1) (mkdate 2023 11 30)).
  - reflexivity.
  - vm_compute. reflexivity.
Defined.

(** X19.  The resolver reads a phrase only through its lower-cased,
    stripped form: two phrases that agree there resolve alike, the empty
    phrase included. *)
Theorem resolver_reads_normalized_phrase (today : date) (p q : string) :
  normalized p = normalized q ->
  QueryAgent._resolve_time_reference today (Some p)
  = QueryAgent._resolve_time_reference today (Some q).
Proof.
  assert (Hempty : forall r : string,
             normalized r = "" ->
             QueryAgent._resolve_time_reference today (Some r)
             = Ok (None, None)).
  { intros r Hr. apply unrecognised_gives_no_bounds.
    rewrite Hr. apply empty_phrase_unrecognised. }
  intros H. destruct p as [|c p], q as [|d q].
  - reflexivity.
  - now rewrite (Hempty (String d q)) by (now rewrite <- H).
  - now rewrite (Hempty (String c p)) by (now rewrite H).
  - unfold QueryAgent._resolve_time_reference. cbn [opt_truthy PyStr.truthy negb].
    fold (normalized (String c p)). fold (normalized (String d q)).
    now rewrite H.
Qed.

Lemma resolver_reads_normalized_phrase_witness :
  QueryAgent._resolve_time_reference Samples.today (Some "  LAST Year ")
  = QueryAgent._resolve_time_reference Samples.today (Some "last year").
Proof.
  apply (resolver_reads_normalized_phrase Samples.today
           "  LAST Year " "last year").
  reflexivity.
Defined.

(** ** From the parsed intent to the query *)

Lemma category_value_lower (c : BillCategory.t) :
  PyStr.lower (BillCategory.value c) = BillCategory.value c.
Proof. destruct c; reflexivity. Qed.

Lemma category_of_value (c : BillCategory.t) :
  BillCategory.of_value (BillCategory.value c) = Ok c.
Proof. destruct c; reflexivity. Qed.

Lemma category_of_value_inv (s : string) (c : BillCategory.t) :
  BillCategory.of_value s = Ok c -> s = BillCategory.value c.
Proof.
  unfold BillCategory.of_value.
  destruct (find _ BillCategory.all) as [c'|] eqn:E; [|discriminate].
  apply find_some in E as [_ E]. apply String.eqb_eq in E.
  intros H; injection H as <-. now symmetry.
Qed.

(** X20.  The category hint becomes a filter exactly when, lower-cased,
    it is the value of a category, and then it is that category; any
    other hint is dropped without an error. *)
Theorem category_hint_is_matched_by_value (s : string) (c : BillCategory.t) :
  QueryAgent.category_filter_of (Some s) = Some c
  <-> PyStr.lower s = BillCategory.value c.
Proof.
  unfold QueryAgent.category_filter_of. split.
  - destruct (PyStr.truthy s); [|discriminate].
    destruct (BillCategory.of_value (PyStr.lower s)) as [c'|] eqn:E;
      [|discriminate].
    intros H; injection H as <-. now apply category_of_value_inv.
  - intros H.
    rewrite lower_nonempty by (rewrite H; destruct c; discriminate).
    now rewrite H, category_of_value.
Qed.

(** X21.  What the payment hint can become: a hint holding "unpaid" is
    UNPAID, a hint holding "overdue" and not "paid" is OVERDUE, a hint is
    PAID exactly when it holds "paid" and not "un", and no hint ever
    gives PARTIAL. *)
Theorem payment_hint_outcomes (s : string) :
  (PyStr.contains "unpaid" (PyStr.lower s) = true ->
   QueryAgent.payment_filter_of (Some s) = Some PaymentStatus.UNPAID)
  /\ (PyStr.contains "overdue" (PyStr.lower s) = true ->
      PyStr.contains "paid" (PyStr.lower s) = false ->
      QueryAgent.payment_filter_of (Some s) = Some PaymentStatus.OVERDUE)
  /\ (QueryAgent.payment_filter_of (Some s) = Some PaymentStatus.PAID
      <-> PyStr.contains "paid" (PyStr.lower s) = true
          /\ PyStr.contains "un" (PyStr.lower s) = false)
  /\ QueryAgent.payment_filter_of (Some s) <> Some PaymentStatus.PARTIAL.
Proof.
  split; [apply payment_filter_unpaid|].
  split; [apply payment_filter_overdue|].
  split.
  - split; [|intros [Hp Hu]; now apply payment_filter_paid].
    unfold QueryAgent.payment_filter_of.
    destruct (opt_truthy (Some s)); [|discriminate].
    destruct (PyStr.contains "paid" (PyStr.lower s)),
             (PyStr.contains "un" (PyStr.lower s)); cbn [andb negb];
      try (intros _; now split);
      destruct (_ || _)%bool; try discriminate;
      destruct (PyStr.contains "overdue" _); discriminate.
  - unfold QueryAgent.payment_filter_of.
    destruct (opt_truthy (Some s)); [|discriminate].
    destruct (_ && _)%bool; [discriminate|].
    destruct (_ || _)%bool; [discriminate|].
    destruct (PyStr.contains "overdue" _); discriminate.
Qed.

Lemma agg_type_canonical (aggregation : option string) (a : string) :
  QueryAgent.agg_type_of aggregation = Some a ->
  In a ["sum"; "count"; "average"; "min"; "max"].
Proof.
  unfold QueryAgent.agg_type_of.
  destruct aggregation as [s|]; [|discriminate].
  destruct (PyStr.truthy s); [|discriminate].
  repeat match goal with
         | |- context [if ?c then _ else _] => destruct c
         end;
    intros H; try discriminate H; injection H as <-; simpl; tauto.
Qed.

Lemma group_canonical (group_by : option string) (g : string) :
  QueryAgent.group_of group_by = Some g ->
  In g ["category"; "vendor"; "month"; "year"].
Proof.
  unfold QueryAgent.group_of.
  destruct group_by as [s|]; [|discriminate].
  destruct (PyStr.truthy s); [|discriminate].
  repeat match goal with
         | |- context [if ?c then _ else _] => destruct c
         end;
    intros H; try discriminate H; injection H as <-; simpl; tauto.
Qed.

(** X22.  The names the aggregation and grouping hints are mapped to are
    fixed points of the mapping: mapping its own result again changes
    nothing. *)
Theorem hint_mappings_are_idempotent (aggregation group_by : option string) :
  QueryAgent.agg_type_of (QueryAgent.agg_type_of aggregation)
  = QueryAgent.agg_type_of aggregation
  /\ QueryAgent.group_of (QueryAgent.group_of group_by)
     = QueryAgent.group_of group_by.
Proof.
  split.
  - destruct (QueryAgent.agg_type_of aggregation) as [a|] eqn:E;
      [|reflexivity].
    apply agg_type_canonical in E. simpl in E.
    repeat destruct E as [E|E]; try contradiction; subst a; reflexivity.
  - destruct (QueryAgent.group_of group_by) as [g|] eqn:E; [|reflexivity].
    apply group_canonical in E. simpl in E.
    repeat destruct E as [E|E]; try contradiction; subst g; reflexivity.
Qed.

(** X23.  Every query [intent_to_query] returns meets the field
    constraints of [StructuredQuery] (a known query type, canonical
    aggregation and grouping names, the default limit 10) and has both
    date bounds or neither; the question and the vendor hint pass through
    unchanged. *)
Theorem intent_to_query_is_well_formed (today : date)
    (query_id question : string) (intent : QueryIntent.t)
    (q : StructuredQuery.t) :
  QueryAgent.intent_to_query today query_id intent question = Ok q ->
  well_formed_query q
  /\ StructuredQuery.limit q = 10
  /\ is_some (StructuredQuery.date_from q)
     = is_some (StructuredQuery.date_to q)
  /\ StructuredQuery.original_question q = question
  /\ StructuredQuery.vendor_filter q = QueryIntent.vendor intent.
Proof.
  unfold QueryAgent.intent_to_query.
  destruct (QueryAgent._resolve_time_reference today _) as [[a b]|] eqn:Er;
    cbn [bind]; [|discriminate].
  apply resolver_both_or_none in Er.
  unfold StructuredQuery.new.
  destruct (PyStr.in_list _ StructuredQuery.query_types) eqn:Eq;
    [|discriminate].
  apply in_list_In in Eq.
  intros H; injection H as <-.
  unfold well_formed_query; cbn.
  repeat split; try assumption; try lia.
  - apply agg_type_canonical.
  - apply group_canonical.
Qed.

Lemma intent_to_query_is_well_formed_witness :
  well_formed_query
    (StructuredQuery.mk "query-1" "How much in total last year?" "aggregate"
       None None (Some (mkdate 2023 1 1)) (Some (mkdate 2023 12 31))
       None (Some "sum") (Some "category") 10).
Proof.
  apply (intent_to_query_is_well_formed Samples.today "query-1"
           "How much in total last year?"
           (QueryIntent.mk "aggregate" "total" None None (Some "Last year")
              None (Some "Total") (Some "type"))).
  vm_compute. reflexivity.
Defined.

(** X24.  Asked on a valid day of the years 2 to 9998, [intent_to_query]
    returns a query for each of the five query types, and for any other
    query type it raises the validation error of [StructuredQuery];
    nothing else in the intent can make it fail. *)
Theorem intent_to_query_fails_only_on_query_type (today : date)
    (query_id question : string) (intent : QueryIntent.t) :
  valid today = true ->
  2 <= year today <= 9998 ->
  (In (QueryIntent.query_type intent) StructuredQuery.query_types ->
   exists q : StructuredQuery.t,
     QueryAgent.intent_to_query today query_id intent question = Ok q)
  /\ (~ In (QueryIntent.query_type intent) StructuredQuery.query_types ->
      exists text : string,
        QueryAgent.intent_to_query today query_id intent question
        = Raise (Exn "ValidationError" text)).
Proof.
  intros Hv Hy. unfold QueryAgent.intent_to_query.
  destruct (resolver_returns today (QueryIntent.time_reference intent) Hv Hy)
    as [[a b] ->].
  cbn [bind]. unfold StructuredQuery.new.
  destruct (PyStr.in_list _ StructuredQuery.query_types) eqn:Eq.
  - split; [intros _; eexists; reflexivity|].
    intros Hn. apply in_list_In in Eq. contradiction.
  - split; [|intros _; eexists; reflexivity].
    intros Hin. apply in_list_In in Hin. congruence.
Qed.

Lemma intent_to_query_fails_only_on_query_type_witness :
  exists text : string,
    QueryAgent.intent_to_query Samples.today "query-1"
      (QueryIntent.mk "summary" "bill" None None None None None None)
      "Summarise my bills"
    = Raise (Exn "ValidationError" text).
Proof.
  apply (proj2 (intent_to_query_fails_only_on_query_type Samples.today
                  "query-1" "Summarise my bills"
                  (QueryIntent.mk "summary" "bill" None None None None None
                     None)
                  eq_refl ltac:(simpl; lia))).
  unfold StructuredQuery.query_types. simpl.
  intros H. repeat destruct H as [H|H]; try discriminate H. exact H.
Defined.

(** ** What the validation result says *)

Section ResultFacts.
Context {Store : Type} {storage_ops : BillStorageInterface Store}.
Variable storage : option Store.
Variable settings : AppSettings.t.

Lemma no_errors_issue_if (c : bool) (i : ValidationIssue.t)
  (l : list ValidationIssue.t) :
BillValidator.no_errors (BillValidator.issue_if c i l)
= (negb (c && BillValidator.is_error i) && BillValidator.no_errors l)%bool.
Proof.
unfold BillValidator.no_errors, BillValidator.issue_if.
destruct c; [|reflexivity].
rewrite existsb_app. simpl.
destruct (existsb BillValidator.is_error l), (BillValidator.is_error i);
  reflexivity.
Qed.

Lemma schema_valid_unfold (extracted : ExtractedBillData.t) :
fst (BillValidator._validate_schema extracted)
= match ExtractedBillData.total_amount extracted with
  | Some a => negb (Qle_bool a 0)
  | None => false
  end.
Proof.
unfold BillValidator._validate_schema. cbn [fst].
rewrite !no_errors_issue_if.
destruct (ExtractedBillData.total_amount extracted) as [a|].
- rewrite no_errors_issue_if. cbn.
  now rewrite !andb_false_r, !andb_true_r.
- rewrite no_errors_issue_if. cbn. now rewrite !andb_false_r.
Qed.

Lemma kinds_issue_if (c : bool) (i : ValidationIssue.t)
  (l : list ValidationIssue.t) :
Forall blocking_error_or_warning l -> blocking_error_or_warning i ->
Forall blocking_error_or_warning (BillValidator.issue_if c i l).
Proof. apply Forall_issue_if. Qed.

Lemma schema_issue_kinds (extracted : ExtractedBillData.t) :
Forall blocking_error_or_warning
  (snd (BillValidator._validate_schema extracted)).
Proof.
unfold BillValidator._validate_schema. cbn [snd].
repeat first
  [ apply kinds_issue_if;
    [|first [right; reflexivity | left; split; [reflexivity|discriminate]]]
  | match goal with
    | |- Forall _ (match ?o with Some _ => _ | None => _ end) =>
        destruct o
    end
  | apply Forall_nil ].
Qed.

Lemma warning_kind (l : list ValidationIssue.t) :
Forall is_warning l -> Forall blocking_error_or_warning l.
Proof. apply Forall_impl. intros i Hi. now right. Qed.

Lemma check_duplicates_only_warnings (extracted : ExtractedBillData.t) :
Forall is_warning (BillValidator._check_duplicates storage extracted).
Proof.
unfold BillValidator._check_duplicates.
destruct storage as [s|]; [|constructor].
destruct (ExtractedBillData.vendor extracted) as [v|]; [|constructor].
destruct (ExtractedBillData.bill_date extracted) as [d|]; [|constructor].
destruct (bill_exists s _ _ d) as [dup|]; [|constructor].
apply Forall_issue_if; [constructor|reflexivity].
Qed.

Lemma blocking_is_error (l : list ValidationIssue.t) :
Forall blocking_error_or_warning l ->
existsb (fun issue =>
           (String.eqb (ValidationIssue.severity issue) "error"
            && negb (String.eqb (ValidationIssue.field issue) "vendor"))%bool)
  l
= existsb BillValidator.is_error l.
Proof.
induction 1 as [|i l Hi _ IH]; [reflexivity|].
simpl. rewrite IH. f_equal. unfold BillValidator.is_error.
destruct Hi as [[He Hf]|Hw].
- rewrite He. apply String.eqb_neq in Hf. now rewrite Hf.
- now rewrite Hw.
Qed.

Lemma count_errors_and_warnings (l : list ValidationIssue.t) (acc : Z) :
Forall blocking_error_or_warning l ->
fold_left
  (fun acc issue =>
     if String.eqb (ValidationIssue.severity issue) "error"
     then acc + 1 else acc) l acc
+ py_len
    (map ValidationIssue.message
       (filter (fun issue =>
                  String.eqb (ValidationIssue.severity issue) "warning")
               l))
= acc + py_len l.
Proof.
intros H. revert acc. unfold py_len.
induction H as [|i l Hi _ IH]; intros acc; [simpl; lia|].
cbn [fold_left filter]. destruct Hi as [[He _]|Hw].
- rewrite He. cbn [String.eqb Ascii.eqb Bool.eqb].
  rewrite IH. cbn [Datatypes.length]. lia.
- rewrite Hw. cbn [String.eqb Ascii.eqb Bool.eqb].
  cbn [map Datatypes.length]. pose proof (IH acc). lia.
Qed.

(** The issues of a returned result, by the outcome of stage 1. *)
Lemma validate_issues (today : date) (extracted : ExtractedBillData.t)
  (check_duplicates : bool) (r : ValidationResult.t) :
BillValidator.validate storage settings today extracted check_duplicates
= Ok r ->
ValidationResult.is_valid r
= fst (BillValidator._validate_schema extracted)
/\ ValidationResult.can_proceed_with_review r
   = (is_some (ExtractedBillData.total_amount extracted)
      && negb (existsb
                 (fun issue =>
                    (String.eqb (ValidationIssue.severity issue) "error"
                     && negb (String.eqb (ValidationIssue.field issue)
                                "vendor"))%bool)
                 (ValidationResult.issues r)))%bool
/\ ValidationResult.warnings r
   = map ValidationIssue.message
       (filter (fun issue =>
                  String.eqb (ValidationIssue.severity issue) "warning")
               (ValidationResult.issues r))
/\ Forall blocking_error_or_warning (ValidationResult.issues r)
/\ BillValidator.no_errors (ValidationResult.issues r)
   = fst (BillValidator._validate_schema extracted).
Proof.
unfold BillValidator.validate.
pose proof (schema_issue_kinds extracted) as Hk.
assert (Hn : BillValidator.no_errors
               (snd (BillValidator._validate_schema extracted))
             = fst (BillValidator._validate_schema extracted))
  by reflexivity.
destruct (BillValidator._validate_schema extracted)
  as [schema_valid schema_issues].
cbn [fst snd] in *.
destruct schema_valid; cbn [bind app].
- destruct (BillValidator._validate_semantic settings today extracted)
    as [[ok issues]|] eqn:E; cbn [bind]; [|discriminate].
  destruct (validate_semantic_only_warnings _ _ _ _ _ E) as [-> W].
  pose proof (check_duplicates_only_warnings extracted) as Wd.
  intros H; injection H as <-; cbn.
  assert (Hall : Forall blocking_error_or_warning
                   (if check_duplicates
                    then ((schema_issues ++ issues)
                          ++ BillValidator._check_duplicates storage
                               extracted)%list
                    else (schema_issues ++ issues)%list)).
  { destruct check_duplicates; repeat (apply Forall_app; split);
      auto using warning_kind. }
  repeat split; try exact Hall.
  unfold BillValidator.no_errors in *.
  destruct check_duplicates; rewrite !existsb_app;
    apply negb_true_iff in Hn; rewrite Hn;
    apply no_errors_of_warnings, negb_true_iff in W; rewrite W;
    [apply no_errors_of_warnings, negb_true_iff in Wd; rewrite Wd|];
    reflexivity.
- intros H; injection H as <-; cbn. repeat split; assumption.
Qed.

(** X25.  Stage 1 passes exactly when a total amount was extracted and is
  greater than zero: a missing vendor, a missing date and a low
  confidence are warnings, and the error for an empty extraction needs
  a missing amount. *)
Theorem schema_valid_iff_positive_total (extracted : ExtractedBillData.t) :
fst (BillValidator._validate_schema extracted) = true
<-> exists a : Decimal,
      ExtractedBillData.total_amount extracted = Some a /\ (0 < a)%Q.
Proof.
rewrite schema_valid_unfold.
destruct (ExtractedBillData.total_amount extracted) as [a|].
- rewrite negb_true_iff, <- not_true_iff_false, Qle_bool_iff. split.
  + intros H. exists a. split; [reflexivity|]. now apply Qnot_le_lt.
  + intros [a' [Ha Hlt]]. injection Ha as <-. now apply Qlt_not_le.
- split; [discriminate|]. intros [a [Ha _]]. discriminate.
Qed.

(** X26.  In every result [validate] returns, [can_proceed_with_review]
  equals [is_valid]: the errors the validator raises are never on the
  vendor field, so the exemption of vendor errors changes nothing, and
  a result with an error cannot proceed to review. *)
Theorem can_proceed_iff_valid (today : date)
  (extracted : ExtractedBillData.t) (check_duplicates : bool)
  (r : ValidationResult.t) :
BillValidator.validate storage settings today extracted check_duplicates
= Ok r ->
ValidationResult.can_proceed_with_review r = ValidationResult.is_valid r.
Proof.
intros H.
destruct (validate_issues _ _ _ _ H) as [Hv [Hc [_ [Hk Hn]]]].
rewrite Hc, Hv, (blocking_is_error _ Hk).
fold (BillValidator.no_errors (ValidationResult.issues r)).
rewrite Hn, schema_valid_unfold.
destruct (ExtractedBillData.total_amount extracted); reflexivity.
Qed.

(** X27.  In every result [validate] returns, [has_errors] is the
  negation of [is_valid], and every issue is counted once: the number
  of errors and the number of warnings add up to the number of
  issues. *)
Theorem errors_and_warnings_account_for_issues (today : date)
  (extracted : ExtractedBillData.t) (check_duplicates : bool)
  (r : ValidationResult.t) :
BillValidator.validate storage settings today extracted check_duplicates
= Ok r ->
ValidationResultProps.has_errors r = negb (ValidationResult.is_valid r)
/\ ValidationResultProps.error_count r
   + py_len (ValidationResult.warnings r)
   = py_len (ValidationResult.issues r).
Proof.
intros H.
destruct (validate_issues _ _ _ _ H) as [Hv [_ [Hw [Hk Hn]]]].
split.
- rewrite Hv, <- Hn. unfold BillValidator.no_errors.
  now rewrite negb_involutive.
- unfold ValidationResultProps.error_count. rewrite Hw.
  now rewrite count_errors_and_warnings.
Qed.

End ResultFacts.

Lemma can_proceed_iff_valid_witness :
  exists r : ValidationResult.t,
    BillValidator.validate (None : option GoogleSheetsBillStorage.t)
      (AppSettings.mk (inject_Z 1000000) 7) Samples.today
      Samples.zero_amount true = Ok r
    /\ ValidationResult.can_proceed_with_review r
       = ValidationResult.is_valid r.
Proof.
  eexists. split; [vm_compute; reflexivity|].
  apply (can_proceed_iff_valid (storage_ops := GoogleSheets)
           None (AppSettings.mk (inject_Z 1000000) 7) Samples.today
           Samples.zero_amount true).
  vm_compute. reflexivity.
Defined.

Lemma errors_and_warnings_account_for_issues_witness :
  exists r : ValidationResult.t,
    BillValidator.validate (None : option GoogleSheetsBillStorage.t)
      (AppSettings.mk (inject_Z 1000000) 7) Samples.today
      Samples.ten_days_ahead true = Ok r
    /\ ValidationResultProps.has_errors r
       = negb (ValidationResult.is_valid r)
    /\ ValidationResultProps.error_count r
       + py_len (ValidationResult.warnings r)
       = py_len (ValidationResult.issues r).
Proof.
  eexists. split; [vm_compute; reflexivity|].
  apply (errors_and_warnings_account_for_issues (storage_ops := GoogleSheets)
           None (AppSettings.mk (inject_Z 1000000) 7) Samples.today
           Samples.ten_days_ahead true).
  vm_compute. reflexivity.
Defined.
